(** * html-knitter: the document transformation pass, embedded in Rocq

    The program (Go) reads an HTML file, walks the parsed tree once and
    writes it back: script elements, script preloads and inline event
    handlers are dropped on request, stylesheet links become inline style
    elements, fonts named in [@font-face] rules become [data:] URIs.

    Two source files are embedded: [main.go] (module [MainGo]) and the
    second Go file of the repository, the variant with image embedding
    (module [Part001]).  Functions they share word for word are embedded
    once.

    Go strings are byte strings: they are [string] here, one [ascii] per
    byte.  The standard library calls of the program ([strings], [filepath],
    [encoding/base64], [regexp] on the two fixed patterns, the child list
    operations of [golang.org/x/net/html]) are modelled in the modules
    [GoStrings], [Filepath], [Base64], [Regexp] and [Html].

    The tree is mutated in place in Go.  Here a function that follows
    [n.Parent] is handed the parent's child list around [n] (a [Family],
    or nothing for a nil parent) and returns it as the call leaves it;
    reading files and logging go through a [World]; a nil pointer
    dereference ends a computation without result. *)

From Stdlib Require Import Strings.String Strings.Ascii NArith ZArith List Bool Lia.
From stdpp Require Import base gmap strings list.

Local Open Scope string_scope.
Local Open Scope list_scope.

(** ** strings *)

Module GoStrings.

(** [strings.HasPrefix(s, prefix)] *)
Fixpoint HasPrefix (s prefix : string) {struct prefix} : bool :=
  match prefix, s with
  | EmptyString, _ => true
  | String p prefix', String c s' => Ascii.eqb c p && HasPrefix s' prefix'
  | String _ _, EmptyString => false
  end.

(** [s[k:]], the whole of [s] gone when [k] passes its end *)
Fixpoint drop (k : nat) (s : string) : string :=
  match k, s with
  | O, _ => s
  | S k', String _ s' => drop k' s'
  | S _, EmptyString => EmptyString
  end.

(** [s[:k]] *)
Fixpoint take (k : nat) (s : string) : string :=
  match k, s with
  | O, _ => EmptyString
  | S k', String c s' => String c (take k' s')
  | S _, EmptyString => EmptyString
  end.

(** The scan of [strings.Replace(s, old, new, -1)] for a non-empty [old]:
    the leftmost occurrence is replaced and the scan resumes behind it.
    [skip] counts the bytes of the current occurrence still to pass. *)
Fixpoint replaceFrom (old new : string) (skip : nat) (s : string) : string :=
  match s with
  | EmptyString => EmptyString
  | String c rest =>
      match skip with
      | S k => replaceFrom old new k rest
      | O =>
          if HasPrefix s old
          then new +:+ replaceFrom old new (String.length old - 1) rest
          else String c (replaceFrom old new 0 rest)
      end
  end.

(** An empty [old] matches before every byte and at the end (Go counts
    UTF-8 sequences there, which is the same on ASCII text). *)
Fixpoint insertAround (new s : string) : string :=
  match s with
  | EmptyString => new
  | String c rest => new +:+ String c (insertAround new rest)
  end.

(** [strings.Replace(s, old, new, -1)] *)
Definition Replace (s old new : string) : string :=
  match old with
  | EmptyString => insertAround new s
  | String _ _ => replaceFrom old new 0 s
  end.

Definition lowerByte (c : ascii) : ascii :=
  let n := N_of_ascii c in
  if (65 <=? n)%N && (n <=? 90)%N then ascii_of_N (n + 32) else c.

(** [strings.ToLower] on ASCII text: the bytes ['A'..'Z'] are lowered.
    Bytes above 127 are left alone here; Go lowers such runes to runes
    above 127 again, or to [k] and [i] (Kelvin sign, dotted capital I),
    so a name with such bytes is no key of the font table in Go either. *)
Fixpoint ToLower (s : string) : string :=
  match s with
  | EmptyString => EmptyString
  | String c s' => String (lowerByte c) (ToLower s')
  end.

(** [strings.Join(elems, sep)] *)
Fixpoint Join (elems : list string) (sep : string) : string :=
  match elems with
  | [] => EmptyString
  | [e] => e
  | e :: rest => e +:+ sep +:+ Join rest sep
  end.

(** [strings.Contains(s, substr)] *)
Fixpoint Contains (s substr : string) : bool :=
  HasPrefix s substr ||
  match s with
  | EmptyString => false
  | String _ s' => Contains s' substr
  end.

End GoStrings.

(** ** path/filepath (Unix) *)

Module Filepath.

Definition isSlash (c : ascii) : bool := Ascii.eqb c "/".
Definition isDot (c : ascii) : bool := Ascii.eqb c ".".

Fixpoint hasDotOrSlash (s : string) : bool :=
  match s with
  | EmptyString => false
  | String c s' => isDot c || isSlash c || hasDotOrSlash s'
  end.

(** [filepath.Ext(path)]: the suffix from the last dot of the last
    element of [path], empty when that element has no dot. *)
Fixpoint Ext (path : string) : string :=
  match path with
  | EmptyString => EmptyString
  | String c rest =>
      if hasDotOrSlash rest then Ext rest
      else if isDot c then path
      else EmptyString
  end.

(** the elements of [path] between slashes *)
Fixpoint elements (path : string) : list string :=
  match path with
  | EmptyString => [EmptyString]
  | String c rest =>
      if isSlash c then EmptyString :: elements rest
      else match elements rest with
           | e :: es => String c e :: es
           | [] => [String c EmptyString]
           end
  end.

(** One element in [filepath.Clean]; [out] holds the elements kept so
    far, last one first. *)
Definition cleanStep (rooted : bool) (out : list string) (e : string) : list string :=
  if String.eqb e EmptyString || String.eqb e "." then out
  else if String.eqb e ".." then
    match out with
    | top :: out' => if String.eqb top ".." then e :: out else out'
    | [] => if rooted then [] else [e]
    end
  else e :: out.

(** [filepath.Clean(path)] *)
Definition Clean (path : string) : string :=
  let rooted := GoStrings.HasPrefix path "/" in
  let out := rev (fold_left (cleanStep rooted) (elements path) []) in
  let body := GoStrings.Join out "/" in
  if rooted then "/" +:+ body
  else if String.eqb body EmptyString then "." else body.

(** [filepath.Join(a, b)] *)
Definition Join (a b : string) : string :=
  if negb (String.eqb a EmptyString) then Clean (a +:+ "/" +:+ b)
  else if negb (String.eqb b EmptyString) then Clean b
  else EmptyString.

End Filepath.

(** ** encoding/base64, the standard encoding (RFC 4648, section 4) *)

Module Base64.

(** [encodeStd], the alphabet of [base64.StdEncoding] *)
Definition encodeStd : string :=
  "ABCDEFGHIJKLMNOPQRSTUVWXYZabcdefghijklmnopqrstuvwxyz0123456789+/".

(** [StdPadding] *)
Definition padChar : ascii := "="%char.

(** [enc.encode[i]]; every index used is masked to six bits, so the
    lookup stays inside the alphabet. *)
Definition encode (i : N) : ascii :=
  match String.get (N.to_nat i) encodeStd with
  | Some c => c
  | None => padChar
  end.

Definition byte (c : ascii) : N := N_of_ascii c.

(** the four output bytes of a 24-bit group [val] *)
Definition sextet (val : N) (shift : N) : ascii :=
  encode (N.land (N.shiftr val shift) 63).

(** [base64.StdEncoding.EncodeToString(src)] *)
Fixpoint EncodeToString (src : string) : string :=
  match src with
  | EmptyString => EmptyString
  | String a EmptyString =>
      let val := N.shiftl (byte a) 16 in
      String (sextet val 18) (String (sextet val 12)
        (String padChar (String padChar EmptyString)))
  | String a (String b EmptyString) =>
      let val := N.lor (N.shiftl (byte a) 16) (N.shiftl (byte b) 8) in
      String (sextet val 18) (String (sextet val 12)
        (String (sextet val 6) (String padChar EmptyString)))
  | String a (String b (String c rest)) =>
      let val := N.lor (N.lor (N.shiftl (byte a) 16) (N.shiftl (byte b) 8)) (byte c) in
      String (sextet val 18) (String (sextet val 12)
        (String (sextet val 6) (String (sextet val 0) (EncodeToString rest))))
  end.

(** the position of [c] in an alphabet, counted from [i] *)
Fixpoint indexFrom (i : N) (alphabet : string) (c : ascii) : option N :=
  match alphabet with
  | EmptyString => None
  | String a rest => if Ascii.eqb a c then Some i else indexFrom (N.succ i) rest c
  end.

(** [enc.decodeMap[c]] *)
Definition decodeMap (c : ascii) : option N := indexFrom 0 encodeStd c.

Definition isPad (c : ascii) : bool := Ascii.eqb c padChar.

(** byte [k] (0, 1 or 2) of a 24-bit group *)
Definition octet (val : N) (k : N) : ascii :=
  ascii_of_N (N.land (N.shiftr val (16 - 8 * k)) 255).

Definition group (v0 v1 v2 v3 : N) : N :=
  N.lor (N.lor (N.shiftl v0 18) (N.shiftl v1 12)) (N.lor (N.shiftl v2 6) v3).

(** Decoding as RFC 4648 describes it: groups of four characters of the
    alphabet, padding only in the last group, nothing else accepted. *)
Fixpoint DecodeString (s : string) : option string :=
  match s with
  | EmptyString => Some EmptyString
  | String c0 (String c1 (String c2 (String c3 rest))) =>
      match decodeMap c0, decodeMap c1 with
      | Some v0, Some v1 =>
          if isPad c2 then
            if isPad c3 && String.eqb rest EmptyString then
              Some (String (octet (group v0 v1 0 0) 0) EmptyString)
            else None
          else
            match decodeMap c2 with
            | None => None
            | Some v2 =>
                if isPad c3 then
                  if String.eqb rest EmptyString then
                    let val := group v0 v1 v2 0 in
                    Some (String (octet val 0) (String (octet val 1) EmptyString))
                  else None
                else
                  match decodeMap c3 with
                  | None => None
                  | Some v3 =>
                      let val := group v0 v1 v2 v3 in
                      match DecodeString rest with
                      | Some tail =>
                          Some (String (octet val 0) (String (octet val 1)
                                 (String (octet val 2) tail)))
                      | None => None
                      end
                  end
            end
      | _, _ => None
      end
  | _ => None
  end.

End Base64.

(** ** regexp: the two patterns of the program *)

Module Regexp.

(** the length of the longest prefix of [s] whose bytes all satisfy [p] *)
Fixpoint span (p : ascii -> bool) (s : string) : nat :=
  match s with
  | EmptyString => 0
  | String c s' => if p c then S (span p s') else 0
  end.

(** [\s]: tab, line feed, form feed, carriage return, space *)
Definition isSpace (c : ascii) : bool :=
  let n := N_of_ascii c in
  (n =? 9)%N || (n =? 10)%N || (n =? 12)%N || (n =? 13)%N || (n =? 32)%N.

Definition isQuote (c : ascii) : bool :=
  Ascii.eqb c "'" || Ascii.eqb c (ascii_of_N 34).

Definition isParen (c : ascii) : bool :=
  Ascii.eqb c "(" || Ascii.eqb c ")".

(** [FindAll...(s, -1)]: the matches from left to right, none
    overlapping another.  [matchAt s] is the match that starts at the
    first byte of [s], as its length and its value; [skip] counts the
    bytes of the current match still to pass.  Neither pattern matches
    the empty string. *)
Fixpoint findAll {A} (matchAt : string -> option (nat * A)) (skip : nat)
         (s : string) : list A :=
  match s with
  | EmptyString => []
  | String _ rest =>
      match skip with
      | S k => findAll matchAt k rest
      | O =>
          match matchAt s with
          | Some (len, m) => m :: findAll matchAt (len - 1) rest
          | None => findAll matchAt 0 rest
          end
      end
  end.

(** [fontFaceRegex], [@font-face\s*{[^}]*}], at the first byte of [s].
    Every step is forced: white space cannot stand for the brace, and a
    body cannot run over a closing brace. *)
Definition fontFaceAt (s : string) : option (nat * string) :=
  if GoStrings.HasPrefix s "@font-face" then
    let s1 := GoStrings.drop 10 s in
    let k := span isSpace s1 in
    match GoStrings.drop k s1 with
    | String "{"%char s2 =>
        let m := span (fun c => negb (Ascii.eqb c "}")) s2 in
        match GoStrings.drop m s2 with
        | String _ _ =>
            let len := 10 + k + 1 + m + 1 in
            Some (len, GoStrings.take len s)
        | EmptyString => None
        end
    | _ => None
    end
  else None.

(** [fontFaceRegex.FindAllString(s, -1)] *)
Definition fontFaceRegex_FindAllString (s : string) : list string :=
  findAll fontFaceAt 0 s.

(** [fontUrlRegex] at the first byte of [s]: [url(], an optional quote
    (single or double), the group [/_next/] with one or more bytes that
    are neither quotes nor parentheses, an optional quote, [)].  The
    result is the whole match and the group.  Here too every step is
    forced: a quote cannot stand for the slash that opens the group, and
    the group ends at the first quote or parenthesis. *)
Definition fontUrlAt (s : string) : option (nat * list string) :=
  if GoStrings.HasPrefix s "url(" then
    let s1 := GoStrings.drop 4 s in
    let q1 := match s1 with
              | String c _ => if isQuote c then 1 else 0
              | EmptyString => 0
              end in
    let s2 := GoStrings.drop q1 s1 in
    if GoStrings.HasPrefix s2 "/_next/" then
      let m := span (fun c => negb (isQuote c || isParen c)) (GoStrings.drop 7 s2) in
      match m with
      | O => None
      | S _ =>
          let s4 := GoStrings.drop (7 + m) s2 in
          let q2 := match s4 with
                    | String c _ => if isQuote c then 1 else 0
                    | EmptyString => 0
                    end in
          match GoStrings.drop q2 s4 with
          | String ")"%char _ =>
              let len := 4 + q1 + (7 + m) + q2 + 1 in
              Some (len, [GoStrings.take len s; GoStrings.take (7 + m) s2])
          | _ => None
          end
      end
    else None
  else None.

(** [fontUrlRegex.FindAllStringSubmatch(s, -1)] *)
Definition fontUrlRegex_FindAllStringSubmatch (s : string) : list (list string) :=
  findAll fontUrlAt 0 s.

End Regexp.

(** ** golang.org/x/net/html: nodes and their child lists *)

Module Html.

Inductive NodeType : Set :=
| ErrorNode | TextNode | DocumentNode | ElementNode
| CommentNode | DoctypeNode | RawNode.

Definition NodeType_eqb (a b : NodeType) : bool :=
  match a, b with
  | ErrorNode, ErrorNode | TextNode, TextNode | DocumentNode, DocumentNode
  | ElementNode, ElementNode | CommentNode, CommentNode
  | DoctypeNode, DoctypeNode | RawNode, RawNode => true
  | _, _ => false
  end.

Record Attribute : Set := { Namespace : string; Key : string; Val : string }.

(** [html.Node] with the fields the program reads or writes.  The
    children, linked through [FirstChild] and [NextSibling] in Go, are a
    list in document order; [Parent] is not a field here but the
    [Family] handed to the functions that follow it. *)
#[local] Unset Elimination Schemes.
Inductive Node : Set :=
  mkNode { Type' : NodeType; Data : string; Attr : list Attribute;
           Children : list Node }.
#[local] Set Elimination Schemes.

Definition setAttr (n : Node) (attrs : list Attribute) : Node :=
  mkNode (Type' n) (Data n) attrs (Children n).

Definition setChildren (n : Node) (cs : list Node) : Node :=
  mkNode (Type' n) (Data n) (Attr n) cs.

(** [n.AppendChild(c)] *)
Definition AppendChild (n c : Node) : Node :=
  setChildren n (Children n ++ [c]).

(** What a node [n] sees through [n.Parent]: the parent's children
    before [n], whether [n] itself is still among them, and the children
    after [n]. *)
Record Family : Set :=
  { earlier : list Node; attached : bool; later : list Node }.

(** the parent's child list, [n] being the node the family is seen from *)
Definition childList (f : Family) (n : Node) : list Node :=
  earlier f ++ (if attached f then [n] else []) ++ later f.

(** [p.InsertBefore(newChild, n)] for the parent [p] of [n] *)
Definition InsertBefore (newChild : Node) (f : Family) : Family :=
  {| earlier := earlier f ++ [newChild]; attached := attached f; later := later f |}.

(** [p.RemoveChild(n)] for the parent [p] of [n] *)
Definition RemoveChild (f : Family) : Family :=
  {| earlier := earlier f; attached := false; later := later f |}.

(** the parent's child list up to the place of [n], that place included;
    a node without parent stands alone *)
Definition upTo (parent : option Family) (n : Node) : list Node :=
  match parent with
  | Some f => earlier f ++ (if attached f then [n] else [])
  | None => [n]
  end.

End Html.

Export Html.

(** ** The world outside: files, MIME table, log *)

Inductive Warning : Set :=
| CouldNotReadCSS (path : string)
| CouldNotReadFont (path : string)
| UnknownFontType (ext : string)
| CouldNotReadImage (path : string).

(** [files] gives the content of the readable files, [mimeTypes] is the
    table behind [mime.TypeByExtension]; [reads] records the paths handed
    to [os.ReadFile], [warnings] what [log.Printf] wrote, both oldest
    first. *)
Record World : Type :=
  { files : string -> option string;
    mimeTypes : string -> string;
    reads : list string;
    warnings : list Warning }.

(** A computation runs in a world and ends with a value and a world, or
    with the panic of a nil pointer dereference ([None]). *)
Definition M (A : Type) : Type := World -> option (A * World).

Definition ret {A} (a : A) : M A := fun w => Some (a, w).

Definition bind {A B} (c : M A) (k : A -> M B) : M B :=
  fun w => match c w with
           | Some (a, w') => k a w'
           | None => None
           end.

Definition panic {A} : M A := fun _ => None.

Notation "'let*' x := c 'in' k" := (bind c (fun x => k))
  (at level 10, x pattern, c at level 100, k at level 200).

(** [os.ReadFile(path)], the error left out of the result *)
Definition ReadFile (path : string) : M (option string) :=
  fun w => Some (files w path,
                 {| files := files w; mimeTypes := mimeTypes w;
                    reads := reads w ++ [path]; warnings := warnings w |}).

(** [log.Printf("Warning: ...")] *)
Definition Printf (msg : Warning) : M unit :=
  fun w => Some (tt,
                 {| files := files w; mimeTypes := mimeTypes w;
                    reads := reads w; warnings := warnings w ++ [msg] |}).

(** [mime.TypeByExtension(ext)] *)
Definition TypeByExtension (ext : string) : M string :=
  fun w => Some (mimeTypes w ext, w).

(** [n.Parent.RemoveChild(n)]: a nil parent is dereferenced *)
Definition Parent_RemoveChild (parent : option Family) : M (option Family) :=
  match parent with
  | Some f => ret (Some (RemoveChild f))
  | None => panic
  end.

(** [n.Parent.InsertBefore(newChild, n)]: a nil parent is dereferenced *)
Definition Parent_InsertBefore (newChild : Node) (parent : option Family)
  : M (option Family) :=
  match parent with
  | Some f => ret (Some (InsertBefore newChild f))
  | None => panic
  end.

(** [fmt.Sprintf("data:%s;base64,%s", mimeType, b64Content)] *)
Definition Sprintf_dataURL (mimeType b64Content : string) : string :=
  "data:" +:+ mimeType +:+ ";base64," +:+ b64Content.

(** ** Declarations the two files share word for word *)

Record Config : Type :=
  { inputFile : string;
    outputFile : string;
    removeJS : bool;
    baseDir : string;
    processedURLs : gmap string bool }.

(** [for _, a := range attrs { if a.Key == key { v = a.Val; break } }],
    [v] starting empty *)
Fixpoint firstVal (key : string) (attrs : list Attribute) : string :=
  match attrs with
  | [] => EmptyString
  | a :: rest => if String.eqb (Key a) key then Val a else firstVal key rest
  end.

Definition isPreloadJS (n : Node) : bool :=
  let '(rel, as') :=
    fold_left (fun '(rel, as') a =>
                 if String.eqb (Key a) "rel" then (Val a, as')
                 else if String.eqb (Key a) "as" then (rel, Val a)
                 else (rel, as'))
              (Attr n) (EmptyString, EmptyString) in
  String.eqb rel "preload" && String.eqb as' "script".

Definition isStylesheet (n : Node) : bool :=
  existsb (fun a => String.eqb (Key a) "rel" && String.eqb (Val a) "stylesheet")
          (Attr n).

Definition jsAttributes : list string :=
  [ "onclick"; "onload"; "onunload"; "onchange"; "onsubmit"; "onreset";
    "onselect"; "onblur"; "onfocus"; "onkeydown"; "onkeypress"; "onkeyup";
    "onmouseover"; "onmouseout"; "onmousedown"; "onmouseup"; "onmousemove" ].

(** the inner loop of [removeInlineJS] *)
Definition isJSAttr (attr : Attribute) : bool :=
  existsb (fun jsAttr => String.eqb (Key attr) jsAttr) jsAttributes.

Definition removeInlineJS (n : Node) : Node :=
  let newAttrs :=
    fold_left (fun newAttrs attr =>
                 if negb (isJSAttr attr) then newAttrs ++ [attr] else newAttrs)
              (Attr n) [] in
  setAttr n newAttrs.

(** [for _, x := range l { body }], the body acting on the loop's state *)
Fixpoint forEach {A S : Type} (body : S -> A -> M S) (l : list A) (s : S) : M S :=
  match l with
  | [] => ret s
  | x :: rest => let* s' := body s x in forEach body rest s'
  end.

(** ** main.go *)

Module MainGo.

Definition fontMimeTypes : gmap string string :=
  list_to_map
    [ (".woff2", "font/woff2");
      (".woff", "font/woff");
      (".ttf", "font/ttf");
      (".eot", "application/vnd.ms-fontobject");
      (".otf", "font/otf") ].

(** The body of the inner loop of [embedCSS] (lines 169-194), for one
    match [url] of [fontUrlRegex]; [continue] leaves [cssString] as it
    is. *)
Definition embedFont (config : Config) (cssString : string) (url : list string)
  : M string :=
  if Nat.leb 2 (length url) then
    let fontPath := nth 1 url EmptyString in
    let fullPath := Filepath.Join (baseDir config) fontPath in
    let* fontContent := ReadFile fullPath in
    match fontContent with
    | None =>
        let* _ := Printf (CouldNotReadFont fullPath) in
        ret cssString
    | Some fontContent =>
        let ext := GoStrings.ToLower (Filepath.Ext fontPath) in
        match fontMimeTypes !! ext with
        | None =>
            let* _ := Printf (UnknownFontType ext) in
            ret cssString
        | Some mimeType =>
            let b64Content := Base64.EncodeToString fontContent in
            let dataURL := Sprintf_dataURL mimeType b64Content in
            ret (GoStrings.Replace cssString (nth 1 url EmptyString) dataURL)
        end
    end
  else ret cssString.

(** Lines 162-196 of [embedCSS]: the font face rules are taken from the
    text as read, the replacements are made in the text as it stands. *)
Definition rewriteFontFaces (config : Config) (cssString : string) : M string :=
  let fontFaces := Regexp.fontFaceRegex_FindAllString cssString in
  forEach (fun cssString fontFace =>
             let urls := Regexp.fontUrlRegex_FindAllStringSubmatch fontFace in
             forEach (embedFont config) urls cssString)
          fontFaces cssString.

(** the style node built in lines 198-211 *)
Definition styleNode (cssString : string) : Node :=
  AppendChild
    (mkNode ElementNode "style"
            [ {| Namespace := EmptyString; Key := "type"; Val := "text/css" |} ] [])
    (mkNode TextNode cssString [] []).

(** The result is [n.Parent] as the call leaves it. *)
Definition embedCSS (n : Node) (config : Config) (parent : option Family)
  : M (option Family) :=
  let href := firstVal "href" (Attr n) in
  if String.eqb href EmptyString then ret parent
  else
    let href := if GoStrings.HasPrefix href "/_next"
                then Filepath.Join (baseDir config) href else href in
    let* cssContent := ReadFile href in
    match cssContent with
    | None =>
        let* _ := Printf (CouldNotReadCSS href) in
        ret parent
    | Some cssContent =>
        let* cssString := rewriteFontFaces config cssContent in
        let* parent := Parent_InsertBefore (styleNode cssString) parent in
        Parent_RemoveChild parent
    end.

(** Lines 104-127 of [processNode], the rules for the node itself.  The
    result tells whether the function returned, and gives [n] and
    [n.Parent] as they are then. *)
Definition nodeRules (n : Node) (config : Config) (parent : option Family)
  : M (bool * Node * option Family) :=
  if NodeType_eqb (Type' n) ElementNode then
    let* (returned, parent) :=
      if String.eqb (Data n) "script" then
        if removeJS config then
          let* parent := Parent_RemoveChild parent in
          ret (true, parent)
        else ret (false, parent)
      else if String.eqb (Data n) "link" then
        if isPreloadJS n && removeJS config then
          let* parent := Parent_RemoveChild parent in
          ret (true, parent)
        else if isStylesheet n then
          let* parent := embedCSS n config parent in
          ret (false, parent)
        else ret (false, parent)
      else ret (false, parent) in
    if returned then ret (true, n, parent)
    else if removeJS config then ret (false, removeInlineJS n, parent)
    else ret (false, n, parent)
  else ret (false, n, parent).

(** [processNode(n, config)].  The result is [n] and [n.Parent] as the
    call leaves them.  The loop over the children takes each child from
    the list as it was before the child was visited ([next] is read
    first); [done] is the part of the child list already behind the
    cursor. *)
Fixpoint processNode (n : Node) (config : Config) (parent : option Family)
         {struct n} : M (Node * option Family) :=
  let* (returned, n', parent) := nodeRules n config parent in
  if returned then ret (n', parent)
  else
    let* children :=
      (fix loop (done : list Node) (cs : list Node) {struct cs} : M (list Node) :=
         match cs with
         | [] => ret done
         | c :: next =>
             let* (c', p) :=
               processNode c config
                 (Some {| earlier := done; attached := true; later := next |}) in
             loop (upTo p c') next
         end) [] (Children n) in
    ret (setChildren n' children, parent).

(** the loop of [processNode] over the children still to visit *)
Fixpoint processChildren (config : Config) (done cs : list Node)
  : M (list Node) :=
  match cs with
  | [] => ret done
  | c :: next =>
      let* (c', p) :=
        processNode c config
          (Some {| earlier := done; attached := true; later := next |}) in
      processChildren config (upTo p c') next
  end.

(** the path [embedCSS] hands to [os.ReadFile] for the link [n] *)
Definition cssPath (n : Node) (config : Config) : string :=
  let href := firstVal "href" (Attr n) in
  if GoStrings.HasPrefix href "/_next"
  then Filepath.Join (baseDir config) href else href.

Inductive Error : Set :=
| ErrOpeningInput | ErrParsing | ErrCreatingOutput | ErrWritingOutput.

Section Driver.

(** [html.Parse] on the bytes of the input file, [html.Render] to the
    bytes written, and whether [os.Create] opens the output file. *)
Variable Parse : string -> option Node.
Variable Render : Node -> option string.
Variable Create : string -> bool.

(** [processHTML(config)]: the error returned, or the bytes written to
    the output file. *)
Definition processHTML (config : Config) : M (Error + string) :=
  fun w =>
    match files w (inputFile config) with
    | None => ret (inl ErrOpeningInput) w
    | Some file =>
        match Parse file with
        | None => ret (inl ErrParsing) w
        | Some doc =>
            (let* (doc, _) := processNode doc config None in
             if Create (outputFile config) then
               match Render doc with
               | Some out => ret (inr out)
               | None => ret (inl ErrWritingOutput)
               end
             else ret (inl ErrCreatingOutput)) w
        end
    end.

End Driver.

End MainGo.

(** ** The second Go file: the variant with image embedding

    [Config], [processHTML], [processNode], [isPreloadJS], [isStylesheet]
    and [removeInlineJS] read as in [main.go]; [processNode] does not call
    [embedImage]. *)

Module Part001.

(** The result is [n.Parent] as the call leaves it. *)
Definition embedCSS (n : Node) (config : Config) (parent : option Family)
  : M (option Family) :=
  let href := firstVal "href" (Attr n) in
  if String.eqb href EmptyString then ret parent
  else
    let href := if GoStrings.HasPrefix href "/_next"
                then Filepath.Join (baseDir config) href else href in
    let* cssContent := ReadFile href in
    match cssContent with
    | None =>
        let* _ := Printf (CouldNotReadCSS href) in
        ret parent
    | Some cssContent =>
        let styleNode :=
          AppendChild
            (mkNode ElementNode "style"
                    [ {| Namespace := EmptyString; Key := "type"; Val := "text/css" |} ] [])
            (mkNode TextNode cssContent [] []) in
        let* parent := Parent_InsertBefore styleNode parent in
        Parent_RemoveChild parent
    end.

(** [for i, a := range attrs { if a.Key == key { attrs[i].Val = val; break } }] *)
Fixpoint setFirstVal (key val : string) (attrs : list Attribute) : list Attribute :=
  match attrs with
  | [] => []
  | a :: rest =>
      if String.eqb (Key a) key
      then {| Namespace := Namespace a; Key := Key a; Val := val |} :: rest
      else a :: setFirstVal key val rest
  end.

(** [config.processedURLs[src]] *)
Definition processed (config : Config) (src : string) : bool :=
  default false (processedURLs config !! src).

(** [config.processedURLs[src] = true] *)
Definition markProcessed (config : Config) (src : string) : Config :=
  {| inputFile := inputFile config; outputFile := outputFile config;
     removeJS := removeJS config; baseDir := baseDir config;
     processedURLs := <[src := true]> (processedURLs config) |}.

(** the path [embedImage] hands to [os.ReadFile] for the image [n] *)
Definition imagePath (n : Node) (config : Config) : string :=
  let src := firstVal "src" (Attr n) in
  if GoStrings.HasPrefix src "/_next"
  then Filepath.Join (baseDir config) src else src.

(** [embedImage(n, config)].  The result is [n] and [config] as the call
    leaves them. *)
Definition embedImage (n : Node) (config : Config) : M (Node * Config) :=
  let src := firstVal "src" (Attr n) in
  if String.eqb src EmptyString || processed config src then ret (n, config)
  else
    let src := if GoStrings.HasPrefix src "/_next"
               then Filepath.Join (baseDir config) src else src in
    let* imgContent := ReadFile src in
    match imgContent with
    | None =>
        let* _ := Printf (CouldNotReadImage src) in
        ret (n, config)
    | Some imgContent =>
        let* mimeType := TypeByExtension (Filepath.Ext src) in
        let mimeType := if String.eqb mimeType EmptyString
                        then "image/png" else mimeType in
        let b64Content := Base64.EncodeToString imgContent in
        let dataURL := Sprintf_dataURL mimeType b64Content in
        let n := setAttr n (setFirstVal "src" dataURL (Attr n)) in
        ret (n, markProcessed config src)
    end.

End Part001.

(** ** Notions used in the statements *)

(** a script element *)
Definition isScript (n : Node) : bool :=
  NodeType_eqb (Type' n) ElementNode && String.eqb (Data n) "script".

(** a link element *)
Definition isLink (n : Node) : bool :=
  NodeType_eqb (Type' n) ElementNode && String.eqb (Data n) "link".

(** no script element in the tree of [n], [n] included *)
Fixpoint scriptFree (n : Node) : bool :=
  negb (isScript n) && forallb scriptFree (Children n).

(** no link element in the tree of [n], [n] included *)
Fixpoint linkFree (n : Node) : bool :=
  negb (isLink n) && forallb linkFree (Children n).

Definition sumOf (l : list nat) : nat := fold_right Nat.add 0 l.

(** the nodes of the tree of [n], [n] included, that are not script
    elements *)
Fixpoint nonScriptNodes (n : Node) : nat :=
  (if isScript n then 0 else 1) + sumOf (map nonScriptNodes (Children n)).

(** the non-script descendants of [n] *)
Definition nonScriptDescendants (n : Node) : nat :=
  sumOf (map nonScriptNodes (Children n)).

(** the nodes of the tree of [n], [n] included, that are neither script
    elements nor below one *)
Fixpoint outsideScripts (n : Node) : nat :=
  if isScript n then 0 else 1 + sumOf (map outsideScripts (Children n)).

(** a stylesheet link that [processNode] hands to [embedCSS] and whose
    CSS file is read, with JS removal enabled *)
Definition embedded (fs : string -> option string) (config : Config) (n : Node) : bool :=
  isLink n && negb (isPreloadJS n) && isStylesheet n &&
  negb (String.eqb (firstVal "href" (Attr n)) EmptyString) &&
  match fs (MainGo.cssPath n config) with Some _ => true | None => false end.

(** What a run with JS removal leaves of the tree of [n], as a number of
    nodes: nothing of a script element or a script preload, a style
    element and its text for an embedded stylesheet link, and otherwise
    [n] with what is left of its children. *)
Fixpoint survivors (fs : string -> option string) (config : Config) (n : Node) : nat :=
  if isScript n || (isLink n && isPreloadJS n) then 0
  else if embedded fs config n then 2
  else 1 + sumOf (map (survivors fs config) (Children n)).

(** a computation that never panics and leaves the files and the MIME
    table as they are *)
Definition total {A} (c : M A) : Prop :=
  forall w, exists a w',
    c w = Some (a, w') /\ files w' = files w /\ mimeTypes w' = mimeTypes w.

(** [n] after lines 123-126 of [processNode] *)
Definition strip (config : Config) (n : Node) : Node :=
  if NodeType_eqb (Type' n) ElementNode && removeJS config
  then removeInlineJS n else n.

(** the world after [os.ReadFile(path)] *)
Definition afterRead (w : World) (path : string) : World :=
  {| files := files w; mimeTypes := mimeTypes w;
     reads := reads w ++ [path]; warnings := warnings w |}.

(** a byte of the base64 alphabet or the padding byte *)
Definition isBase64Byte (c : ascii) : bool :=
  match Base64.decodeMap c with Some _ => true | None => Base64.isPad c end.

(** every byte of [s] satisfies [p] *)
Fixpoint allBytes (p : ascii -> bool) (s : string) : bool :=
  match s with
  | EmptyString => true
  | String c s' => p c && allBytes p s'
  end.

(** the world after a failed [os.ReadFile(path)] and the warning [msg] *)
Definition afterFailedRead (w : World) (path : string) (msg : Warning) : World :=
  {| files := files w; mimeTypes := mimeTypes w;
     reads := reads w ++ [path]; warnings := warnings w ++ [msg] |}.

(** with a parent, the walk of [n] ends without panic *)
Definition walks (n : Node) : Prop :=
  forall config f w, exists n' f' w',
    MainGo.processNode n config (Some f) w = Some ((n', Some f'), w') /\
    files w' = files w /\ mimeTypes w' = mimeTypes w.

(** With JS removal, the walk of an attached node [n] ends and leaves at
    the place of [n] nodes without script elements, [survivors] of them in
    number; the siblings are as they were. *)
Definition tidy (n : Node) : Prop :=
  forall config f w,
    removeJS config = true -> attached f = true ->
    exists n' f' w' place,
      MainGo.processNode n config (Some f) w = Some ((n', Some f'), w') /\
      files w' = files w /\
      upTo (Some f') n' = earlier f ++ place /\
      later f' = later f /\
      forallb scriptFree place = true /\
      sumOf (map nonScriptNodes place) = survivors (files w) config n.

(** ** Concrete documents, files and configurations *)

Module Scenario.

Definition attr (k v : string) : Attribute :=
  {| Namespace := EmptyString; Key := k; Val := v |}.
Definition element (d : string) (a : list Attribute) (c : list Node) : Node :=
  mkNode ElementNode d a c.
Definition text (d : string) : Node := mkNode TextNode d [] [].
Definition document (c : list Node) : Node := mkNode DocumentNode EmptyString [] c.

Definition styleCSS : string :=
  "/* /_next/static/font.woff2 */ @font-face{font-family:X;src:url('/_next/static/font.woff2')}".

(** two font face rules, and the second path once more in a comment *)
Definition twoFontsCSS : string :=
  "@font-face{src:url(/_next/a.woff)} @font-face{src:url(/_next/b.ttf)} /* /_next/b.ttf */".

(** two font face rules, the first path a prefix of the second *)
Definition prefixFontsCSS : string :=
  "@font-face{src:url(/_next/a.woff)} @font-face{src:url(/_next/a.woff2)}".

(** the files next to [site/index.html] *)
Definition fs (path : string) : option string :=
  if String.eqb path "style.css" then Some styleCSS
  else if String.eqb path "site/_next/static/font.woff2" then Some "foobar"
  else if String.eqb path "site/_next/logo.png" then Some "PNG"
  else if String.eqb path "site/_next/a.woff" then Some "A"
  else if String.eqb path "site/_next/a.woff2" then Some "A2"
  else if String.eqb path "site/_next/b.ttf" then Some "B"
  else if String.eqb path "site/index.html" then Some "<html>"
  else None.

Definition world : World :=
  {| files := fs;
     mimeTypes := fun ext => if String.eqb ext ".png" then "image/png" else EmptyString;
     reads := []; warnings := [] |}.

Definition config : Config :=
  {| inputFile := "site/index.html"; outputFile := "site/out.html";
     removeJS := true; baseDir := "site"; processedURLs := ∅ |}.

(** a script with its text, a script preload, a [div] with a handler *)
Definition withScript : Node :=
  document
    [ element "html" []
        [ element "head" []
            [ element "script" [] [ text "alert(1)" ];
              element "link" [ attr "rel" "preload"; attr "as" "script";
                               attr "href" "a.js" ] [] ];
          element "body" []
            [ element "div" [ attr "onclick" "f()" ] [ text "hi" ] ] ] ].

Definition stylesheetLink : Node :=
  element "link" [ attr "rel" "stylesheet"; attr "href" "style.css" ] [].

Definition missingLink : Node :=
  element "link" [ attr "rel" "stylesheet"; attr "href" "missing.css" ] [].

Definition family : Family :=
  {| earlier := [ element "title" [] [ text "t" ] ]; attached := true;
     later := [ element "meta" [] [] ] |}.

Definition image : Node :=
  element "img" [ attr "alt" "logo"; attr "src" "/_next/logo.png" ] [].

(** a script and a [div] with a handler, no link *)
Definition scriptAndDiv : Node :=
  document
    [ element "html" []
        [ element "head" [] [ element "script" [] [ text "alert(1)" ] ];
          element "body" []
            [ element "div" [ attr "onclick" "f()"; attr "onClick" "g()" ]
                      [ text "hi" ] ] ] ].

(** the parser, the serializer and [os.Create] of a run on [withLink] *)
Definition withLink : Node :=
  document [ element "html" [] [ element "head" [] [ missingLink ] ] ].
Definition Parse (file : string) : option Node := Some withLink.
Definition Render (doc : Node) : option string := Some "<html>".
Definition Create (path : string) : bool := true.

End Scenario.

(** ** Notions used in the further statements *)

(** an element node *)
Definition isElement (n : Node) : bool := NodeType_eqb (Type' n) ElementNode.

(** an attribute that is none of [jsAttributes] *)
Definition notHandler (a : Attribute) : bool := negb (isJSAttr a).

(** no element in the tree of [n], [n] included, carries an attribute of
    [jsAttributes] *)
Fixpoint handlerFree (n : Node) : bool :=
  (negb (isElement n) || forallb notHandler (Attr n))
  && forallb handlerFree (Children n).

(** [processNode] detaches [n] in its first rules *)
Definition detaches (config : Config) (n : Node) : bool :=
  (isScript n || (isLink n && isPreloadJS n)) && removeJS config.

(** [processNode] hands [n] to [embedCSS], its CSS file is read and the
    link replaced *)
Definition embeds (fs : string -> option string) (config : Config) (n : Node) : bool :=
  negb (detaches config n) && isLink n && isStylesheet n &&
  negb (String.eqb (firstVal "href" (Attr n)) EmptyString) &&
  match fs (MainGo.cssPath n config) with Some _ => true | None => false end.

(** Nothing in the tree of [n] for [processNode] to change: no node it
    detaches, no link it replaces and, under JS removal, no handler
    attribute on an element. *)
Fixpoint settled (fs : string -> option string) (config : Config) (n : Node) : bool :=
  negb (detaches config n) && negb (embeds fs config n) &&
  (negb (removeJS config && isElement n) || forallb notHandler (Attr n)) &&
  forallb (settled fs config) (Children n).

(** The walk of an attached node [n] ends; it leaves at most one node at
    the place of [n], a settled one, and the siblings as they were. *)
Definition settles (n : Node) : Prop :=
  forall config f w,
    attached f = true ->
    exists n' f' w' place,
      MainGo.processNode n config (Some f) w = Some ((n', Some f'), w') /\
      files w' = files w /\ mimeTypes w' = mimeTypes w /\
      upTo (Some f') n' = earlier f ++ place /\
      childList f' n' = earlier f ++ place ++ later f /\
      length place <= 1 /\
      forallb (settled (files w) config) place = true.

(** The walk of a settled node [n] leaves it as it is, whatever its
    parent; without link elements below it, it leaves the world as it is
    too. *)
Definition rests (n : Node) : Prop :=
  forall config parent w,
    settled (files w) config n = true ->
    exists w',
      MainGo.processNode n config parent w = Some ((n, parent), w') /\
      files w' = files w /\ mimeTypes w' = mimeTypes w /\
      (linkFree n = true -> w' = w).

(** the matches of [fontUrlRegex] in the font face rules of a CSS text, in
    the order [embedCSS] takes them *)
Definition fontUrlMatches (cssString : string) : list (list string) :=
  concat (map Regexp.fontUrlRegex_FindAllStringSubmatch
              (Regexp.fontFaceRegex_FindAllString cssString)).

(** the file [embedCSS] reads for a match of [fontUrlRegex] *)
Definition fontFile (config : Config) (url : list string) : string :=
  Filepath.Join (baseDir config) (nth 1 url EmptyString).

(** a match of [fontUrlRegex] whose font is not embedded: the file cannot
    be read, or its extension is not in the font table *)
Definition fontFails (fs : string -> option string) (config : Config)
           (url : list string) : bool :=
  match fs (fontFile config url) with
  | None => true
  | Some _ =>
      match MainGo.fontMimeTypes
              !! GoStrings.ToLower (Filepath.Ext (nth 1 url EmptyString)) with
      | None => true
      | Some _ => false
      end
  end.

(** no script preload link in the tree of [n], [n] included *)
Fixpoint preloadFree (n : Node) : bool :=
  negb (isLink n && isPreloadJS n) && forallb preloadFree (Children n).

(** a stylesheet link with an href whose CSS file can be read *)
Definition pending (fs : string -> option string) (config : Config) (n : Node) : bool :=
  isLink n && isStylesheet n &&
  negb (String.eqb (firstVal "href" (Attr n)) EmptyString) &&
  match fs (MainGo.cssPath n config) with Some _ => true | None => false end.

(** no such link in the tree of [n], [n] included *)
Fixpoint allEmbedded (fs : string -> option string) (config : Config) (n : Node) : bool :=
  negb (pending fs config n) && forallb (allEmbedded fs config) (Children n).

(** * The library models on known values *)

(** the test vectors of RFC 4648, section 10 *)
Example EncodeToString_vectors :
  map Base64.EncodeToString [ EmptyString; "f"; "fo"; "foo"; "foob"; "fooba"; "foobar" ]
  = [ EmptyString; "Zg=="; "Zm8="; "Zm9v"; "Zm9vYg=="; "Zm9vYmE="; "Zm9vYmFy" ].
Proof. reflexivity. Qed.

Example DecodeString_rejects :
  map Base64.DecodeString [ "Zm9"; "Zg==Zg=="; "Z==="; "Zm 9v" ] = [ None; None; None; None ].
Proof. reflexivity. Qed.

Example Join_values :
  map (fun '(a, b) => Filepath.Join a b)
      [ ("site", "/_next/static/font.woff2"); (".", "/_next/x"); ("/", "/_next/x");
        ("a/b", "../c"); ("a", EmptyString) ]
  = [ "site/_next/static/font.woff2"; "_next/x"; "/_next/x"; "a/c"; "a" ].
Proof. reflexivity. Qed.

Example Ext_values :
  map Filepath.Ext [ "/_next/static/font.woff2"; "a/b.c/d"; "archive.tar.gz"; "a/.x"; "x" ]
  = [ ".woff2"; EmptyString; ".gz"; ".x"; EmptyString ].
Proof. reflexivity. Qed.

Example Replace_values :
  GoStrings.Replace "aaa" "aa" "b" = "ba" /\
  GoStrings.Replace "x/_next/f y/_next/f" "/_next/f" "D" = "xD yD" /\
  GoStrings.Replace "ab" EmptyString "-" = "-a-b-".
Proof. repeat split. Qed.

Example fontFaceRegex_values :
  Regexp.fontFaceRegex_FindAllString
    "a{} @font-face {src:url(/_next/a.woff)} b @font-face{} @font-face x {} @font-face{"
  = [ "@font-face {src:url(/_next/a.woff)}"; "@font-face{}" ].
Proof. reflexivity. Qed.

Example fontUrlRegex_values :
  Regexp.fontUrlRegex_FindAllStringSubmatch
    "src:url('/_next/a.woff2') url(/_next/b.ttf) url(/fonts/c.ttf) url(/_next/) url(/_next/x(y))"
  = [ [ "url('/_next/a.woff2')"; "/_next/a.woff2" ]; [ "url(/_next/b.ttf)"; "/_next/b.ttf" ] ].
Proof. reflexivity. Qed.

(** * Attribute stripping *)

Lemma fold_append_filter (p : Attribute -> bool) (l acc : list Attribute) :
  fold_left (fun newAttrs attr => if p attr then newAttrs ++ [attr] else newAttrs) l acc
  = acc ++ List.filter p l.
Proof.
  revert acc. induction l as [|a l IH]; intros acc; simpl.
  - now rewrite app_nil_r.
  - rewrite IH. destruct (p a); simpl; [|reflexivity].
    now rewrite <- app_assoc.
Qed.

Lemma removeInlineJS_filter (n : Node) :
  Attr (removeInlineJS n) = List.filter (fun a => negb (isJSAttr a)) (Attr n).
Proof. unfold removeInlineJS. simpl. now rewrite fold_append_filter. Qed.

Lemma filter_twice {A} (p : A -> bool) (l : list A) :
  List.filter p (List.filter p l) = List.filter p l.
Proof.
  induction l as [|a l IH]; simpl; [reflexivity|].
  destruct (p a) eqn:E; simpl; [rewrite E|]; now rewrite ?IH.
Qed.

Lemma isJSAttr_In (a : Attribute) : isJSAttr a = true <-> In (Key a) jsAttributes.
Proof.
  unfold isJSAttr. rewrite existsb_exists. split.
  - intros (x & Hx & E). apply String.eqb_eq in E. now subst.
  - intros H. exists (Key a). split; [assumption|apply String.eqb_refl].
Qed.

(** C8: stripping the event handler attributes twice gives the node that
    stripping them once gives; so the attribute lists are the same. *)
Theorem removeInlineJS_idempotent (n : Node) :
  removeInlineJS (removeInlineJS n) = removeInlineJS n /\
  Attr (removeInlineJS (removeInlineJS n)) = Attr (removeInlineJS n).
Proof.
  assert (E : Attr (removeInlineJS (removeInlineJS n)) = Attr (removeInlineJS n)).
  { rewrite (removeInlineJS_filter (removeInlineJS n)), removeInlineJS_filter.
    apply filter_twice. }
  split; [|exact E].
  unfold removeInlineJS at 1. unfold setAttr.
  change (fold_left _ (Attr (removeInlineJS n)) []) with (Attr (removeInlineJS (removeInlineJS n))).
  rewrite E. destruct n; reflexivity.
Qed.

(** C9: [removeInlineJS] keeps the attributes in their order and drops
    exactly those whose key is, byte for byte, one of the seventeen names
    of [jsAttributes]; an attribute with any other key stays, [onerror]
    and [onClick] among them.  Nothing else of the node changes. *)
Theorem removeInlineJS_exact (n : Node) :
  length jsAttributes = 17 /\
  jsAttributes =
    [ "onclick"; "onload"; "onunload"; "onchange"; "onsubmit"; "onreset";
      "onselect"; "onblur"; "onfocus"; "onkeydown"; "onkeypress"; "onkeyup";
      "onmouseover"; "onmouseout"; "onmousedown"; "onmouseup"; "onmousemove" ] /\
  Attr (removeInlineJS n)
    = List.filter (fun a => negb (existsb (String.eqb (Key a)) jsAttributes)) (Attr n) /\
  (forall a, In a (Attr (removeInlineJS n)) <->
             In a (Attr n) /\ ~ In (Key a) jsAttributes) /\
  (forall a, In a (Attr n) -> Key a = "onerror" \/ Key a = "onClick" ->
             In a (Attr (removeInlineJS n))) /\
  Type' (removeInlineJS n) = Type' n /\
  Data (removeInlineJS n) = Data n /\
  Children (removeInlineJS n) = Children n.
Proof.
  assert (Hin : forall a, In a (Attr (removeInlineJS n)) <->
                          In a (Attr n) /\ ~ In (Key a) jsAttributes).
  { intros a. rewrite removeInlineJS_filter, filter_In, negb_true_iff.
    rewrite <- isJSAttr_In. destruct (isJSAttr a); intuition congruence. }
  split; [reflexivity|]. split; [reflexivity|].
  split; [apply removeInlineJS_filter|]. split; [exact Hin|].
  split; [|destruct n; repeat split].
  intros a Ha [E|E]; apply Hin; (split; [assumption|]); rewrite E;
    unfold jsAttributes; simpl; intuition discriminate.
Qed.

Lemma removeInlineJS_exact_witness :
  Attr (removeInlineJS (Scenario.element "div"
          [ Scenario.attr "onclick" "f()"; Scenario.attr "onClick" "g()";
            Scenario.attr "onerror" "h()"; Scenario.attr "id" "x" ] []))
  = [ Scenario.attr "onClick" "g()"; Scenario.attr "onerror" "h()"; Scenario.attr "id" "x" ] /\
  In (Scenario.attr "onerror" "h()")
     (Attr (removeInlineJS (Scenario.element "div"
          [ Scenario.attr "onclick" "f()"; Scenario.attr "onClick" "g()";
            Scenario.attr "onerror" "h()"; Scenario.attr "id" "x" ] []))).
Proof.
  destruct (removeInlineJS_exact (Scenario.element "div"
          [ Scenario.attr "onclick" "f()"; Scenario.attr "onClick" "g()";
            Scenario.attr "onerror" "h()"; Scenario.attr "id" "x" ] []))
    as (_ & _ & H3 & _ & H5 & _).
  split; [rewrite H3; reflexivity|].
  apply H5; [simpl; tauto|left; reflexivity].
Defined.

(** * Computations *)

Lemma total_ret {A} (a : A) : total (ret a).
Proof. intros w. now exists a, w. Qed.

Lemma total_bind {A B} (c : M A) (k : A -> M B) :
  total c -> (forall a, total (k a)) -> total (bind c k).
Proof.
  intros Hc Hk w. destruct (Hc w) as (a & w1 & E & F & T).
  destruct (Hk a w1) as (b & w2 & E2 & F2 & T2).
  exists b, w2. unfold bind. rewrite E. repeat split; congruence.
Qed.

Lemma total_ReadFile (path : string) : total (ReadFile path).
Proof. intros w. unfold ReadFile. eexists _, _. repeat split. Qed.

Lemma total_Printf (msg : Warning) : total (Printf msg).
Proof. intros w. unfold Printf. eexists _, _. repeat split. Qed.

Lemma total_TypeByExtension (ext : string) : total (TypeByExtension ext).
Proof. intros w. unfold TypeByExtension. eexists _, _. repeat split. Qed.

Lemma total_forEach {A S} (body : S -> A -> M S) (l : list A) :
  (forall s x, total (body s x)) -> forall s, total (forEach body l s).
Proof.
  intros Hb. induction l as [|x l IH]; intros s; simpl.
  - apply total_ret.
  - apply total_bind; [apply Hb|apply IH].
Qed.

Ltac total_step :=
  first [ apply total_ret | apply total_ReadFile | apply total_Printf
        | apply total_TypeByExtension
        | apply total_bind; [|intros ?]
        | apply total_forEach; intros ? ? ].

Lemma total_embedFont config cssString url :
  total (MainGo.embedFont config cssString url).
Proof.
  unfold MainGo.embedFont. destruct (Nat.leb 2 (length url)); [|total_step].
  total_step; [total_step|].
  destruct a; [|repeat total_step].
  destruct (MainGo.fontMimeTypes !! _); repeat total_step.
Qed.

Lemma total_rewriteFontFaces config cssString :
  total (MainGo.rewriteFontFaces config cssString).
Proof.
  unfold MainGo.rewriteFontFaces. total_step. total_step. apply total_embedFont.
Qed.

(** * The child list under [embedCSS] *)

Lemma embedCSS_unfold n config parent w :
  firstVal "href" (Attr n) <> EmptyString ->
  MainGo.embedCSS n config parent w =
  (let* cssContent := ReadFile (MainGo.cssPath n config) in
   match cssContent with
   | None =>
       let* _ := Printf (CouldNotReadCSS (MainGo.cssPath n config)) in
       ret parent
   | Some cssContent =>
       let* cssString := MainGo.rewriteFontFaces config cssContent in
       let* parent := Parent_InsertBefore (MainGo.styleNode cssString) parent in
       Parent_RemoveChild parent
   end) w.
Proof.
  intros H. unfold MainGo.embedCSS.
  destruct (String.eqb_spec (firstVal "href" (Attr n)) EmptyString); [contradiction|].
  reflexivity.
Qed.

Lemma embedCSS_missing_file n config parent w :
  firstVal "href" (Attr n) <> EmptyString ->
  files w (MainGo.cssPath n config) = None ->
  MainGo.embedCSS n config parent w
  = Some (parent, afterFailedRead w (MainGo.cssPath n config)
                    (CouldNotReadCSS (MainGo.cssPath n config))).
Proof.
  intros Hh Hf. rewrite embedCSS_unfold by assumption.
  unfold bind, ReadFile. rewrite Hf. reflexivity.
Qed.

Lemma embedCSS_read n config parent w cssContent :
  firstVal "href" (Attr n) <> EmptyString ->
  files w (MainGo.cssPath n config) = Some cssContent ->
  exists cssString w',
    files w' = files w /\ mimeTypes w' = mimeTypes w /\
    MainGo.embedCSS n config parent w =
      match parent with
      | Some f => Some (Some (RemoveChild (InsertBefore (MainGo.styleNode cssString) f)), w')
      | None => None
      end.
Proof.
  intros Hh Hf. rewrite embedCSS_unfold by assumption.
  unfold bind at 1. unfold ReadFile. rewrite Hf.
  destruct (total_rewriteFontFaces config cssContent
              {| files := files w; mimeTypes := mimeTypes w;
                 reads := reads w ++ [MainGo.cssPath n config];
                 warnings := warnings w |}) as (css & w' & E & F & T).
  exists css, w'. split; [exact F|]. split; [exact T|].
  unfold bind. rewrite E. destruct parent; reflexivity.
Qed.

(** C6: a stylesheet link whose CSS file is read is replaced in its
    parent's child list by the new style element, at the same index: an
    element node named [style] with the one attribute [type] of value
    [text/css] and one child, the text node of the CSS as rewritten; the
    children before and after it are the same nodes in the same order. *)
Theorem embedCSS_replaces_in_place
        (n : Node) (config : Config) (f : Family) (w : World) (cssContent : string) :
  attached f = true ->
  firstVal "href" (Attr n) <> EmptyString ->
  files w (MainGo.cssPath n config) = Some cssContent ->
  exists cssString style f' w',
    MainGo.rewriteFontFaces config cssContent (afterRead w (MainGo.cssPath n config))
    = Some (cssString, w') /\
    Type' style = ElementNode /\ Data style = "style" /\
    Attr style = [ {| Namespace := EmptyString; Key := "type"; Val := "text/css" |} ] /\
    Children style = [ mkNode TextNode cssString [] [] ] /\
    MainGo.embedCSS n config (Some f) w = Some (Some f', w') /\
    childList f n = earlier f ++ n :: later f /\
    childList f' n = earlier f ++ style :: later f /\
    length (childList f' n) = length (childList f n) /\
    childList f' n !! length (earlier f) = Some style /\
    (forall j, j <> length (earlier f) -> childList f' n !! j = childList f n !! j).
Proof.
  intros Ha Hh Hf.
  destruct (total_rewriteFontFaces config cssContent
              (afterRead w (MainGo.cssPath n config))) as (css & w' & E & _).
  exists css, (MainGo.styleNode css),
         (RemoveChild (InsertBefore (MainGo.styleNode css) f)), w'.
  split; [exact E|].
  split; [reflexivity|]. split; [reflexivity|]. split; [reflexivity|].
  split; [reflexivity|].
  split.
  { rewrite embedCSS_unfold by assumption.
    unfold bind at 1. unfold ReadFile. rewrite Hf.
    fold (afterRead w (MainGo.cssPath n config)).
    unfold bind at 1. rewrite E. reflexivity. }
  unfold childList, RemoveChild, InsertBefore. simpl. rewrite Ha. simpl.
  rewrite <- app_assoc. simpl.
  split; [reflexivity|]. split; [reflexivity|].
  split; [rewrite !length_app; reflexivity|].
  split.
  - rewrite lookup_app_r by lia. now rewrite Nat.sub_diag.
  - intros j Hj. destruct (Nat.lt_ge_cases j (length (earlier f))) as [L|G].
    + now rewrite !lookup_app_l by assumption.
    + rewrite !lookup_app_r by assumption.
      destruct (j - length (earlier f)) eqn:D; [lia|reflexivity].
Qed.

Lemma embedCSS_replaces_in_place_witness :
  attached Scenario.family = true /\
  firstVal "href" (Attr Scenario.stylesheetLink) <> EmptyString /\
  files Scenario.world (MainGo.cssPath Scenario.stylesheetLink Scenario.config)
  = Some Scenario.styleCSS /\
  exists cssString style f' w',
    MainGo.rewriteFontFaces Scenario.config Scenario.styleCSS
      (afterRead Scenario.world (MainGo.cssPath Scenario.stylesheetLink Scenario.config))
    = Some (cssString, w') /\
    Type' style = ElementNode /\ Data style = "style" /\
    Attr style = [ {| Namespace := EmptyString; Key := "type"; Val := "text/css" |} ] /\
    Children style = [ mkNode TextNode cssString [] [] ] /\
    MainGo.embedCSS Scenario.stylesheetLink Scenario.config (Some Scenario.family)
      Scenario.world = Some (Some f', w') /\
    childList Scenario.family Scenario.stylesheetLink
    = earlier Scenario.family ++ Scenario.stylesheetLink :: later Scenario.family /\
    childList f' Scenario.stylesheetLink
    = earlier Scenario.family ++ style :: later Scenario.family /\
    length (childList f' Scenario.stylesheetLink)
    = length (childList Scenario.family Scenario.stylesheetLink) /\
    childList f' Scenario.stylesheetLink !! length (earlier Scenario.family)
    = Some style /\
    (forall j, j <> length (earlier Scenario.family) ->
               childList f' Scenario.stylesheetLink !! j
               = childList Scenario.family Scenario.stylesheetLink !! j).
Proof.
  split; [reflexivity|]. split; [discriminate|]. split; [reflexivity|].
  apply (embedCSS_replaces_in_place Scenario.stylesheetLink Scenario.config
           Scenario.family Scenario.world Scenario.styleCSS).
  - reflexivity.
  - discriminate.
  - reflexivity.
Defined.

(** * The walk *)

Lemma Node_induction (P : Node -> Prop) :
  (forall t d a cs, Forall P cs -> P (mkNode t d a cs)) -> forall n, P n.
Proof.
  intros H. fix IH 1. intros [t d a cs]. apply H.
  induction cs as [|c cs IHcs]; constructor; [apply IH|exact IHcs].
Qed.

Lemma processNode_unfold n config parent w :
  MainGo.processNode n config parent w =
  (let* (returned, n', parent) := MainGo.nodeRules n config parent in
   if returned then ret (n', parent)
   else
     let* children := MainGo.processChildren config [] (Children n) in
     ret (setChildren n' children, parent)) w.
Proof.
  destruct n as [t d a cs]. simpl. unfold bind.
  destruct (MainGo.nodeRules _ _ _ w) as [[[[r n'] p] w1]|]; [|reflexivity].
  destruct r; [reflexivity|].
  assert (E : forall done w,
             (fix loop (done cs : list Node) {struct cs} : M (list Node) :=
                match cs with
                | [] => ret done
                | c :: next =>
                    fun w => match MainGo.processNode c config
                                     (Some {| earlier := done; attached := true; later := next |}) w with
                             | Some (a, w') => (let (c', p) := a in loop (upTo p c') next) w'
                             | None => None
                             end
                end) done cs w = MainGo.processChildren config done cs w).
  { clear. induction cs as [|c cs IH]; intros done w; simpl; [reflexivity|].
    unfold bind. destruct (MainGo.processNode c config _ w) as [[[c' p] w']|]; [|reflexivity].
    apply IH. }
  rewrite E. reflexivity.
Qed.

Lemma nodeRules_cases n config parent w :
  MainGo.nodeRules n config parent w =
  (if (isScript n || (isLink n && isPreloadJS n)) && removeJS config then
     let* parent := Parent_RemoveChild parent in
     ret (true, n, parent)
   else
     let* parent := (if isLink n && isStylesheet n
                     then MainGo.embedCSS n config parent else ret parent) in
     ret (false, strip config n, parent)) w.
Proof.
  unfold MainGo.nodeRules, isScript, isLink, strip.
  destruct (NodeType_eqb (Type' n) ElementNode); simpl; [|reflexivity].
  destruct (String.eqb_spec (Data n) "script") as [Es|Es].
  - destruct (String.eqb_spec (Data n) "link") as [El|El]; [congruence|].
    simpl. destruct (removeJS config); simpl; [|reflexivity].
    unfold bind. destruct parent; reflexivity.
  - simpl. destruct (String.eqb (Data n) "link"); simpl.
    + destruct (isPreloadJS n), (removeJS config); simpl;
        try (unfold bind; destruct parent; reflexivity);
        destruct (isStylesheet n); simpl; try reflexivity;
        unfold bind; destruct (MainGo.embedCSS n config parent w) as [[? ?]|]; reflexivity.
    + destruct (removeJS config); reflexivity.
Qed.

Lemma embedCSS_parent n config parent w :
  exists parent' w',
    (MainGo.embedCSS n config parent w = Some (parent', w') \/
     parent = None /\ MainGo.embedCSS n config parent w = None) /\
    files w' = files w /\ mimeTypes w' = mimeTypes w /\
    (parent = None <-> parent' = None).
Proof.
  destruct (String.eqb_spec (firstVal "href" (Attr n)) EmptyString) as [E|E].
  - exists parent, w. unfold MainGo.embedCSS. rewrite E. simpl. tauto.
  - destruct (files w (MainGo.cssPath n config)) as [css|] eqn:F.
    + destruct (embedCSS_read n config parent w css E F) as (s & w' & Hf & Hm & Hr).
      destruct parent as [f|].
      * eexists _, w'. split; [left; exact Hr|]. repeat split; congruence.
      * exists None, w'. split; [right; tauto|]. tauto.
    + exists parent, (afterFailedRead w (MainGo.cssPath n config)
                                      (CouldNotReadCSS (MainGo.cssPath n config))).
      split; [left|simpl; tauto].
      rewrite embedCSS_unfold by assumption. unfold bind, ReadFile. rewrite F. reflexivity.
Qed.

(** with a parent, the rules for the node never panic *)
Lemma nodeRules_some n config f w :
  exists returned n' f' w',
    MainGo.nodeRules n config (Some f) w = Some ((returned, n', Some f'), w') /\
    files w' = files w /\ mimeTypes w' = mimeTypes w.
Proof.
  rewrite nodeRules_cases.
  destruct ((isScript n || isLink n && isPreloadJS n) && removeJS config).
  - simpl. eexists _, _, _, _. unfold bind, ret. simpl. repeat split.
  - destruct (isLink n && isStylesheet n).
    + destruct (embedCSS_parent n config (Some f) w) as (p & w' & [E|[E _]] & Hf & Hm & Hp);
        [|discriminate].
      destruct p as [f'|]; [|destruct Hp as [_ Hp]; now specialize (Hp eq_refl)].
      eexists _, _, f', w'. unfold bind. rewrite E. repeat split; assumption.
    + eexists _, _, f, w. unfold bind, ret. repeat split.
Qed.

Lemma processChildren_some config cs :
  Forall walks cs ->
  forall done w, exists cs' w',
    MainGo.processChildren config done cs w = Some (cs', w') /\
    files w' = files w /\ mimeTypes w' = mimeTypes w.
Proof.
  induction 1 as [|c cs Hc _ IH]; intros done w; simpl.
  - exists done, w. repeat split.
  - destruct (Hc config {| earlier := done; attached := true; later := cs |} w)
      as (c' & f' & w1 & E & Hf & Hm).
    unfold bind. rewrite E.
    destruct (IH (upTo (Some f') c') w1) as (cs' & w2 & E2 & Hf2 & Hm2).
    exists cs', w2. repeat split; congruence.
Qed.

Lemma processNode_some n : walks n.
Proof.
  induction n as [t d a cs IH] using Node_induction.
  intros config f w. rewrite processNode_unfold.
  destruct (nodeRules_some (mkNode t d a cs) config f w)
    as (r & n' & f' & w1 & E & Hf & Hm).
  unfold bind at 1. rewrite E. destruct r.
  - exists n', f', w1. repeat split; assumption.
  - destruct (processChildren_some config cs IH [] w1) as (cs' & w2 & E2 & Hf2 & Hm2).
    unfold bind. simpl. rewrite E2.
    eexists _, f', w2. repeat split; congruence.
Qed.

(** a node that is not an element is walked without a parent as well *)
Lemma processNode_root n config w :
  Type' n <> ElementNode ->
  exists cs' w',
    MainGo.processChildren config [] (Children n) w = Some (cs', w') /\
    MainGo.processNode n config None w = Some ((setChildren n cs', None), w') /\
    files w' = files w /\ mimeTypes w' = mimeTypes w.
Proof.
  intros Ht. rewrite processNode_unfold. unfold bind at 1. rewrite nodeRules_cases.
  assert (Et : NodeType_eqb (Type' n) ElementNode = false)
    by (destruct (Type' n); try reflexivity; congruence).
  unfold isScript, isLink, strip. rewrite Et. simpl.
  assert (Hcs : Forall walks (Children n))
    by (apply Forall_forall; intros; apply processNode_some).
  destruct (processChildren_some config (Children n) Hcs [] w) as (cs' & w' & E & Hf & Hm).
  exists cs', w'. unfold bind, ret. rewrite E. repeat split; assumption.
Qed.

(** C10: [processNode] dereferences [n.Parent] in its two detach branches
    and, through [embedCSS], in the replacement, without a nil check.
    When every element node has a parent (the node the walk starts from
    has one, or it is not an element), the walk ends without the panic.
    Started with JS removal on a script element without parent or on a
    script preload link without parent, it panics; so it does, with or
    without JS removal, on a stylesheet link without parent whose CSS file
    is read. *)
Theorem nil_parent_unreachable :
  (forall n config parent w,
      (parent = None -> Type' n <> ElementNode) ->
      exists n' parent' w',
        MainGo.processNode n config parent w = Some ((n', parent'), w')) /\
  (forall n config w,
      removeJS config = true -> isScript n = true ->
      MainGo.processNode n config None w = None) /\
  (forall n config w,
      removeJS config = true -> isLink n = true -> isPreloadJS n = true ->
      MainGo.processNode n config None w = None) /\
  (forall n config w cssContent,
      isLink n = true -> isStylesheet n = true ->
      firstVal "href" (Attr n) <> EmptyString ->
      files w (MainGo.cssPath n config) = Some cssContent ->
      MainGo.processNode n config None w = None).
Proof.
  split; [|split; [|split]].
  - intros n config [f|] w H.
    + destruct (processNode_some n config f w) as (n' & f' & w' & E & _).
      now exists n', (Some f'), w'.
    + destruct (processNode_root n config w (H eq_refl)) as (cs' & w' & _ & E & _).
      eexists _, None, w'. exact E.
  - intros n config w Hjs Hs.
    rewrite processNode_unfold. unfold bind at 1. rewrite nodeRules_cases, Hjs, Hs.
    reflexivity.
  - intros n config w Hjs Hl Hp.
    rewrite processNode_unfold. unfold bind at 1. rewrite nodeRules_cases, Hjs, Hl, Hp.
    rewrite orb_true_r. reflexivity.
  - intros n config w css Hl Hs Hh Hf.
    rewrite processNode_unfold. unfold bind at 1. rewrite nodeRules_cases, Hl, Hs.
    destruct ((isScript n || true && isPreloadJS n) && removeJS config); [reflexivity|].
    simpl. unfold bind at 1.
    destruct (embedCSS_read n config None w css Hh Hf) as (s & w' & _ & _ & E).
    now rewrite E.
Qed.

Lemma nil_parent_unreachable_witness :
  (exists n' parent' w',
      MainGo.processNode Scenario.withScript Scenario.config None Scenario.world
      = Some ((n', parent'), w')) /\
  MainGo.processNode (Scenario.element "script" [] [ Scenario.text "alert(1)" ])
    Scenario.config None Scenario.world = None /\
  MainGo.processNode
    (Scenario.element "link" [ Scenario.attr "rel" "preload"; Scenario.attr "as" "script" ] [])
    Scenario.config None Scenario.world = None /\
  MainGo.processNode Scenario.stylesheetLink Scenario.config None Scenario.world = None.
Proof.
  destruct nil_parent_unreachable as (H1 & H2 & H3 & H4).
  split; [|split; [|split]].
  - apply (H1 Scenario.withScript Scenario.config None Scenario.world).
    intros _. simpl. discriminate.
  - apply (H2 _ Scenario.config Scenario.world); reflexivity.
  - apply (H3 _ Scenario.config Scenario.world); reflexivity.
  - apply (H4 Scenario.stylesheetLink Scenario.config Scenario.world Scenario.styleCSS);
      try reflexivity. discriminate.
Defined.

(** C7: when the CSS file of a stylesheet link cannot be read, [embedCSS]
    writes the warning and returns with the parent's child list as it was,
    whatever the parent; [processNode] then leaves the link at its place
    (the node after the attribute rule, with its children walked); and a
    run on a parsed document still ends with the output written. *)
Theorem embedCSS_unreadable (n : Node) (config : Config) (w : World) :
  firstVal "href" (Attr n) <> EmptyString ->
  files w (MainGo.cssPath n config) = None ->
  let path := MainGo.cssPath n config in
  let w1 := afterFailedRead w path (CouldNotReadCSS path) in
  (forall parent, MainGo.embedCSS n config parent w = Some (parent, w1)) /\
  (forall f,
      isLink n = true -> isStylesheet n = true ->
      isPreloadJS n && removeJS config = false ->
      exists cs w',
        MainGo.processChildren config [] (Children n) w1 = Some (cs, w') /\
        MainGo.processNode n config (Some f) w
        = Some ((setChildren (strip config n) cs, Some f), w')) /\
  (forall Parse Render Create file doc,
      files w (inputFile config) = Some file ->
      Parse file = Some doc ->
      Type' doc = DocumentNode ->
      Create (outputFile config) = true ->
      (forall d, Render d <> None) ->
      exists out w',
        MainGo.processHTML Parse Render Create config w = Some (inr out, w')).
Proof.
  intros Hh Hf path w1.
  assert (He : forall parent, MainGo.embedCSS n config parent w = Some (parent, w1))
    by (intros parent; now apply embedCSS_missing_file).
  split; [exact He|]. split.
  - intros f Hl Hs Hp.
    assert (Hcs : Forall walks (Children n))
      by (apply Forall_forall; intros; apply processNode_some).
    destruct (processChildren_some config (Children n) Hcs [] w1) as (cs & w' & E & _).
    exists cs, w'. split; [exact E|].
    rewrite processNode_unfold. unfold bind at 1. rewrite nodeRules_cases.
    rewrite Hl, Hs. simpl.
    assert (Hn : (isScript n || isPreloadJS n) && removeJS config = false).
    { unfold isScript, isLink in *.
      apply andb_true_iff in Hl as [_ Hl]. apply String.eqb_eq in Hl.
      rewrite Hl. simpl. rewrite andb_false_r. exact Hp. }
    rewrite Hn. unfold bind at 1. rewrite He. unfold bind, ret. simpl. rewrite E.
    reflexivity.
  - intros Parse Render Create file doc Hin Hparse Hdoc Hcreate Hrender.
    assert (Ht : Type' doc <> ElementNode) by (rewrite Hdoc; discriminate).
    destruct (processNode_root doc config w Ht) as (cs & w' & _ & E & _).
    destruct (Render (setChildren doc cs)) as [out|] eqn:R; [|now apply Hrender in R].
    exists out, w'. unfold MainGo.processHTML. rewrite Hin, Hparse.
    unfold bind. rewrite E, Hcreate, R. reflexivity.
Qed.

Lemma embedCSS_unreadable_witness :
  firstVal "href" (Attr Scenario.missingLink) <> EmptyString /\
  files Scenario.world (MainGo.cssPath Scenario.missingLink Scenario.config) = None /\
  MainGo.embedCSS Scenario.missingLink Scenario.config (Some Scenario.family) Scenario.world
  = Some (Some Scenario.family,
          afterFailedRead Scenario.world "missing.css" (CouldNotReadCSS "missing.css")) /\
  (exists cs w',
      MainGo.processChildren Scenario.config [] (Children Scenario.missingLink)
        (afterFailedRead Scenario.world "missing.css" (CouldNotReadCSS "missing.css"))
      = Some (cs, w') /\
      MainGo.processNode Scenario.missingLink Scenario.config (Some Scenario.family)
        Scenario.world
      = Some ((setChildren (strip Scenario.config Scenario.missingLink) cs,
               Some Scenario.family), w')) /\
  (exists out w',
      MainGo.processHTML Scenario.Parse Scenario.Render Scenario.Create Scenario.config
        Scenario.world = Some (inr out, w')).
Proof.
  assert (Hh : firstVal "href" (Attr Scenario.missingLink) <> EmptyString) by discriminate.
  assert (Hf : files Scenario.world (MainGo.cssPath Scenario.missingLink Scenario.config) = None)
    by reflexivity.
  destruct (embedCSS_unreadable Scenario.missingLink Scenario.config Scenario.world Hh Hf)
    as (H1 & H2 & H3).
  split; [exact Hh|]. split; [exact Hf|]. split; [apply H1|]. split.
  - apply H2; reflexivity.
  - apply (H3 Scenario.Parse Scenario.Render Scenario.Create "<html>" Scenario.withLink);
      try reflexivity. discriminate.
Defined.

(** * Script removal *)

Lemma scriptFree_unfold n :
  scriptFree n = negb (isScript n) && forallb scriptFree (Children n).
Proof. destruct n; reflexivity. Qed.

Lemma nonScriptNodes_unfold n :
  nonScriptNodes n = (if isScript n then 0 else 1) + sumOf (map nonScriptNodes (Children n)).
Proof. destruct n; reflexivity. Qed.

Lemma survivors_unfold fs config n :
  survivors fs config n =
  if isScript n || (isLink n && isPreloadJS n) then 0
  else if embedded fs config n then 2
  else 1 + sumOf (map (survivors fs config) (Children n)).
Proof. destruct n; reflexivity. Qed.

Lemma outsideScripts_unfold n :
  outsideScripts n = if isScript n then 0 else 1 + sumOf (map outsideScripts (Children n)).
Proof. destruct n; reflexivity. Qed.

Lemma linkFree_unfold n :
  linkFree n = negb (isLink n) && forallb linkFree (Children n).
Proof. destruct n; reflexivity. Qed.

Lemma sum_app l1 l2 : sumOf (l1 ++ l2) = sumOf l1 + sumOf l2.
Proof. induction l1; simpl; lia. Qed.

Lemma isScript_strip config n cs :
  isScript (setChildren (strip config n) cs) = isScript n.
Proof.
  unfold strip. destruct (NodeType_eqb (Type' n) ElementNode && removeJS config);
    destruct n; reflexivity.
Qed.

Lemma Children_strip config n cs :
  Children (setChildren (strip config n) cs) = cs.
Proof. reflexivity. Qed.

Lemma processChildren_tidy config cs :
  removeJS config = true ->
  Forall tidy cs ->
  forall done w, exists cs' w' places,
    MainGo.processChildren config done cs w = Some (cs', w') /\
    files w' = files w /\
    cs' = done ++ places /\
    forallb scriptFree places = true /\
    sumOf (map nonScriptNodes places) = sumOf (map (survivors (files w) config) cs).
Proof.
  intros Hjs. induction 1 as [|c cs Hc _ IH]; intros done w; simpl.
  - exists done, w, []. rewrite app_nil_r. repeat split.
  - destruct (Hc config {| earlier := done; attached := true; later := cs |} w Hjs eq_refl)
      as (c' & f' & w1 & place & E & Hf & Hu & _ & Hs & Hn).
    unfold bind. rewrite E.
    destruct (IH (upTo (Some f') c') w1) as (cs' & w2 & places & E2 & Hf2 & Hc2 & Hs2 & Hn2).
    exists cs', w2, (place ++ places). split; [exact E2|]. split; [congruence|].
    split; [rewrite Hc2, Hu; simpl; now rewrite app_assoc|].
    split; [rewrite forallb_app, Hs, Hs2; reflexivity|].
    rewrite map_app, sum_app, Hn, Hn2, Hf. reflexivity.
Qed.

Lemma embedded_false_survivors fs config n :
  isScript n || (isLink n && isPreloadJS n) = false ->
  embedded fs config n = false ->
  survivors fs config n = 1 + sumOf (map (survivors fs config) (Children n)).
Proof. intros H1 H2. now rewrite survivors_unfold, H1, H2. Qed.

Lemma processNode_tidy n : tidy n.
Proof.
  induction n as [t d a cs IH] using Node_induction.
  pose (n := mkNode t d a cs). assert (Hcs : Children n = cs) by reflexivity.
  change (tidy n). clearbody n. clear t d a.
  intros config f w Hjs Ha.
  rewrite processNode_unfold. unfold bind at 1. rewrite nodeRules_cases, Hjs, andb_true_r.
  destruct (isScript n || isLink n && isPreloadJS n) eqn:Hrm.
  - (* detached *)
    exists n, (RemoveChild f), w, [].
    split; [reflexivity|]. split; [reflexivity|].
    split; [simpl; now rewrite app_nil_r|]. split; [reflexivity|].
    split; [reflexivity|]. now rewrite survivors_unfold, Hrm.
  - (* what the walk of the children gives, in any world with these files *)
    assert (Hkids : forall w1, files w1 = files w ->
              exists cs' w',
                MainGo.processChildren config [] cs w1 = Some (cs', w') /\
                files w' = files w /\
                forallb scriptFree cs' = true /\
                sumOf (map nonScriptNodes cs') = sumOf (map (survivors (files w) config) cs)).
    { intros w1 Hw1.
      destruct (processChildren_tidy config cs Hjs IH [] w1)
        as (cs' & w' & places & E & Hf & Hc & Hs & Hn).
      simpl in Hc. subst places. exists cs', w'. rewrite Hw1 in *. repeat split; assumption. }
    (* the node stays at its place *)
    assert (Hstay : forall w1, files w1 = files w ->
              embedded (files w) config n = false ->
              exists n' f' w' place,
                (let* children := MainGo.processChildren config [] (Children n) in
                 ret (setChildren (strip config n) children, Some f)) w1
                = Some ((n', Some f'), w') /\
                files w' = files w /\
                upTo (Some f') n' = earlier f ++ place /\
                later f' = later f /\
                forallb scriptFree place = true /\
                sumOf (map nonScriptNodes place) = survivors (files w) config n).
    { intros w1 Hw1 Hemb. destruct (Hkids w1 Hw1) as (cs' & w' & E & Hf & Hs & Hn).
      exists (setChildren (strip config n) cs'), f, w', [setChildren (strip config n) cs'].
      unfold bind, ret. rewrite Hcs, E. simpl upTo. rewrite Ha.
      repeat split; try assumption.
      - cbn [forallb]. rewrite scriptFree_unfold, isScript_strip, Children_strip, Hs.
        apply orb_false_iff in Hrm as [-> _]. reflexivity.
      - cbn [map]. unfold sumOf at 1. cbn [fold_right]. rewrite nonScriptNodes_unfold, isScript_strip, Children_strip, Hn.
        rewrite (embedded_false_survivors _ _ n Hrm Hemb), Hcs.
        apply orb_false_iff in Hrm as [-> _]. simpl. lia. }
    simpl negb. cbv iota.
    destruct (isLink n && isStylesheet n) eqn:Hls.
    + (* a stylesheet link *)
      apply andb_true_iff in Hls as [Hl Hs].
      destruct (String.eqb_spec (firstVal "href" (Attr n)) EmptyString) as [Eh|Eh].
      * unfold bind at 1. unfold MainGo.embedCSS. rewrite Eh. simpl String.eqb. cbv iota.
        unfold ret at 1. apply Hstay; [reflexivity|].
        unfold embedded. rewrite Eh. simpl. now rewrite !andb_false_r.
      * destruct (files w (MainGo.cssPath n config)) as [css|] eqn:Hcss.
        -- destruct (embedCSS_read n config (Some f) w css Eh Hcss)
             as (s & w1 & Hf1 & _ & E).
           unfold bind at 1. rewrite E.
           destruct (Hkids w1 Hf1) as (cs' & w' & E2 & Hf2 & _ & _).
           eexists _, _, w', [MainGo.styleNode s].
           unfold bind, ret. rewrite Hcs, E2.
           split; [reflexivity|]. split; [exact Hf2|].
           split; [simpl; now rewrite app_nil_r|]. split; [reflexivity|].
           split; [reflexivity|].
           rewrite survivors_unfold, Hrm. unfold embedded. rewrite Hl, Hs, Hcss.
           rewrite Hl in Hrm. apply orb_false_iff in Hrm as [_ Hp]. simpl in Hp. rewrite Hp.
           destruct (String.eqb_spec (firstVal "href" (Attr n)) EmptyString); [contradiction|].
           reflexivity.
        -- unfold bind at 1.
           rewrite (embedCSS_missing_file n config (Some f) w Eh Hcss).
           apply Hstay; [reflexivity|].
           unfold embedded. rewrite Hcss. now rewrite !andb_false_r.
    + unfold bind at 1. unfold ret at 1. apply Hstay; [reflexivity|].
      unfold embedded.
      destruct (isLink n); [|reflexivity]. simpl in Hls. rewrite Hls.
      now rewrite andb_false_r.
Qed.

Lemma linkFree_survivors fs config n :
  linkFree n = true -> survivors fs config n = outsideScripts n.
Proof.
  induction n as [t d a cs IH] using Node_induction.
  pose (n := mkNode t d a cs). assert (Hcs : Children n = cs) by reflexivity.
  change (linkFree n = true -> survivors fs config n = outsideScripts n).
  clearbody n. clear t d a.
  rewrite linkFree_unfold, survivors_unfold, outsideScripts_unfold, Hcs.
  intros H. apply andb_true_iff in H as [Hl Hk]. apply negb_true_iff in Hl.
  unfold embedded. rewrite Hl. simpl. rewrite orb_false_r.
  destruct (isScript n); [reflexivity|]. f_equal. f_equal.
  clear Hcs. induction IH as [|c cs Hc _ IHcs]; [reflexivity|].
  simpl in Hk. apply andb_true_iff in Hk as [Hk1 Hk2].
  simpl. now rewrite Hc, IHcs.
Qed.

Lemma linkFree_survivors_children fs config cs :
  forallb linkFree cs = true ->
  sumOf (map (survivors fs config) cs) = sumOf (map outsideScripts cs).
Proof.
  induction cs as [|c cs IH]; simpl; [reflexivity|].
  intros H. apply andb_true_iff in H as [H1 H2].
  now rewrite linkFree_survivors, IH.
Qed.

(** C2, amended: a run with JS removal from a root that is not an element
    ends, and no script element is left.  The non-script descendants left
    are those that survive: nothing of a script element or of a script
    preload link, a style element and its text for a stylesheet link that
    is embedded, every other node with what survives of its children.  In
    a tree without link elements these are the descendants that are
    neither script elements nor below one. *)
Theorem processNode_removes_scripts (T : Node) (config : Config) (w : World) :
  Type' T <> ElementNode ->
  removeJS config = true ->
  exists T' w',
    MainGo.processNode T config None w = Some ((T', None), w') /\
    scriptFree T' = true /\
    nonScriptDescendants T' = sumOf (map (survivors (files w) config) (Children T)) /\
    (linkFree T = true ->
     nonScriptDescendants T' = sumOf (map outsideScripts (Children T))).
Proof.
  intros Ht Hjs.
  destruct (processNode_root T config w Ht) as (cs' & w' & Ec & E & _).
  assert (Hall : Forall tidy (Children T))
    by (apply Forall_forall; intros; apply processNode_tidy).
  destruct (processChildren_tidy config (Children T) Hjs Hall [] w)
    as (cs2 & w2 & places & E2 & _ & Hc & Hs & Hn).
  rewrite Ec in E2. injection E2 as <- <-. simpl in Hc. subst places.
  exists (setChildren T cs'), w'. split; [exact E|].
  assert (Hns : isScript (setChildren T cs') = false).
  { unfold isScript. simpl. destruct (Type' T); try reflexivity. congruence. }
  split; [rewrite scriptFree_unfold, Hns; exact Hs|].
  split; [exact Hn|].
  intros Hl. unfold nonScriptDescendants. simpl Children. rewrite Hn.
  rewrite linkFree_unfold in Hl. apply andb_true_iff in Hl as [_ Hl].
  now apply linkFree_survivors_children.
Qed.

Lemma processNode_removes_scripts_witness :
  Type' Scenario.scriptAndDiv <> ElementNode /\
  removeJS Scenario.config = true /\
  exists T' w',
    MainGo.processNode Scenario.scriptAndDiv Scenario.config None Scenario.world
    = Some ((T', None), w') /\
    scriptFree T' = true /\
    nonScriptDescendants T'
    = sumOf (map (survivors (files Scenario.world) Scenario.config)
                 (Children Scenario.scriptAndDiv)) /\
    (linkFree Scenario.scriptAndDiv = true ->
     nonScriptDescendants T' = sumOf (map outsideScripts (Children Scenario.scriptAndDiv))).
Proof.
  split; [discriminate|]. split; [reflexivity|].
  apply (processNode_removes_scripts Scenario.scriptAndDiv Scenario.config Scenario.world).
  - discriminate.
  - reflexivity.
Defined.

(** Scenario B: the script and the handler go, the [div] and its text
    stay *)
Example processNode_scenario_B :
  exists w',
    MainGo.processNode Scenario.scriptAndDiv Scenario.config None Scenario.world
    = Some ((Scenario.document
               [ Scenario.element "html" []
                   [ Scenario.element "head" [] [];
                     Scenario.element "body" []
                       [ Scenario.element "div" [ Scenario.attr "onClick" "g()" ]
                                          [ Scenario.text "hi" ] ] ] ],
             None), w').
Proof. eexists. vm_compute. reflexivity. Qed.

(** C2 as stated fails on a document with a script that has text and a
    script preload: the run removes the script, but of the seven
    non-script descendants (six of them outside the script) five are
    left. *)
Lemma structural_safety_count_fails :
  Type' Scenario.withScript = DocumentNode /\
  scriptFree Scenario.withScript = false /\
  removeJS Scenario.config = true /\
  nonScriptDescendants Scenario.withScript = 7 /\
  sumOf (map outsideScripts (Children Scenario.withScript)) = 6 /\
  exists T' w',
    MainGo.processNode Scenario.withScript Scenario.config None Scenario.world
    = Some ((T', None), w') /\
    scriptFree T' = true /\
    nonScriptDescendants T' = 5 /\
    nonScriptDescendants T' <> nonScriptDescendants Scenario.withScript.
Proof.
  repeat (split; [reflexivity|]).
  eexists _, _. split; [vm_compute; reflexivity|].
  split; [reflexivity|]. split; [reflexivity|]. vm_compute. discriminate.
Qed.

(** * The scenarios of the walk *)

(** Scenario A: the link becomes a style element with the rewritten text *)
Example processNode_scenario_A :
  exists w',
    MainGo.processNode
      (Scenario.document [ Scenario.stylesheetLink ]) Scenario.config None Scenario.world
    = Some ((Scenario.document
               [ MainGo.styleNode
                   "/* data:font/woff2;base64,Zm9vYmFy */ @font-face{font-family:X;src:url('data:font/woff2;base64,Zm9vYmFy')}" ],
             None), w').
Proof. eexists. vm_compute. reflexivity. Qed.

(** Scenario C: a script preload goes with JS removal and stays without *)
Example processNode_scenario_C :
  let preload := Scenario.element "link"
                   [ Scenario.attr "rel" "preload"; Scenario.attr "as" "script";
                     Scenario.attr "href" "a.js" ] [] in
  let keep := {| inputFile := "site/index.html"; outputFile := "site/out.html";
                 removeJS := false; baseDir := "site"; processedURLs := ∅ |} in
  MainGo.processNode (Scenario.document [ preload ]) Scenario.config None Scenario.world
  = Some ((Scenario.document [], None), Scenario.world) /\
  MainGo.processNode (Scenario.document [ preload ]) keep None Scenario.world
  = Some ((Scenario.document [ preload ], None), Scenario.world).
Proof. split; reflexivity. Qed.

(** Scenario D: the link to a missing file stays, with a warning *)
Example processNode_scenario_D :
  MainGo.processNode Scenario.withLink Scenario.config None Scenario.world
  = Some ((Scenario.withLink, None),
          afterFailedRead Scenario.world "missing.css" (CouldNotReadCSS "missing.css")).
Proof. reflexivity. Qed.

(** * Base64 *)

Section Bits.
Local Open Scope N_scope.

Lemma lor_add (x y k : N) : x mod 2 ^ k = 0 -> y < 2 ^ k -> N.lor x y = x + y.
Proof.
  intros Hx Hy.
  rewrite <- N.lxor_lor, <- N.add_nocarry_lxor; try reflexivity.
  all: apply N.bits_inj_0; intros n; rewrite N.land_spec.
  all: destruct (N.lt_ge_cases n k) as [L|G].
  all: try (rewrite <- (N.mod_pow2_bits_low x k n L), Hx, N.bits_0; reflexivity).
  all: rewrite <- (N.mod_small y (2 ^ k) Hy), (N.mod_pow2_bits_high y k n G);
    apply andb_false_r.
Qed.

Lemma land_63 x : N.land x 63 = x mod 64.
Proof. change 63 with (N.ones 6). now rewrite N.land_ones. Qed.

Lemma land_255 x : N.land x 255 = x mod 256.
Proof. change 255 with (N.ones 8). now rewrite N.land_ones. Qed.

Ltac arith := zify; Z.to_euclidean_division_equations; lia.

(** the 24-bit group of three bytes *)
Lemma val3 (A B C : N) :
  A < 256 -> B < 256 -> C < 256 ->
  N.lor (N.lor (N.shiftl A 16) (N.shiftl B 8)) C = A * 65536 + B * 256 + C.
Proof.
  intros HA HB HC. rewrite !N.shiftl_mul_pow2.
  change (2 ^ 16) with 65536. change (2 ^ 8) with 256.
  rewrite (lor_add (A * 65536) (B * 256) 16);
    [|change (2 ^ 16) with 65536; arith..].
  apply (lor_add _ C 8); change (2 ^ 8) with 256; arith.
Qed.

Lemma val2 (A B : N) :
  A < 256 -> B < 256 ->
  N.lor (N.shiftl A 16) (N.shiftl B 8) = A * 65536 + B * 256.
Proof.
  intros HA HB. rewrite !N.shiftl_mul_pow2.
  change (2 ^ 16) with 65536. change (2 ^ 8) with 256.
  apply (lor_add (A * 65536) (B * 256) 16); change (2 ^ 16) with 65536; arith.
Qed.

(** the 24-bit group of four sextets *)
Lemma group_sum (v0 v1 v2 v3 : N) :
  v0 < 64 -> v1 < 64 -> v2 < 64 -> v3 < 64 ->
  Base64.group v0 v1 v2 v3 = v0 * 262144 + v1 * 4096 + v2 * 64 + v3.
Proof.
  intros H0 H1 H2 H3. unfold Base64.group. rewrite !N.shiftl_mul_pow2.
  change (2 ^ 18) with 262144. change (2 ^ 12) with 4096. change (2 ^ 6) with 64.
  rewrite (lor_add (v0 * 262144) (v1 * 4096) 18);
    [|change (2 ^ 18) with 262144; arith..].
  rewrite (lor_add (v2 * 64) v3 6); [|change (2 ^ 6) with 64; arith..].
  rewrite (lor_add _ (v2 * 64 + v3) 12); [|change (2 ^ 12) with 4096; arith..].
  arith.
Qed.

Lemma sextet_index val shift : N.land (N.shiftr val shift) 63 < 64.
Proof. rewrite land_63. apply N.mod_lt. discriminate. Qed.

(** the sextets of a group give the group back *)
Lemma group_of_sextets (val : N) :
  val < 16777216 ->
  Base64.group (N.land (N.shiftr val 18) 63) (N.land (N.shiftr val 12) 63)
               (N.land (N.shiftr val 6) 63) (N.land (N.shiftr val 0) 63) = val.
Proof.
  intros H. rewrite group_sum by apply sextet_index.
  rewrite !land_63, !N.shiftr_div_pow2.
  change (2 ^ 18) with 262144. change (2 ^ 12) with 4096. change (2 ^ 6) with 64.
  change (2 ^ 0) with 1. arith.
Qed.

Lemma group_of_sextets_2 (val : N) :
  val < 16777216 -> val mod 256 = 0 ->
  Base64.group (N.land (N.shiftr val 18) 63) (N.land (N.shiftr val 12) 63)
               (N.land (N.shiftr val 6) 63) 0 = val - val mod 64.
Proof.
  intros H H8. rewrite group_sum; try apply sextet_index; [|reflexivity].
  rewrite !land_63, !N.shiftr_div_pow2.
  change (2 ^ 18) with 262144. change (2 ^ 12) with 4096. change (2 ^ 6) with 64.
  arith.
Qed.

Lemma group_of_sextets_1 (val : N) :
  val < 16777216 ->
  Base64.group (N.land (N.shiftr val 18) 63) (N.land (N.shiftr val 12) 63) 0 0
  = val - val mod 4096.
Proof.
  intros H. rewrite group_sum; try apply sextet_index; try reflexivity.
  rewrite !land_63, !N.shiftr_div_pow2.
  change (2 ^ 18) with 262144. change (2 ^ 12) with 4096.
  arith.
Qed.

Lemma octets_of_val3 (a b c : ascii) :
  let val := N_of_ascii a * 65536 + N_of_ascii b * 256 + N_of_ascii c in
  Base64.octet val 0 = a /\ Base64.octet val 1 = b /\ Base64.octet val 2 = c.
Proof.
  intros val. subst val.
  pose proof (N_ascii_bounded a) as Ha. pose proof (N_ascii_bounded b) as Hb.
  pose proof (N_ascii_bounded c) as Hc.
  unfold Base64.octet. rewrite !land_255, !N.shiftr_div_pow2.
  change (2 ^ (16 - 8 * 0)) with 65536. change (2 ^ (16 - 8 * 1)) with 256.
  change (2 ^ (16 - 8 * 2)) with 1.
  repeat split.
  - rewrite <- (ascii_N_embedding a) at 2. f_equal. arith.
  - rewrite <- (ascii_N_embedding b) at 2. f_equal. arith.
  - rewrite <- (ascii_N_embedding c) at 2. f_equal. arith.
Qed.

End Bits.

Lemma encode_decode (i : N) :
  (i < 64)%N ->
  Base64.decodeMap (Base64.encode i) = Some i /\ Base64.isPad (Base64.encode i) = false.
Proof.
  intros H. destruct i as [|p]; [split; reflexivity|].
  do 6 (try destruct p as [p|p|]); try (split; reflexivity); lia.
Qed.

Lemma sextet_decode val shift :
  Base64.decodeMap (Base64.sextet val shift) = Some (N.land (N.shiftr val shift) 63) /\
  Base64.isPad (Base64.sextet val shift) = false.
Proof. apply encode_decode, sextet_index. Qed.

Lemma string_induction_3 (P : string -> Prop) :
  P EmptyString ->
  (forall a, P (String a EmptyString)) ->
  (forall a b, P (String a (String b EmptyString))) ->
  (forall a b c rest, P rest -> P (String a (String b (String c rest)))) ->
  forall s, P s.
Proof.
  intros H0 H1 H2 H3 s.
  enough (P s /\ (forall a, P (String a s)) /\ (forall a b, P (String a (String b s))))
    by tauto.
  induction s as [|c s (I0 & I1 & I2)]; [auto|].
  split; [apply I1|]. split; [intros a; apply I2|]. intros a b. now apply H3.
Qed.

Lemma byte_bound a : (Base64.byte a < 256)%N.
Proof. apply N_ascii_bounded. Qed.

(** decoding gives the encoded bytes back *)
Lemma DecodeString_EncodeToString (src : string) :
  Base64.DecodeString (Base64.EncodeToString src) = Some src.
Proof.
  induction src as [|a|a b|a b c rest IH] using string_induction_3.
  - reflexivity.
  - cbn [Base64.EncodeToString Base64.DecodeString].
    set (val := N.shiftl (Base64.byte a) 16).
    destruct (sextet_decode val 18) as [-> _], (sextet_decode val 12) as [-> _].
    change (Base64.isPad Base64.padChar) with true. cbn [andb String.eqb].
    rewrite group_of_sextets_1.
    + f_equal. f_equal. subst val. pose proof (byte_bound a) as Ha.
      unfold Base64.octet, Base64.byte in *.
      rewrite land_255, N.shiftr_div_pow2, N.shiftl_mul_pow2.
      change (2 ^ (16 - 8 * 0))%N with 65536%N. change (2 ^ 16)%N with 65536%N.
      transitivity (ascii_of_N (N_of_ascii a)); [|apply ascii_N_embedding].
      f_equal. zify; Z.to_euclidean_division_equations; lia.
    + subst val. pose proof (byte_bound a). rewrite N.shiftl_mul_pow2.
      change (2 ^ 16)%N with 65536%N. lia.
  - cbn [Base64.EncodeToString Base64.DecodeString].
    set (val := N.lor _ _).
    destruct (sextet_decode val 18) as [-> _], (sextet_decode val 12) as [-> _],
             (sextet_decode val 6) as [-> ->].
    change (Base64.isPad Base64.padChar) with true. cbn [andb String.eqb].
    pose proof (byte_bound a) as Ha. pose proof (byte_bound b) as Hb.
    assert (Hval : val = (Base64.byte a * 65536 + Base64.byte b * 256)%N)
      by (apply val2; assumption).
    rewrite group_of_sextets_2 by (rewrite Hval; zify; Z.to_euclidean_division_equations; lia).
    rewrite Hval. unfold Base64.octet, Base64.byte in *.
    rewrite !land_255, !N.shiftr_div_pow2.
    change (2 ^ (16 - 8 * 0))%N with 65536%N. change (2 ^ (16 - 8 * 1))%N with 256%N.
    f_equal. f_equal; [|f_equal].
    + transitivity (ascii_of_N (N_of_ascii a)); [|apply ascii_N_embedding].
      f_equal. zify; Z.to_euclidean_division_equations; lia.
    + transitivity (ascii_of_N (N_of_ascii b)); [|apply ascii_N_embedding].
      f_equal. zify; Z.to_euclidean_division_equations; lia.
  - cbn [Base64.EncodeToString Base64.DecodeString].
    set (val := N.lor _ _).
    destruct (sextet_decode val 18) as [-> _], (sextet_decode val 12) as [-> _],
             (sextet_decode val 6) as [-> ->], (sextet_decode val 0) as [-> ->].
    rewrite IH.
    pose proof (byte_bound a) as Ha. pose proof (byte_bound b) as Hb.
    pose proof (byte_bound c) as Hc.
    assert (Hval : val = (Base64.byte a * 65536 + Base64.byte b * 256 + Base64.byte c)%N)
      by (apply val3; assumption).
    rewrite group_of_sextets by (rewrite Hval; lia).
    rewrite Hval. unfold Base64.byte.
    destruct (octets_of_val3 a b c) as (-> & -> & ->). reflexivity.
Qed.

Lemma std_sextet val shift : isBase64Byte (Base64.sextet val shift) = true.
Proof. unfold isBase64Byte. now destruct (sextet_decode val shift) as [-> _]. Qed.

Lemma EncodeToString_std (src : string) : allBytes isBase64Byte (Base64.EncodeToString src) = true.
Proof.
  induction src as [|a|a b|a b c rest IH] using string_induction_3;
    cbn [Base64.EncodeToString allBytes]; rewrite ?std_sextet, ?IH; reflexivity.
Qed.

Lemma EncodeToString_length (src : string) :
  String.length (Base64.EncodeToString src) = 4 * ((String.length src + 2) / 3).
Proof.
  induction src as [|a|a b|a b c rest IH] using string_induction_3;
    try reflexivity.
  cbn [Base64.EncodeToString String.length]. rewrite IH.
  replace (S (S (S (String.length rest))) + 2) with (String.length rest + 2 + 1 * 3) by lia.
  rewrite Nat.div_add by discriminate. lia.
Qed.

(** * Replacement in strings *)

Lemma append_cons (c : ascii) (x y : string) : String c x +:+ y = String c (x +:+ y).
Proof. reflexivity. Qed.

Lemma append_empty (y : string) : EmptyString +:+ y = y.
Proof. reflexivity. Qed.

Lemma HasPrefix_app_l (x y p : string) :
  GoStrings.HasPrefix x p = true -> GoStrings.HasPrefix (x +:+ y) p = true.
Proof.
  revert x. induction p as [|c p IH]; intros x; [reflexivity|].
  destruct x as [|d x]; simpl; [discriminate|].
  intros H. apply andb_true_iff in H as [-> H]. rewrite ?append_cons. simpl. now apply IH.
Qed.

Lemma HasPrefix_split (s p : string) :
  GoStrings.HasPrefix s p = true -> s = p +:+ GoStrings.drop (String.length p) s.
Proof.
  revert s. induction p as [|c p IH]; intros s; [reflexivity|].
  destruct s as [|d s]; simpl; [discriminate|].
  intros H. apply andb_true_iff in H as [E H]. apply Ascii.eqb_eq in E. subst d.
  simpl. rewrite ?append_cons. f_equal. now apply IH.
Qed.

Lemma drop_length_le (k : nat) (s : string) :
  String.length (GoStrings.drop k s) <= String.length s.
Proof.
  revert s. induction k as [|k IH]; intros s; [simpl; lia|].
  destruct s as [|c s]; simpl; [lia|]. specialize (IH s). lia.
Qed.

Lemma replaceFrom_skip (old new : string) (k : nat) (s : string) :
  GoStrings.replaceFrom old new k s
  = GoStrings.replaceFrom old new 0 (GoStrings.drop k s).
Proof.
  revert k. induction s as [|c s IH]; intros [|k]; try reflexivity.
  simpl GoStrings.drop. rewrite <- IH. reflexivity.
Qed.

Lemma replaceFrom_hit (old new s : string) :
  old <> EmptyString ->
  GoStrings.HasPrefix s old = true ->
  GoStrings.replaceFrom old new 0 s
  = new +:+ GoStrings.replaceFrom old new 0 (GoStrings.drop (String.length old) s).
Proof.
  intros Ho H. destruct old as [|o old]; [congruence|].
  destruct s as [|c s]; [discriminate|].
  cbn [GoStrings.replaceFrom]. rewrite H. rewrite replaceFrom_skip.
  simpl. now rewrite Nat.sub_0_r.
Qed.

Lemma replaceFrom_miss (old new : string) (c : ascii) (s : string) :
  GoStrings.HasPrefix (String c s) old = false ->
  GoStrings.replaceFrom old new 0 (String c s)
  = String c (GoStrings.replaceFrom old new 0 s).
Proof. intros H. cbn [GoStrings.replaceFrom]. now rewrite H. Qed.

Lemma Join_cons (p q : string) (ps : list string) (sep : string) :
  GoStrings.Join (p :: q :: ps) sep = p +:+ sep +:+ GoStrings.Join (q :: ps) sep.
Proof. reflexivity. Qed.

Lemma Join_push (c : ascii) (p : string) (ps : list string) (sep : string) :
  GoStrings.Join (String c p :: ps) sep = String c (GoStrings.Join (p :: ps) sep).
Proof. destruct ps; reflexivity. Qed.

Lemma Join_head (p : string) (ps : list string) (sep : string) :
  exists t, GoStrings.Join (p :: ps) sep = p +:+ t.
Proof.
  destruct ps as [|q ps]; [exists EmptyString|eexists; apply Join_cons].
  simpl. induction p as [|c p IH]; [reflexivity|]. rewrite append_cons. congruence.
Qed.

Lemma Contains_unfold (s substr : string) :
  GoStrings.Contains s substr =
  GoStrings.HasPrefix s substr ||
  match s with
  | EmptyString => false
  | String _ s' => GoStrings.Contains s' substr
  end.
Proof. destruct s; reflexivity. Qed.

(** The text falls into pieces that do not contain [old], with [old]
    between them; the replacement joins the same pieces with [new]. *)
Lemma replaceFrom_pieces (old new : string) :
  old <> EmptyString ->
  forall s, exists p ps,
    s = GoStrings.Join (p :: ps) old /\
    Forall (fun q => GoStrings.Contains q old = false) (p :: ps) /\
    GoStrings.replaceFrom old new 0 s = GoStrings.Join (p :: ps) new.
Proof.
  intros Ho s.
  remember (String.length s) as n eqn:Hn.
  revert s Hn. induction n as [n IH] using lt_wf_ind. intros s Hn.
  destruct s as [|c s].
  { exists EmptyString, []. repeat split.
    constructor; [|constructor]. destruct old; [congruence|reflexivity]. }
  destruct (GoStrings.HasPrefix (String c s) old) eqn:Hp.
  - pose proof (HasPrefix_split _ _ Hp) as Es.
    set (tail := GoStrings.drop (String.length old) (String c s)) in *.
    assert (Hlt : String.length tail < n).
    { subst n tail. destruct old as [|o old]; [congruence|]. simpl.
      pose proof (drop_length_le (String.length old) s). lia. }
    destruct (IH _ Hlt tail eq_refl) as (p & ps & E & Hf & Hr).
    exists EmptyString, (p :: ps). split; [|split].
    + rewrite Join_cons, <- E. exact Es.
    + constructor; [|exact Hf]. destruct old; [congruence|reflexivity].
    + rewrite replaceFrom_hit by assumption. fold tail. rewrite Hr. reflexivity.
  - assert (Hlt : String.length s < n) by (subst n; simpl; lia).
    destruct (IH _ Hlt s eq_refl) as (p & ps & E & Hf & Hr).
    exists (String c p), ps. split; [|split].
    + rewrite Join_push, <- E. reflexivity.
    + pose proof (Forall_inv Hf) as Hq. pose proof (Forall_inv_tail Hf) as Hqs.
      cbv beta in Hq. constructor; [|exact Hqs].
      rewrite Contains_unfold, Hq, orb_false_r.
      destruct (Join_head p ps old) as (t & Et).
      destruct (GoStrings.HasPrefix (String c p) old) eqn:Hcp; [|reflexivity].
      apply (HasPrefix_app_l _ t) in Hcp. rewrite append_cons in Hcp.
      rewrite <- Et, <- E in Hcp. congruence.
    + rewrite replaceFrom_miss by assumption. rewrite Hr, Join_push. reflexivity.
Qed.

Lemma Replace_pieces (s old new : string) :
  old <> EmptyString ->
  exists p ps,
    s = GoStrings.Join (p :: ps) old /\
    Forall (fun q => GoStrings.Contains q old = false) (p :: ps) /\
    GoStrings.Replace s old new = GoStrings.Join (p :: ps) new.
Proof.
  intros Ho. destruct (replaceFrom_pieces old new Ho s) as (p & ps & H).
  exists p, ps. destruct old; [congruence|exact H].
Qed.

(** * The font references of a stylesheet *)

Lemma findAll_In {A} (matchAt : string -> option (nat * A)) (m : A) (s : string) :
  forall skip, In m (Regexp.findAll matchAt skip s) ->
  exists s' len, matchAt s' = Some (len, m).
Proof.
  induction s as [|c s IH]; intros skip; [contradiction|].
  destruct skip as [|k]; cbn [Regexp.findAll]; [|apply IH].
  destruct (matchAt (String c s)) as [[len m']|] eqn:E; [|apply IH].
  intros [->|H]; [now exists (String c s), len|now apply IH in H].
Qed.

Lemma HasPrefix_take (s p : string) (m : nat) :
  GoStrings.HasPrefix s p = true ->
  GoStrings.HasPrefix (GoStrings.take (String.length p + m) s) p = true.
Proof.
  revert s. induction p as [|c p IH]; intros s; [reflexivity|].
  destruct s as [|d s]; simpl; [discriminate|].
  intros H. apply andb_true_iff in H as [-> H]. simpl. now apply IH.
Qed.

(** a match of [fontUrlRegex] has one group, and the group starts with
    [/_next/] *)
Lemma fontUrlAt_group (s : string) (len : nat) (url : list string) :
  Regexp.fontUrlAt s = Some (len, url) ->
  length url = 2 /\ GoStrings.HasPrefix (nth 1 url EmptyString) "/_next/" = true.
Proof.
  unfold Regexp.fontUrlAt.
  destruct (GoStrings.HasPrefix s "url("); [|discriminate].
  set (s1 := GoStrings.drop 4 s).
  set (q1 := match s1 with String c _ => if Regexp.isQuote c then 1 else 0 | EmptyString => 0 end).
  set (s2 := GoStrings.drop q1 s1).
  destruct (GoStrings.HasPrefix s2 "/_next/") eqn:Hp; [|discriminate].
  destruct (Regexp.span _ _) as [|m]; [discriminate|].
  destruct (GoStrings.drop _ (GoStrings.drop _ s2)) as [|c r]; [discriminate|].
  destruct (Ascii.eqb_spec c ")"%char) as [->|Hc].
  - intros [= <- <-]. split; [reflexivity|].
    cbn [nth]. apply (HasPrefix_take s2 "/_next/" (S m) Hp).
  - intros H. exfalso. revert H.
    destruct c as [[] [] [] [] [] [] [] []]; try discriminate. congruence.
Qed.

Lemma fontUrl_group (fontFace : string) (url : list string) :
  In url (Regexp.fontUrlRegex_FindAllStringSubmatch fontFace) ->
  length url = 2 /\ nth 1 url EmptyString <> EmptyString.
Proof.
  intros H. apply findAll_In in H as (s & len & H).
  apply fontUrlAt_group in H as [H1 H2]. split; [exact H1|].
  intros E. rewrite E in H2. discriminate.
Qed.

Lemma embedFont_read config cssString url w fontContent mimeType :
  2 <= length url ->
  files w (Filepath.Join (baseDir config) (nth 1 url EmptyString)) = Some fontContent ->
  MainGo.fontMimeTypes !! GoStrings.ToLower (Filepath.Ext (nth 1 url EmptyString))
  = Some mimeType ->
  MainGo.embedFont config cssString url w
  = Some (GoStrings.Replace cssString (nth 1 url EmptyString)
            (Sprintf_dataURL mimeType (Base64.EncodeToString fontContent)),
          afterRead w (Filepath.Join (baseDir config) (nth 1 url EmptyString))).
Proof.
  intros Hl Hf Hm. unfold MainGo.embedFont.
  destruct (Nat.leb_spec 2 (length url)); [|lia].
  unfold bind, ReadFile. rewrite Hf, Hm. reflexivity.
Qed.

Lemma forEach_app {A S} (body : S -> A -> M S) (l1 l2 : list A) (s : S) (w : World) :
  forEach body (l1 ++ l2) s w
  = (let* s' := forEach body l1 s in forEach body l2 s') w.
Proof.
  revert s w. induction l1 as [|x l1 IH]; intros s w; simpl.
  - reflexivity.
  - unfold bind. destruct (body s x w) as [[s1 w1]|]; [|reflexivity].
    rewrite IH. reflexivity.
Qed.

Lemma forEach_concat {A B S} (body : S -> B -> M S) (f : A -> list B)
      (l : list A) (s : S) (w : World) :
  forEach (fun s x => forEach body (f x) s) l s w
  = forEach body (concat (map f l)) s w.
Proof.
  revert s w. induction l as [|x l IH]; intros s w; simpl; [reflexivity|].
  rewrite forEach_app. unfold bind.
  destruct (forEach body (f x) s w) as [[s1 w1]|]; [apply IH|reflexivity].
Qed.

(** the rewriting is one pass of [embedFont] over the matches of
    [fontUrlRegex] in the font face rules of the text as read *)
Lemma rewriteFontFaces_steps (config : Config) (cssContent : string) (w : World) :
  MainGo.rewriteFontFaces config cssContent w
  = forEach (MainGo.embedFont config)
      (concat (map Regexp.fontUrlRegex_FindAllStringSubmatch
                   (Regexp.fontFaceRegex_FindAllString cssContent)))
      cssContent w.
Proof. unfold MainGo.rewriteFontFaces. apply forEach_concat. Qed.

(** one step of the rewriting, on the text as it stands *)
Lemma embedFont_replaces
      (config : Config) (url : list string) (cssString : string) (w : World)
      (fontContent mimeType : string) :
  length url = 2 -> nth 1 url EmptyString <> EmptyString ->
  files w (Filepath.Join (baseDir config) (nth 1 url EmptyString)) = Some fontContent ->
  MainGo.fontMimeTypes !! GoStrings.ToLower (Filepath.Ext (nth 1 url EmptyString))
  = Some mimeType ->
  exists p ps,
    cssString = GoStrings.Join (p :: ps) (nth 1 url EmptyString) /\
    Forall (fun q => GoStrings.Contains q (nth 1 url EmptyString) = false) (p :: ps) /\
    MainGo.embedFont config cssString url w
    = Some (GoStrings.Join (p :: ps)
              (Sprintf_dataURL mimeType (Base64.EncodeToString fontContent)),
            afterRead w (Filepath.Join (baseDir config) (nth 1 url EmptyString))).
Proof.
  intros Hl Hne Hf Hm.
  destruct (Replace_pieces cssString (nth 1 url EmptyString)
              (Sprintf_dataURL mimeType (Base64.EncodeToString fontContent)) Hne)
    as (p & ps & E & Hfree & Hr).
  exists p, ps. split; [exact E|]. split; [exact Hfree|].
  rewrite (embedFont_read config cssString url w fontContent mimeType) by (assumption || lia).
  now rewrite Hr.
Qed.

(** What does hold of a replacement: in a run of the rewriting over a
    CSS text, when the turn of a matched font path comes and the font is
    read and its type known, the path is replaced by the data URI all over
    the text as it stands then, not only in the [url(...)] that was
    matched: that text is made of pieces without the path, with the path
    between them, and the step leaves the same pieces with the data URI
    between them; the run goes on from there.  The text as it stands is
    not the text as read when an earlier path is a prefix of this one. *)
Lemma embedFont_replaces_in_text_as_it_stands
        (config : Config) (cssContent : string) (w : World)
        (before after : list (list string)) (url : list string)
        (fontContent mimeType : string) :
  concat (map Regexp.fontUrlRegex_FindAllStringSubmatch
              (Regexp.fontFaceRegex_FindAllString cssContent))
  = before ++ url :: after ->
  files w (Filepath.Join (baseDir config) (nth 1 url EmptyString)) = Some fontContent ->
  MainGo.fontMimeTypes !! GoStrings.ToLower (Filepath.Ext (nth 1 url EmptyString))
  = Some mimeType ->
  exists cssString w1 p ps,
    forEach (MainGo.embedFont config) before cssContent w = Some (cssString, w1) /\
    cssString = GoStrings.Join (p :: ps) (nth 1 url EmptyString) /\
    Forall (fun q => GoStrings.Contains q (nth 1 url EmptyString) = false) (p :: ps) /\
    MainGo.embedFont config cssString url w1
    = Some (GoStrings.Join (p :: ps)
              (Sprintf_dataURL mimeType (Base64.EncodeToString fontContent)),
            afterRead w1 (Filepath.Join (baseDir config) (nth 1 url EmptyString))) /\
    MainGo.rewriteFontFaces config cssContent w
    = forEach (MainGo.embedFont config) after
        (GoStrings.Join (p :: ps)
           (Sprintf_dataURL mimeType (Base64.EncodeToString fontContent)))
        (afterRead w1 (Filepath.Join (baseDir config) (nth 1 url EmptyString))).
Proof.
  intros Hsplit Hf Hm.
  assert (Hin : In url (concat (map Regexp.fontUrlRegex_FindAllStringSubmatch
                                    (Regexp.fontFaceRegex_FindAllString cssContent))))
    by (rewrite Hsplit; apply in_or_app; right; left; reflexivity).
  apply in_concat in Hin as (urls & Hurls & Hin).
  apply in_map_iff in Hurls as (fontFace & <- & _).
  destruct (fontUrl_group fontFace url Hin) as [Hl Hne].
  destruct (total_forEach (MainGo.embedFont config) before
              (fun s x => total_embedFont config s x) cssContent w)
    as (cssString & w1 & E1 & Hf1 & _).
  rewrite <- Hf1 in Hf.
  destruct (embedFont_replaces config url cssString w1 fontContent mimeType Hl Hne Hf Hm)
    as (p & ps & E & Hfree & Hstep).
  exists cssString, w1, p, ps.
  split; [exact E1|]. split; [exact E|]. split; [exact Hfree|]. split; [exact Hstep|].
  rewrite rewriteFontFaces_steps, Hsplit, forEach_app.
  unfold bind at 1. rewrite E1. simpl forEach. unfold bind at 1. rewrite Hstep.
  reflexivity.
Qed.

Lemma embedFont_replaces_in_text_as_it_stands_witness :
  exists cssString w1 p ps,
    forEach (MainGo.embedFont Scenario.config)
      [ [ "url(/_next/a.woff)"; "/_next/a.woff" ] ] Scenario.twoFontsCSS Scenario.world
    = Some (cssString, w1) /\
    cssString = GoStrings.Join (p :: ps) "/_next/b.ttf" /\
    Forall (fun q => GoStrings.Contains q "/_next/b.ttf" = false) (p :: ps) /\
    MainGo.embedFont Scenario.config cssString [ "url(/_next/b.ttf)"; "/_next/b.ttf" ] w1
    = Some (GoStrings.Join (p :: ps) "data:font/ttf;base64,Qg==",
            afterRead w1 "site/_next/b.ttf") /\
    MainGo.rewriteFontFaces Scenario.config Scenario.twoFontsCSS Scenario.world
    = forEach (MainGo.embedFont Scenario.config) []
        (GoStrings.Join (p :: ps) "data:font/ttf;base64,Qg==")
        (afterRead w1 "site/_next/b.ttf").
Proof.
  apply (embedFont_replaces_in_text_as_it_stands
           Scenario.config Scenario.twoFontsCSS Scenario.world
           [ [ "url(/_next/a.woff)"; "/_next/a.woff" ] ] []
           [ "url(/_next/b.ttf)"; "/_next/b.ttf" ] "B" "font/ttf").
  - vm_compute. reflexivity.
  - reflexivity.
  - vm_compute. reflexivity.
Defined.

(** both fonts, and the path in the comment behind the rules *)
Example rewriteFontFaces_two_fonts :
  exists w',
    MainGo.rewriteFontFaces Scenario.config Scenario.twoFontsCSS Scenario.world
    = Some ("@font-face{src:url(data:font/woff;base64,QQ==)} @font-face{src:url(data:font/ttf;base64,Qg==)} /* data:font/ttf;base64,Qg== */",
            w').
Proof. eexists. vm_compute. reflexivity. Qed.

(** The replacement works on the text as it stands: a path that is a
    prefix of a later path takes the later one with it, and the later
    path's own turn finds nothing left to replace. *)
Example rewriteFontFaces_prefix_path :
  exists w',
    MainGo.rewriteFontFaces Scenario.config Scenario.prefixFontsCSS Scenario.world
    = Some ("@font-face{src:url(data:font/woff;base64,QQ==)} @font-face{src:url(data:font/woff;base64,QQ==2)}",
            w') /\
    reads w' = [ "site/_next/a.woff"; "site/_next/a.woff2" ].
Proof. eexists. split; vm_compute; reflexivity. Qed.

(** C4: a font path that is read and encoded is not always replaced where
    it stands in the CSS text.  In [prefixFontsCSS] the path
    [/_next/a.woff2] is matched inside a font face rule, its file is read
    and its type is in the font table, and the text as read contains it;
    but the replacement of [/_next/a.woff], a prefix of it and earlier in
    the text, has rewritten its first thirteen bytes by then, so its own
    [strings.Replace] finds nothing: the text returned holds the data URI
    of [a.woff] followed by [2] at its place, and the data URI of
    [a.woff2] nowhere. *)
Theorem font_path_prefix_not_replaced :
  let fontPath := "/_next/a.woff2" in
  let dataURL := Sprintf_dataURL "font/woff2" (Base64.EncodeToString "A2") in
  In [ "url(/_next/a.woff2)"; fontPath ]
     (concat (map Regexp.fontUrlRegex_FindAllStringSubmatch
                  (Regexp.fontFaceRegex_FindAllString Scenario.prefixFontsCSS))) /\
  files Scenario.world (Filepath.Join (baseDir Scenario.config) fontPath) = Some "A2" /\
  MainGo.fontMimeTypes !! GoStrings.ToLower (Filepath.Ext fontPath) = Some "font/woff2" /\
  GoStrings.Contains Scenario.prefixFontsCSS fontPath = true /\
  exists cssString w',
    MainGo.rewriteFontFaces Scenario.config Scenario.prefixFontsCSS Scenario.world
    = Some (cssString, w') /\
    cssString
    = "@font-face{src:url(data:font/woff;base64,QQ==)} @font-face{src:url(data:font/woff;base64,QQ==2)}" /\
    reads w' = [ "site/_next/a.woff"; "site/_next/a.woff2" ] /\
    warnings w' = [] /\
    GoStrings.Contains cssString dataURL = false /\
    cssString <> GoStrings.Replace
                   (GoStrings.Replace Scenario.prefixFontsCSS fontPath dataURL)
                   "/_next/a.woff"
                   (Sprintf_dataURL "font/woff" (Base64.EncodeToString "A")).
Proof.
  cbv zeta. split; [vm_compute; tauto|]. split; [reflexivity|].
  split; [vm_compute; reflexivity|]. split; [vm_compute; reflexivity|].
  eexists _, _. split; [vm_compute; reflexivity|].
  split; [reflexivity|]. split; [reflexivity|]. split; [reflexivity|].
  split; [vm_compute; reflexivity|].
  vm_compute. discriminate.
Qed.

(** the comment outside the rule is rewritten with the rule *)
Example rewriteFontFaces_scenario :
  MainGo.rewriteFontFaces Scenario.config Scenario.styleCSS Scenario.world
  = Some ("/* data:font/woff2;base64,Zm9vYmFy */ @font-face{font-family:X;src:url('data:font/woff2;base64,Zm9vYmFy')}",
          afterRead Scenario.world "site/_next/static/font.woff2").
Proof. vm_compute. reflexivity. Qed.

(** * Images *)

Lemma firstVal_setFirstVal (key val : string) (attrs : list Attribute) :
  firstVal key attrs <> EmptyString ->
  firstVal key (Part001.setFirstVal key val attrs) = val.
Proof.
  induction attrs as [|a attrs IH]; simpl; [congruence|].
  destruct (String.eqb (Key a) key) eqn:E; simpl; rewrite E; [reflexivity|exact IH].
Qed.

Lemma embedImage_read n config w imgContent :
  firstVal "src" (Attr n) <> EmptyString ->
  Part001.processed config (firstVal "src" (Attr n)) = false ->
  files w (Part001.imagePath n config) = Some imgContent ->
  let path := Part001.imagePath n config in
  let mimeType := if String.eqb (mimeTypes w (Filepath.Ext path)) EmptyString
                  then "image/png" else mimeTypes w (Filepath.Ext path) in
  let dataURL := Sprintf_dataURL mimeType (Base64.EncodeToString imgContent) in
  Part001.embedImage n config w
  = Some ((setAttr n (Part001.setFirstVal "src" dataURL (Attr n)),
           Part001.markProcessed config path),
          afterRead w path).
Proof.
  intros Hs Hp Hf path mimeType dataURL. unfold Part001.embedImage.
  destruct (String.eqb_spec (firstVal "src" (Attr n)) EmptyString); [contradiction|].
  rewrite Hp. cbn [orb].
  unfold Part001.imagePath in Hf. cbv zeta in Hf.
  unfold bind, ReadFile. cbv beta. rewrite Hf. reflexivity.
Qed.

(** C5: the reference written for an embedded font or image is [data:],
    the MIME type, [;base64,] and the standard base64 encoding of the
    file's bytes: four bytes of the alphabet or padding for every three
    bytes begun, no line break, and decoding gives the bytes back. *)
Theorem data_uri_valid :
  (forall B : string,
      Base64.DecodeString (Base64.EncodeToString B) = Some B /\
      allBytes isBase64Byte (Base64.EncodeToString B) = true /\
      isBase64Byte (ascii_of_N 10) = false /\ isBase64Byte (ascii_of_N 13) = false /\
      String.length (Base64.EncodeToString B) = 4 * ((String.length B + 2) / 3)) /\
  (forall config cssString url w B M,
      2 <= length url ->
      files w (Filepath.Join (baseDir config) (nth 1 url EmptyString)) = Some B ->
      MainGo.fontMimeTypes !! GoStrings.ToLower (Filepath.Ext (nth 1 url EmptyString))
      = Some M ->
      MainGo.embedFont config cssString url w
      = Some (GoStrings.Replace cssString (nth 1 url EmptyString)
                ("data:" +:+ M +:+ ";base64," +:+ Base64.EncodeToString B),
              afterRead w (Filepath.Join (baseDir config) (nth 1 url EmptyString)))) /\
  (forall n config w B,
      firstVal "src" (Attr n) <> EmptyString ->
      Part001.processed config (firstVal "src" (Attr n)) = false ->
      files w (Part001.imagePath n config) = Some B ->
      exists M n',
        M = (if String.eqb (mimeTypes w (Filepath.Ext (Part001.imagePath n config))) EmptyString
             then "image/png"
             else mimeTypes w (Filepath.Ext (Part001.imagePath n config))) /\
        Part001.embedImage n config w
        = Some ((n', Part001.markProcessed config (Part001.imagePath n config)),
                afterRead w (Part001.imagePath n config)) /\
        Attr n' = Part001.setFirstVal "src"
                    ("data:" +:+ M +:+ ";base64," +:+ Base64.EncodeToString B) (Attr n) /\
        firstVal "src" (Attr n')
        = "data:" +:+ M +:+ ";base64," +:+ Base64.EncodeToString B).
Proof.
  split; [|split].
  - intros B. split; [apply DecodeString_EncodeToString|].
    split; [apply EncodeToString_std|]. split; [reflexivity|]. split; [reflexivity|].
    apply EncodeToString_length.
  - intros config cssString url w B M Hl Hf Hm.
    apply (embedFont_read config cssString url w B M Hl Hf Hm).
  - intros n config w B Hs Hp Hf. eexists _, _. split; [reflexivity|].
    split; [apply (embedImage_read n config w B Hs Hp Hf)|].
    split; [reflexivity|].
    simpl Attr. apply firstVal_setFirstVal. exact Hs.
Qed.

Lemma data_uri_valid_witness :
  Base64.DecodeString (Base64.EncodeToString "foobar") = Some "foobar" /\
  MainGo.embedFont Scenario.config Scenario.styleCSS
    [ "url('/_next/static/font.woff2')"; "/_next/static/font.woff2" ] Scenario.world
  = Some (GoStrings.Replace Scenario.styleCSS "/_next/static/font.woff2"
            ("data:" +:+ "font/woff2" +:+ ";base64," +:+ Base64.EncodeToString "foobar"),
          afterRead Scenario.world "site/_next/static/font.woff2") /\
  (exists M n',
      M = "image/png" /\
      Part001.embedImage Scenario.image Scenario.config Scenario.world
      = Some ((n', Part001.markProcessed Scenario.config "site/_next/logo.png"),
              afterRead Scenario.world "site/_next/logo.png") /\
      Attr n' = Part001.setFirstVal "src"
                  ("data:" +:+ M +:+ ";base64," +:+ Base64.EncodeToString "PNG")
                  (Attr Scenario.image) /\
      firstVal "src" (Attr n') = "data:" +:+ M +:+ ";base64," +:+ Base64.EncodeToString "PNG").
Proof.
  destruct data_uri_valid as (H1 & H2 & H3).
  split; [apply (H1 "foobar")|]. split.
  - apply (H2 Scenario.config Scenario.styleCSS
              [ "url('/_next/static/font.woff2')"; "/_next/static/font.woff2" ]
              Scenario.world "foobar" "font/woff2").
    + simpl. lia.
    + reflexivity.
    + vm_compute. reflexivity.
  - apply (H3 Scenario.image Scenario.config Scenario.world "PNG").
    + discriminate.
    + reflexivity.
    + reflexivity.
Defined.

(** * The text of the inserted style element *)

Lemma variant_embedCSS_read n config parent w cssContent :
  firstVal "href" (Attr n) <> EmptyString ->
  files w (MainGo.cssPath n config) = Some cssContent ->
  Part001.embedCSS n config parent w =
  match parent with
  | Some f => Some (Some (RemoveChild (InsertBefore (MainGo.styleNode cssContent) f)),
                    afterRead w (MainGo.cssPath n config))
  | None => None
  end.
Proof.
  intros Hh Hf. unfold Part001.embedCSS.
  destruct (String.eqb_spec (firstVal "href" (Attr n)) EmptyString); [contradiction|].
  unfold MainGo.cssPath in Hf. cbv zeta in Hf.
  unfold bind, ReadFile. cbv beta. rewrite Hf. destruct parent; reflexivity.
Qed.

Lemma embedFont_reads config cssString url w :
  2 <= length url ->
  exists r w',
    MainGo.embedFont config cssString url w = Some (r, w') /\
    reads w' = reads w ++ [Filepath.Join (baseDir config) (nth 1 url EmptyString)].
Proof.
  intros Hl. unfold MainGo.embedFont.
  destruct (Nat.leb_spec 2 (length url)); [|lia].
  unfold bind, ReadFile.
  destruct (files w _); [destruct (MainGo.fontMimeTypes !! _)|]; eexists _, _;
    (split; [reflexivity|reflexivity]).
Qed.

(** C3, amended: for a stylesheet link whose CSS file is read,
    [embedCSS] of [main.go] rewrites the font references of the text, every
    font path joined to the same base directory, and the style element it
    inserts has the rewritten text as its one child; [embedCSS] of the
    variant with image embedding has no rewriting step, and the one child
    of its style element is the text as read. *)
Theorem embedCSS_inserts_css
        (n : Node) (config : Config) (f : Family) (w : World) (cssContent : string) :
  firstVal "href" (Attr n) <> EmptyString ->
  files w (MainGo.cssPath n config) = Some cssContent ->
  (exists cssString w',
      MainGo.rewriteFontFaces config cssContent (afterRead w (MainGo.cssPath n config))
      = Some (cssString, w') /\
      MainGo.embedCSS n config (Some f) w
      = Some (Some (RemoveChild (InsertBefore (MainGo.styleNode cssString) f)), w') /\
      Children (MainGo.styleNode cssString) = [mkNode TextNode cssString [] []]) /\
  (forall cssString url w0,
      2 <= length url ->
      exists r w',
        MainGo.embedFont config cssString url w0 = Some (r, w') /\
        reads w' = reads w0 ++ [Filepath.Join (baseDir config) (nth 1 url EmptyString)]) /\
  Part001.embedCSS n config (Some f) w
  = Some (Some (RemoveChild (InsertBefore (MainGo.styleNode cssContent) f)),
          afterRead w (MainGo.cssPath n config)) /\
  Children (MainGo.styleNode cssContent) = [mkNode TextNode cssContent [] []].
Proof.
  intros Hh Hf. split; [|split; [|split]].
  - destruct (total_rewriteFontFaces config cssContent
                (afterRead w (MainGo.cssPath n config))) as (css & w' & E & _).
    exists css, w'. split; [exact E|]. split; [|reflexivity].
    rewrite embedCSS_unfold by assumption.
    unfold bind at 1. unfold ReadFile. rewrite Hf.
    unfold bind at 1. fold (afterRead w (MainGo.cssPath n config)). rewrite E.
    reflexivity.
  - intros cssString url w0. apply embedFont_reads.
  - apply (variant_embedCSS_read n config (Some f) w cssContent Hh Hf).
  - reflexivity.
Qed.

Lemma embedCSS_inserts_css_witness :
  (exists cssString w',
      MainGo.rewriteFontFaces Scenario.config Scenario.styleCSS
        (afterRead Scenario.world "style.css") = Some (cssString, w') /\
      MainGo.embedCSS Scenario.stylesheetLink Scenario.config (Some Scenario.family)
        Scenario.world
      = Some (Some (RemoveChild (InsertBefore (MainGo.styleNode cssString) Scenario.family)),
              w') /\
      Children (MainGo.styleNode cssString) = [mkNode TextNode cssString [] []]) /\
  Part001.embedCSS Scenario.stylesheetLink Scenario.config (Some Scenario.family)
    Scenario.world
  = Some (Some (RemoveChild (InsertBefore (MainGo.styleNode Scenario.styleCSS) Scenario.family)),
          afterRead Scenario.world "style.css").
Proof.
  destruct (embedCSS_inserts_css Scenario.stylesheetLink Scenario.config Scenario.family
              Scenario.world Scenario.styleCSS) as (H1 & _ & H3 & _).
  - discriminate.
  - reflexivity.
  - split; [exact H1|exact H3].
Defined.

(** C3 as stated fails for [embedCSS] of the variant with image
    embedding: the font of the stylesheet is there to be read, the
    rewritten text differs from the text of the file, and the style element
    inserted carries the text of the file. *)
Lemma embedCSS_variant_inserts_raw_css :
  files Scenario.world (MainGo.cssPath Scenario.stylesheetLink Scenario.config)
  = Some Scenario.styleCSS /\
  exists f' w' cssString w'',
    Part001.embedCSS Scenario.stylesheetLink Scenario.config (Some Scenario.family)
      Scenario.world = Some (Some f', w') /\
    childList f' Scenario.stylesheetLink
    = earlier Scenario.family
      ++ mkNode ElementNode "style" [ Scenario.attr "type" "text/css" ]
                [ mkNode TextNode Scenario.styleCSS [] [] ]
      :: later Scenario.family /\
    MainGo.rewriteFontFaces Scenario.config Scenario.styleCSS
      (afterRead Scenario.world "style.css") = Some (cssString, w'') /\
    cssString <> Scenario.styleCSS.
Proof.
  split; [reflexivity|].
  eexists _, _, _, _. split; [vm_compute; reflexivity|].
  split; [reflexivity|]. split; [vm_compute; reflexivity|]. discriminate.
Qed.

(** * The processed URLs *)

Lemma processed_markProcessed config src :
  Part001.processed (Part001.markProcessed config src) src = true.
Proof. unfold Part001.processed, Part001.markProcessed. simpl. now rewrite lookup_insert_eq. Qed.

(** a source that is not under [/_next] is read once *)
Lemma embedImage_dedup_plain n1 n2 config w S B :
  firstVal "src" (Attr n1) = S -> firstVal "src" (Attr n2) = S ->
  S <> EmptyString ->
  GoStrings.HasPrefix S "/_next" = false ->
  Part001.processed config S = false ->
  files w S = Some B ->
  exists n1' config1 w1,
    Part001.embedImage n1 config w = Some ((n1', config1), w1) /\
    reads w1 = reads w ++ [S] /\
    Part001.embedImage n2 config1 w1 = Some ((n2, config1), w1).
Proof.
  intros H1 H2 Hne Hp Hproc Hf.
  assert (Hpath : Part001.imagePath n1 config = S)
    by (unfold Part001.imagePath; rewrite H1, Hp; reflexivity).
  eexists _, _, _. split.
  - apply (embedImage_read n1 config w B); rewrite ?Hpath, ?H1; assumption.
  - split; [rewrite Hpath; reflexivity|].
    unfold Part001.embedImage at 1. rewrite H2, Hpath, processed_markProcessed.
    now rewrite orb_true_r.
Qed.

(** after a source under [/_next] is embedded, the source as written is
    still not in the set, unless the join leaves it as it is *)
Lemma embedImage_next_source_not_marked n config w B :
  let src := firstVal "src" (Attr n) in
  GoStrings.HasPrefix src "/_next" = true ->
  Filepath.Join (baseDir config) src <> src ->
  Part001.processed config src = false ->
  files w (Filepath.Join (baseDir config) src) = Some B ->
  exists n' config',
    Part001.embedImage n config w
    = Some ((n', config'), afterRead w (Filepath.Join (baseDir config) src)) /\
    Part001.processed config' src = false /\
    Part001.processed config' (Filepath.Join (baseDir config) src) = true.
Proof.
  intros src Hp Hj Hproc Hf.
  assert (Hpath : Part001.imagePath n config = Filepath.Join (baseDir config) src)
    by (unfold Part001.imagePath; fold src; now rewrite Hp).
  assert (Hs : firstVal "src" (Attr n) <> EmptyString)
    by (fold src; intros E; rewrite E in Hp; discriminate).
  eexists _, _. split; [|split].
  - rewrite <- Hpath. apply (embedImage_read n config w B Hs Hproc). now rewrite Hpath.
  - rewrite Hpath. unfold Part001.processed, Part001.markProcessed in *. simpl.
    now rewrite lookup_insert_ne.
  - rewrite Hpath. apply processed_markProcessed.
Qed.

(** C1 at a source under [/_next]: the set is asked for the source as
    written and told the joined path, so the second call finds nothing,
    reads the file again and rewrites the second node. *)
Theorem embedImage_next_source_read_twice :
  firstVal "src" (Attr Scenario.image) = "/_next/logo.png" /\
  exists n1 config1 w1 n2 config2 w2,
    Part001.embedImage Scenario.image Scenario.config Scenario.world
    = Some ((n1, config1), w1) /\
    Part001.processed config1 "/_next/logo.png" = false /\
    Part001.processed config1 "site/_next/logo.png" = true /\
    Part001.embedImage Scenario.image config1 w1 = Some ((n2, config2), w2) /\
    reads w2 = [ "site/_next/logo.png"; "site/_next/logo.png" ] /\
    firstVal "src" (Attr n1) = "data:image/png;base64,UE5H" /\
    firstVal "src" (Attr n2) = "data:image/png;base64,UE5H".
Proof.
  split; [reflexivity|].
  eexists _, _, _, _, _, _. split; [vm_compute; reflexivity|].
  split; [vm_compute; reflexivity|]. split; [vm_compute; reflexivity|].
  split; [vm_compute; reflexivity|]. repeat split.
Qed.

(** * What the attribute rule leaves alone *)

Lemma handler_key (a : Attribute) :
  isJSAttr a = true ->
  String.eqb (Key a) "rel" = false /\ String.eqb (Key a) "as" = false /\
  String.eqb (Key a) "href" = false.
Proof.
  intros H. apply isJSAttr_In in H. unfold jsAttributes in H. simpl in H.
  repeat (destruct H as [<-|H]; [repeat split|]). contradiction.
Qed.

Lemma fold_left_filter {A S} (f : S -> A -> S) (p : A -> bool) (l : list A) :
  (forall a s, p a = false -> f s a = s) ->
  forall s, fold_left f (List.filter p l) s = fold_left f l s.
Proof.
  intros H. induction l as [|a l IH]; intros s; simpl; [reflexivity|].
  destruct (p a) eqn:E; simpl; [apply IH|]. rewrite (H a s E). apply IH.
Qed.

Lemma isPreloadJS_removeInlineJS (n : Node) :
  isPreloadJS (removeInlineJS n) = isPreloadJS n.
Proof.
  unfold isPreloadJS. rewrite removeInlineJS_filter, fold_left_filter; [reflexivity|].
  intros a [rel as'] H. apply negb_false_iff, handler_key in H as (-> & -> & _).
  reflexivity.
Qed.

Lemma isStylesheet_removeInlineJS (n : Node) :
  isStylesheet (removeInlineJS n) = isStylesheet n.
Proof.
  unfold isStylesheet. rewrite removeInlineJS_filter.
  induction (Attr n) as [|a l IH]; simpl; [reflexivity|].
  destruct (isJSAttr a) eqn:E; simpl; [|now rewrite IH].
  apply handler_key in E as (-> & _). simpl. exact IH.
Qed.

Lemma firstVal_href_removeInlineJS (n : Node) :
  firstVal "href" (Attr (removeInlineJS n)) = firstVal "href" (Attr n).
Proof.
  rewrite removeInlineJS_filter.
  induction (Attr n) as [|a l IH]; simpl; [reflexivity|].
  destruct (isJSAttr a) eqn:E; simpl; [|now rewrite IH].
  apply handler_key in E as (_ & _ & ->). exact IH.
Qed.

(** the node after the attribute rule, with any children, is the same
    kind of node for every test of [processNode] and [embedCSS] *)
Lemma strip_same_kind (config : Config) (n : Node) (cs : list Node) :
  let n' := setChildren (strip config n) cs in
  isElement n' = isElement n /\ isScript n' = isScript n /\ isLink n' = isLink n /\
  isPreloadJS n' = isPreloadJS n /\ isStylesheet n' = isStylesheet n /\
  firstVal "href" (Attr n') = firstVal "href" (Attr n) /\
  MainGo.cssPath n' config = MainGo.cssPath n config.
Proof.
  intros n'. subst n'. unfold strip.
  destruct (NodeType_eqb (Type' n) ElementNode && removeJS config).
  - pose proof (isPreloadJS_removeInlineJS n) as Hp.
    pose proof (isStylesheet_removeInlineJS n) as Hs.
    pose proof (firstVal_href_removeInlineJS n) as Hh.
    unfold MainGo.cssPath, isPreloadJS, isStylesheet in *. simpl in *.
    rewrite Hh. repeat split; assumption.
  - destruct n; repeat split.
Qed.

Lemma detaches_strip config n cs :
  detaches config (setChildren (strip config n) cs) = detaches config n.
Proof.
  destruct (strip_same_kind config n cs) as (_ & Hs & Hl & Hp & _).
  unfold detaches. now rewrite Hs, Hl, Hp.
Qed.

Lemma embeds_strip fs config n cs :
  embeds fs config (setChildren (strip config n) cs) = embeds fs config n.
Proof.
  destruct (strip_same_kind config n cs) as (_ & _ & Hl & _ & Hs & Hh & Hc).
  unfold embeds. now rewrite detaches_strip, Hl, Hs, Hh, Hc.
Qed.

Lemma forallb_filter_same {A} (p : A -> bool) (l : list A) :
  forallb p (List.filter p l) = true.
Proof.
  induction l as [|a l IH]; simpl; [reflexivity|].
  destruct (p a) eqn:E; simpl; [rewrite E|]; exact IH.
Qed.

Lemma filter_all {A} (p : A -> bool) (l : list A) :
  forallb p l = true -> List.filter p l = l.
Proof.
  induction l as [|a l IH]; simpl; [reflexivity|].
  intros H. apply andb_true_iff in H as [-> H]. now rewrite IH.
Qed.

Lemma strip_handlers config n cs :
  negb (removeJS config && isElement (setChildren (strip config n) cs))
  || forallb notHandler (Attr (setChildren (strip config n) cs)) = true.
Proof.
  destruct (strip_same_kind config n cs) as (-> & _).
  change (Attr (setChildren (strip config n) cs)) with (Attr (strip config n)).
  unfold strip, isElement.
  destruct (removeJS config), (NodeType_eqb (Type' n) ElementNode);
    cbn [andb negb orb]; try reflexivity.
  rewrite removeInlineJS_filter. apply forallb_filter_same.
Qed.

(** a node without handler attributes is left by the attribute rule *)
Lemma strip_settled config n :
  negb (removeJS config && isElement n) || forallb notHandler (Attr n) = true ->
  strip config n = n.
Proof.
  unfold strip, isElement.
  destruct (NodeType_eqb (Type' n) ElementNode), (removeJS config); simpl;
    try reflexivity.
  intros H. unfold removeInlineJS. rewrite fold_append_filter. simpl.
  fold notHandler. change (fun a => negb (isJSAttr a)) with notHandler.
  rewrite filter_all by assumption. destruct n; reflexivity.
Qed.

(** * A run leaves a settled tree, and a settled tree is left as it is *)

Lemma settled_unfold fs config n :
  settled fs config n =
  negb (detaches config n) && negb (embeds fs config n) &&
  (negb (removeJS config && isElement n) || forallb notHandler (Attr n)) &&
  forallb (settled fs config) (Children n).
Proof. destruct n; reflexivity. Qed.

Lemma handlerFree_unfold n :
  handlerFree n =
  (negb (isElement n) || forallb notHandler (Attr n))
  && forallb handlerFree (Children n).
Proof. destruct n; reflexivity. Qed.

Lemma settled_styleNode fs config cssString :
  settled fs config (MainGo.styleNode cssString) = true.
Proof.
  unfold MainGo.styleNode, AppendChild, setChildren. simpl.
  cbv [detaches embeds isScript isLink isElement]. simpl.
  destruct (removeJS config); reflexivity.
Qed.

Lemma processChildren_settles config cs :
  Forall settles cs ->
  forall done w, exists cs' w' places,
    MainGo.processChildren config done cs w = Some (cs', w') /\
    files w' = files w /\ mimeTypes w' = mimeTypes w /\
    cs' = done ++ places /\
    length places <= length cs /\
    forallb (settled (files w) config) places = true.
Proof.
  induction 1 as [|c cs Hc _ IH]; intros done w; simpl.
  - exists done, w, []. rewrite app_nil_r. repeat split. reflexivity.
  - destruct (Hc config {| earlier := done; attached := true; later := cs |} w eq_refl)
      as (c' & f' & w1 & place & E & Hf & Hm & Hu & _ & Hl & Hs).
    unfold bind. rewrite E.
    destruct (IH (upTo (Some f') c') w1)
      as (cs' & w2 & places & E2 & Hf2 & Hm2 & Hc2 & Hl2 & Hs2).
    exists cs', w2, (place ++ places). split; [exact E2|].
    split; [congruence|]. split; [congruence|].
    split; [rewrite Hc2, Hu; simpl; now rewrite app_assoc|].
    split; [rewrite length_app; simpl; lia|].
    rewrite forallb_app, Hs. rewrite Hf in Hs2. now rewrite Hs2.
Qed.

Lemma processNode_settles n : settles n.
Proof.
  induction n as [t d a cs IH] using Node_induction.
  pose (n := mkNode t d a cs). assert (Hcs : Children n = cs) by reflexivity.
  change (settles n). clearbody n. clear t d a.
  intros config f w Ha.
  rewrite processNode_unfold. unfold bind at 1. rewrite nodeRules_cases.
  fold (detaches config n).
  destruct (detaches config n) eqn:Hd.
  - exists n, (RemoveChild f), w, [].
    split; [reflexivity|]. split; [reflexivity|]. split; [reflexivity|].
    split; [simpl; now rewrite app_nil_r|].
    split; [reflexivity|]. split; [simpl; lia|reflexivity].
  - assert (Hkids : forall w1, files w1 = files w -> mimeTypes w1 = mimeTypes w ->
              exists cs' w',
                MainGo.processChildren config [] cs w1 = Some (cs', w') /\
                files w' = files w /\ mimeTypes w' = mimeTypes w /\
                forallb (settled (files w) config) cs' = true).
    { intros w1 Hw1 Hm1.
      destruct (processChildren_settles config cs IH [] w1)
        as (cs' & w' & places & E & Hf & Hm & Hc & _ & Hs).
      simpl in Hc. subst places. exists cs', w'. rewrite Hw1 in *.
      repeat split; congruence. }
    assert (Hstay : forall w1, files w1 = files w -> mimeTypes w1 = mimeTypes w ->
              embeds (files w) config n = false ->
              exists n' f' w' place,
                (let* children := MainGo.processChildren config [] (Children n) in
                 ret (setChildren (strip config n) children, Some f)) w1
                = Some ((n', Some f'), w') /\
                files w' = files w /\ mimeTypes w' = mimeTypes w /\
                upTo (Some f') n' = earlier f ++ place /\
                childList f' n' = earlier f ++ place ++ later f /\
                length place <= 1 /\
                forallb (settled (files w) config) place = true).
    { intros w1 Hw1 Hm1 Hemb.
      destruct (Hkids w1 Hw1 Hm1) as (cs' & w' & E & Hf & Hm & Hs).
      exists (setChildren (strip config n) cs'), f, w', [setChildren (strip config n) cs'].
      unfold bind, ret. rewrite Hcs, E. unfold childList. simpl upTo. rewrite Ha.
      split; [reflexivity|]. split; [exact Hf|]. split; [exact Hm|].
      split; [reflexivity|]. split; [reflexivity|]. split; [simpl; lia|].
      cbn [forallb]. rewrite settled_unfold, detaches_strip, embeds_strip, Hd, Hemb.
      rewrite strip_handlers. simpl Children. rewrite Hs. reflexivity. }
    destruct (isLink n && isStylesheet n) eqn:Hls.
    + apply andb_true_iff in Hls as [Hl Hs].
      destruct (String.eqb_spec (firstVal "href" (Attr n)) EmptyString) as [Eh|Eh].
      * unfold bind at 1. unfold MainGo.embedCSS. rewrite Eh. simpl String.eqb. cbv iota.
        unfold ret at 1. apply Hstay; try reflexivity.
        unfold embeds. rewrite Eh. simpl. now rewrite !andb_false_r.
      * destruct (files w (MainGo.cssPath n config)) as [css|] eqn:Hcss.
        -- destruct (embedCSS_read n config (Some f) w css Eh Hcss)
             as (s & w1 & Hf1 & Hm1 & E).
           unfold bind at 1. rewrite E.
           destruct (Hkids w1 Hf1 Hm1) as (cs' & w' & E2 & Hf2 & Hm2 & _).
           eexists _, _, w', [MainGo.styleNode s].
           unfold bind, ret. rewrite Hcs, E2.
           split; [reflexivity|]. split; [exact Hf2|]. split; [exact Hm2|].
           split; [simpl; now rewrite app_nil_r|].
           split; [unfold childList; simpl; now rewrite <- app_assoc|].
           split; [simpl; lia|].
           cbn [forallb]. now rewrite settled_styleNode.
        -- unfold bind at 1.
           rewrite (embedCSS_missing_file n config (Some f) w Eh Hcss).
           apply Hstay; try reflexivity.
           unfold embeds. rewrite Hcss. now rewrite !andb_false_r.
    + unfold bind at 1. unfold ret at 1. apply Hstay; try reflexivity.
      unfold embeds. rewrite Hd. simpl negb. rewrite andb_true_l.
      destruct (isLink n); [|reflexivity]. simpl in Hls. now rewrite Hls.
Qed.

Lemma processChildren_rests config cs :
  Forall rests cs ->
  forall done w,
    forallb (settled (files w) config) cs = true ->
    exists w',
      MainGo.processChildren config done cs w = Some (done ++ cs, w') /\
      files w' = files w /\ mimeTypes w' = mimeTypes w /\
      (forallb linkFree cs = true -> w' = w).
Proof.
  induction 1 as [|c cs Hc _ IH]; intros done w Hs; simpl.
  - exists w. rewrite app_nil_r. repeat split.
  - simpl in Hs. apply andb_true_iff in Hs as [Hs1 Hs2].
    destruct (Hc config (Some {| earlier := done; attached := true; later := cs |}) w Hs1)
      as (w1 & E & Hf & Hm & Hq).
    unfold bind. rewrite E. simpl upTo.
    rewrite <- Hf in Hs2.
    destruct (IH (done ++ [c]) w1 Hs2) as (w2 & E2 & Hf2 & Hm2 & Hq2).
    exists w2. rewrite E2, <- app_assoc. simpl.
    split; [reflexivity|]. split; [congruence|]. split; [congruence|].
    intros Hl. apply andb_true_iff in Hl as [Hl1 Hl2].
    rewrite (Hq2 Hl2). now apply Hq.
Qed.

Lemma processNode_rests n : rests n.
Proof.
  induction n as [t d a cs IH] using Node_induction.
  pose (n := mkNode t d a cs). assert (Hcs : Children n = cs) by reflexivity.
  change (rests n). clearbody n. clear t d a.
  intros config parent w Hs.
  rewrite settled_unfold, Hcs in Hs.
  apply andb_true_iff in Hs as [Hs Hkids]. apply andb_true_iff in Hs as [Hs Hattr].
  apply andb_true_iff in Hs as [Hd He].
  apply negb_true_iff in Hd. apply negb_true_iff in He.
  rewrite processNode_unfold. unfold bind at 1. rewrite nodeRules_cases.
  fold (detaches config n). rewrite Hd, (strip_settled config n Hattr).
  (* after the rules for the node, in a world [w1] *)
  assert (Hrest : forall w1, files w1 = files w -> mimeTypes w1 = mimeTypes w ->
            (linkFree n = true -> w1 = w) ->
            exists w',
              (let* children := MainGo.processChildren config [] (Children n) in
               ret (setChildren n children, parent)) w1 = Some ((n, parent), w') /\
              files w' = files w /\ mimeTypes w' = mimeTypes w /\
              (linkFree n = true -> w' = w)).
  { intros w1 Hf1 Hm1 Hq1. rewrite <- Hf1 in Hkids.
    destruct (processChildren_rests config cs IH [] w1 Hkids) as (w2 & E & Hf & Hm & Hq).
    exists w2. unfold bind, ret. rewrite Hcs, E. simpl app.
    split; [rewrite <- Hcs; destruct n; reflexivity|].
    split; [congruence|]. split; [congruence|].
    intros Hl. rewrite <- (Hq1 Hl). apply Hq.
    rewrite linkFree_unfold, Hcs in Hl. now apply andb_true_iff in Hl as [_ Hl]. }
  destruct (isLink n && isStylesheet n) eqn:Hls.
  - apply andb_true_iff in Hls as [Hl Hst].
    assert (Hnl : linkFree n = true -> False)
      by (rewrite linkFree_unfold, Hl; discriminate).
    destruct (String.eqb_spec (firstVal "href" (Attr n)) EmptyString) as [Eh|Eh].
    + unfold bind at 1. unfold MainGo.embedCSS. rewrite Eh. simpl String.eqb. cbv iota.
      unfold ret at 1. apply Hrest; try reflexivity.
    + destruct (files w (MainGo.cssPath n config)) as [css|] eqn:Hcss.
      * exfalso. unfold embeds in He. rewrite Hd, Hl, Hst, Hcss in He.
        destruct (String.eqb_spec (firstVal "href" (Attr n)) EmptyString);
          [contradiction|discriminate].
      * unfold bind at 1.
        rewrite (embedCSS_missing_file n config parent w Eh Hcss).
        apply Hrest; try reflexivity. intros Hq. contradiction.
  - unfold bind at 1. unfold ret at 1. apply Hrest; reflexivity.
Qed.

(** * Runs *)

(** a run from a root that is not an element *)
Lemma run_settles (T : Node) (config : Config) (w : World) :
  Type' T <> ElementNode ->
  exists cs' w',
    MainGo.processNode T config None w = Some ((setChildren T cs', None), w') /\
    files w' = files w /\ mimeTypes w' = mimeTypes w /\
    length cs' <= length (Children T) /\
    settled (files w) config (setChildren T cs') = true.
Proof.
  intros Ht.
  destruct (processNode_root T config w Ht) as (cs' & w' & Ec & E & Hf & Hm).
  assert (Hall : Forall settles (Children T))
    by (apply List.Forall_forall; intros; apply processNode_settles).
  destruct (processChildren_settles config (Children T) Hall [] w)
    as (cs2 & w2 & places & E2 & _ & _ & Hc & Hl & Hs).
  rewrite Ec in E2. injection E2 as <- <-. simpl in Hc. subst places.
  exists cs', w'. split; [exact E|]. split; [exact Hf|]. split; [exact Hm|].
  split; [exact Hl|].
  assert (He : isElement (setChildren T cs') = false)
    by (unfold isElement; simpl; destruct (Type' T); try reflexivity; congruence).
  assert (Hd : detaches config (setChildren T cs') = false)
    by (unfold detaches, isScript, isLink; unfold isElement in He; now rewrite He).
  assert (Hb : embeds (files w) config (setChildren T cs') = false)
    by (unfold embeds, isLink; unfold isElement in He; rewrite He;
        simpl; now rewrite andb_false_r).
  rewrite settled_unfold, Hd, Hb, He, andb_false_r. exact Hs.
Qed.

Lemma settled_handlerFree fs config n :
  removeJS config = true -> settled fs config n = true -> handlerFree n = true.
Proof.
  intros Hjs. induction n as [t d a cs IH] using Node_induction.
  pose (n := mkNode t d a cs). assert (Hcs : Children n = cs) by reflexivity.
  change (settled fs config n = true -> handlerFree n = true).
  clearbody n. clear t d a.
  rewrite settled_unfold, handlerFree_unfold, Hcs, Hjs.
  intros H. apply andb_true_iff in H as [H Hk]. apply andb_true_iff in H as [_ Ha].
  simpl in Ha. rewrite Ha. simpl.
  clear Hcs. induction IH as [|c cs Hc _ IHcs]; [reflexivity|].
  simpl in *. apply andb_true_iff in Hk as [Hk1 Hk2]. now rewrite Hc, IHcs.
Qed.

(** X1: after a run with JS removal from a root that is not an element,
    no element of the tree carries an attribute whose key is one of the
    seventeen names of [jsAttributes], the inserted style elements
    included. *)
Theorem run_leaves_no_handler (T : Node) (config : Config) (w : World) :
  Type' T <> ElementNode ->
  removeJS config = true ->
  exists T' w',
    MainGo.processNode T config None w = Some ((T', None), w') /\
    handlerFree T' = true.
Proof.
  intros Ht Hjs. destruct (run_settles T config w Ht) as (cs' & w' & E & _ & _ & _ & Hs).
  exists (setChildren T cs'), w'. split; [exact E|].
  apply (settled_handlerFree (files w) config _ Hjs Hs).
Qed.

Lemma run_leaves_no_handler_witness :
  Type' Scenario.scriptAndDiv <> ElementNode /\
  removeJS Scenario.config = true /\
  exists T' w',
    MainGo.processNode Scenario.scriptAndDiv Scenario.config None Scenario.world
    = Some ((T', None), w') /\
    handlerFree T' = true.
Proof.
  split; [discriminate|]. split; [reflexivity|].
  apply (run_leaves_no_handler Scenario.scriptAndDiv Scenario.config Scenario.world).
  - discriminate.
  - reflexivity.
Defined.

(** X2: a run is idempotent on the tree: the tree a run leaves (with or
    without JS removal, from a root that is not an element) is left as it
    is by a second run over the same files. *)
Theorem run_twice (T : Node) (config : Config) (w : World) :
  Type' T <> ElementNode ->
  exists T' w' w'',
    MainGo.processNode T config None w = Some ((T', None), w') /\
    MainGo.processNode T' config None w' = Some ((T', None), w'').
Proof.
  intros Ht. destruct (run_settles T config w Ht) as (cs' & w' & E & Hf & _ & _ & Hs).
  rewrite <- Hf in Hs.
  destruct (processNode_rests (setChildren T cs') config None w' Hs) as (w'' & E2 & _).
  exists (setChildren T cs'), w', w''. split; [exact E|exact E2].
Qed.

Lemma run_twice_witness :
  Type' Scenario.withScript <> ElementNode /\
  exists T' w' w'',
    MainGo.processNode Scenario.withScript Scenario.config None Scenario.world
    = Some ((T', None), w') /\
    MainGo.processNode T' Scenario.config None w' = Some ((T', None), w'').
Proof.
  split; [discriminate|].
  apply (run_twice Scenario.withScript Scenario.config Scenario.world). discriminate.
Defined.

Lemma quiet_tree_settled fs config n :
  linkFree n = true ->
  (removeJS config = true -> scriptFree n = true /\ handlerFree n = true) ->
  settled fs config n = true.
Proof.
  induction n as [t d a cs IH] using Node_induction.
  pose (n := mkNode t d a cs). assert (Hcs : Children n = cs) by reflexivity.
  change (linkFree n = true ->
          (removeJS config = true -> scriptFree n = true /\ handlerFree n = true) ->
          settled fs config n = true).
  clearbody n. clear t d a.
  rewrite linkFree_unfold, scriptFree_unfold, handlerFree_unfold, settled_unfold, Hcs.
  intros Hl Hjs. apply andb_true_iff in Hl as [Hl Hlk]. apply negb_true_iff in Hl.
  assert (Hkids : forallb (settled fs config) cs = true).
  { clear Hcs. induction IH as [|c cs Hc _ IHcs]; [reflexivity|].
    simpl in Hlk. apply andb_true_iff in Hlk as [Hl1 Hl2].
    simpl. rewrite Hc, IHcs; try reflexivity; try assumption.
    - intros J. destruct (Hjs J) as [H1 H2].
      apply andb_true_iff in H1 as [H1 H1k]. apply andb_true_iff in H2 as [H2 H2k].
      simpl in H1k, H2k. apply andb_true_iff in H1k as [_ ->].
      apply andb_true_iff in H2k as [_ ->]. rewrite H1, H2. now split.
    - intros J. destruct (Hjs J) as [H1 H2].
      apply andb_true_iff in H1 as [_ H1k]. apply andb_true_iff in H2 as [_ H2k].
      simpl in H1k, H2k. apply andb_true_iff in H1k as [-> _].
      now apply andb_true_iff in H2k as [-> _]. }
  rewrite Hkids, andb_true_r. unfold detaches, embeds. rewrite Hl. simpl.
  rewrite !andb_false_r. simpl.
  destruct (removeJS config) eqn:J; simpl; [|now rewrite andb_false_r].
  destruct (Hjs eq_refl) as [H1 H2].
  apply andb_true_iff in H1 as [H1 _]. apply andb_true_iff in H2 as [H2 _].
  apply negb_true_iff in H1. rewrite H1. simpl.
  destruct (isElement n); simpl in *; [exact H2|reflexivity].
Qed.

(** X3: a tree with nothing to do passes through untouched: when it has
    no link element and, if JS removal is on, no script element and no
    handler attribute on an element, [processNode] returns the tree and
    the parent's child list as they are, reads no file and logs nothing,
    whatever the node and its parent (none included). *)
Theorem nothing_to_do (T : Node) (config : Config) (parent : option Family) (w : World) :
  linkFree T = true ->
  (removeJS config = true -> scriptFree T = true /\ handlerFree T = true) ->
  MainGo.processNode T config parent w = Some ((T, parent), w).
Proof.
  intros Hl Hjs.
  destruct (processNode_rests T config parent w
              (quiet_tree_settled (files w) config T Hl Hjs))
    as (w' & E & _ & _ & Hq).
  now rewrite E, (Hq Hl).
Qed.

Lemma nothing_to_do_witness :
  MainGo.processNode
    (Scenario.element "div" [ Scenario.attr "onclick" "f()" ]
       [ Scenario.element "script" [] [ Scenario.text "alert(1)" ] ])
    {| inputFile := "site/index.html"; outputFile := "site/out.html";
       removeJS := false; baseDir := "site"; processedURLs := ∅ |}
    None Scenario.world
  = Some ((Scenario.element "div" [ Scenario.attr "onclick" "f()" ]
             [ Scenario.element "script" [] [ Scenario.text "alert(1)" ] ], None),
          Scenario.world).
Proof.
  apply (nothing_to_do
           (Scenario.element "div" [ Scenario.attr "onclick" "f()" ]
              [ Scenario.element "script" [] [ Scenario.text "alert(1)" ] ])
           {| inputFile := "site/index.html"; outputFile := "site/out.html";
              removeJS := false; baseDir := "site"; processedURLs := ∅ |}
           None Scenario.world).
  - reflexivity.
  - simpl. discriminate.
Defined.

(** X4: a node that [processNode] detaches (with JS removal, a script
    element or a script preload link, also one that is a stylesheet link
    as well) is not looked into: the call returns at once, the node is as
    it was, nothing below it is visited, no file is read and nothing is
    logged; its place in the parent's child list is closed. *)
Theorem detached_not_visited (n : Node) (config : Config) (f : Family) (w : World) :
  attached f = true ->
  removeJS config = true ->
  isScript n = true \/ (isLink n = true /\ isPreloadJS n = true) ->
  MainGo.processNode n config (Some f) w = Some ((n, Some (RemoveChild f)), w) /\
  childList f n = earlier f ++ n :: later f /\
  childList (RemoveChild f) n = earlier f ++ later f.
Proof.
  intros Ha Hjs H. split; [|split; [unfold childList; now rewrite Ha|reflexivity]].
  rewrite processNode_unfold. unfold bind at 1. rewrite nodeRules_cases, Hjs.
  assert (E : isScript n || isLink n && isPreloadJS n = true)
    by (destruct H as [->|[-> ->]]; [reflexivity|apply orb_true_r]).
  rewrite E. reflexivity.
Qed.

Lemma detached_not_visited_witness :
  MainGo.processNode
    (Scenario.element "script" [] [ Scenario.stylesheetLink ])
    Scenario.config (Some Scenario.family) Scenario.world
  = Some ((Scenario.element "script" [] [ Scenario.stylesheetLink ],
           Some (RemoveChild Scenario.family)), Scenario.world) /\
  childList Scenario.family (Scenario.element "script" [] [ Scenario.stylesheetLink ])
  = earlier Scenario.family
    ++ Scenario.element "script" [] [ Scenario.stylesheetLink ] :: later Scenario.family /\
  childList (RemoveChild Scenario.family)
            (Scenario.element "script" [] [ Scenario.stylesheetLink ])
  = earlier Scenario.family ++ later Scenario.family.
Proof.
  apply (detached_not_visited (Scenario.element "script" [] [ Scenario.stylesheetLink ])
           Scenario.config Scenario.family Scenario.world).
  - reflexivity.
  - reflexivity.
  - left. reflexivity.
Defined.

(** X5: the visit of a child never touches its siblings: whatever the
    node and the mode, [processNode] on an attached node ends, leaves the
    files as they are, and the parent's child list afterwards is the
    children before the node, at most one node at its place, and the
    children after it, unchanged and in order. *)
Theorem visit_keeps_siblings (n : Node) (config : Config) (f : Family) (w : World) :
  attached f = true ->
  exists n' f' w' place,
    MainGo.processNode n config (Some f) w = Some ((n', Some f'), w') /\
    files w' = files w /\
    childList f n = earlier f ++ n :: later f /\
    childList f' n' = earlier f ++ place ++ later f /\
    length place <= 1.
Proof.
  intros Ha.
  destruct (processNode_settles n config f w Ha)
    as (n' & f' & w' & place & E & Hf & _ & _ & Hc & Hl & _).
  exists n', f', w', place. split; [exact E|]. split; [exact Hf|].
  split; [unfold childList; now rewrite Ha|]. split; [exact Hc|exact Hl].
Qed.

Lemma visit_keeps_siblings_witness :
  attached Scenario.family = true /\
  exists n' f' w' place,
    MainGo.processNode Scenario.stylesheetLink Scenario.config (Some Scenario.family)
      Scenario.world = Some ((n', Some f'), w') /\
    files w' = files Scenario.world /\
    childList Scenario.family Scenario.stylesheetLink
    = earlier Scenario.family ++ Scenario.stylesheetLink :: later Scenario.family /\
    childList f' n' = earlier Scenario.family ++ place ++ later Scenario.family /\
    length place <= 1.
Proof.
  split; [reflexivity|].
  apply (visit_keeps_siblings Scenario.stylesheetLink Scenario.config Scenario.family
           Scenario.world).
  reflexivity.
Defined.

(** * What a run leaves of links *)

Lemma settled_preloadFree fs config n :
  removeJS config = true -> settled fs config n = true -> preloadFree n = true.
Proof.
  intros Hjs. induction n as [t d a cs IH] using Node_induction.
  pose (n := mkNode t d a cs). assert (Hcs : Children n = cs) by reflexivity.
  change (settled fs config n = true -> preloadFree n = true).
  assert (Hu : preloadFree n
               = negb (isLink n && isPreloadJS n) && forallb preloadFree (Children n))
    by reflexivity.
  clearbody n. clear t d a.
  rewrite settled_unfold, Hu, Hcs. unfold detaches. rewrite Hjs, andb_true_r.
  intros H. apply andb_true_iff in H as [H Hk]. apply andb_true_iff in H as [H _].
  apply andb_true_iff in H as [H _]. apply negb_true_iff, orb_false_iff in H as [_ ->].
  simpl. clear Hcs Hu. induction IH as [|c cs Hc _ IHcs]; [reflexivity|].
  simpl in *. apply andb_true_iff in Hk as [Hk1 Hk2]. now rewrite Hc, IHcs.
Qed.

Lemma settled_allEmbedded fs config n :
  settled fs config n = true -> allEmbedded fs config n = true.
Proof.
  induction n as [t d a cs IH] using Node_induction.
  pose (n := mkNode t d a cs). assert (Hcs : Children n = cs) by reflexivity.
  change (settled fs config n = true -> allEmbedded fs config n = true).
  assert (Hu : allEmbedded fs config n
               = negb (pending fs config n) && forallb (allEmbedded fs config) (Children n))
    by reflexivity.
  clearbody n. clear t d a.
  rewrite settled_unfold, Hu, Hcs.
  intros H. apply andb_true_iff in H as [H Hk]. apply andb_true_iff in H as [H _].
  apply andb_true_iff in H as [Hd He].
  apply negb_true_iff in Hd, He.
  assert (Hp : pending fs config n = false).
  { unfold embeds in He. rewrite Hd in He. simpl in He. exact He. }
  rewrite Hp. simpl. clear Hcs Hu Hp Hd He.
  induction IH as [|c cs Hc _ IHcs]; [reflexivity|].
  simpl in *. apply andb_true_iff in Hk as [Hk1 Hk2]. now rewrite Hc, IHcs.
Qed.

(** X6: after a run with JS removal from a root that is not an element,
    no link element with [rel] [preload] and [as] [script] is left in the
    tree. *)
Theorem run_leaves_no_preload (T : Node) (config : Config) (w : World) :
  Type' T <> ElementNode ->
  removeJS config = true ->
  exists T' w',
    MainGo.processNode T config None w = Some ((T', None), w') /\
    preloadFree T' = true.
Proof.
  intros Ht Hjs. destruct (run_settles T config w Ht) as (cs' & w' & E & _ & _ & _ & Hs).
  exists (setChildren T cs'), w'. split; [exact E|].
  apply (settled_preloadFree (files w) config _ Hjs Hs).
Qed.

Lemma run_leaves_no_preload_witness :
  exists T' w',
    MainGo.processNode Scenario.withScript Scenario.config None Scenario.world
    = Some ((T', None), w') /\
    preloadFree T' = true.
Proof.
  apply (run_leaves_no_preload Scenario.withScript Scenario.config Scenario.world).
  - discriminate.
  - reflexivity.
Defined.

(** X7: a run, with or without JS removal, embeds every stylesheet it
    can: a stylesheet link left in the tree has no href, or an empty one,
    or its CSS file cannot be read (the files are as before the run). *)
Theorem run_embeds_every_stylesheet (T : Node) (config : Config) (w : World) :
  Type' T <> ElementNode ->
  exists T' w',
    MainGo.processNode T config None w = Some ((T', None), w') /\
    files w' = files w /\
    allEmbedded (files w) config T' = true.
Proof.
  intros Ht. destruct (run_settles T config w Ht) as (cs' & w' & E & Hf & _ & _ & Hs).
  exists (setChildren T cs'), w'. split; [exact E|]. split; [exact Hf|].
  apply (settled_allEmbedded (files w) config _ Hs).
Qed.

Lemma run_embeds_every_stylesheet_witness :
  allEmbedded (files Scenario.world) Scenario.config
    (Scenario.document
       [ Scenario.element "head" [] [ Scenario.stylesheetLink; Scenario.missingLink ] ])
  = false /\
  exists T' w',
    MainGo.processNode
      (Scenario.document
         [ Scenario.element "head" [] [ Scenario.stylesheetLink; Scenario.missingLink ] ])
      Scenario.config None Scenario.world
    = Some ((T', None), w') /\
    files w' = files Scenario.world /\
    allEmbedded (files Scenario.world) Scenario.config T' = true.
Proof.
  split; [reflexivity|].
  apply (run_embeds_every_stylesheet
           (Scenario.document
              [ Scenario.element "head" [] [ Scenario.stylesheetLink; Scenario.missingLink ] ])
           Scenario.config Scenario.world).
  discriminate.
Defined.

(** * Substrings *)

Lemma HasPrefix_of_take (k : nat) (s p : string) :
  GoStrings.HasPrefix (GoStrings.take k s) p = true -> GoStrings.HasPrefix s p = true.
Proof.
  revert k s. induction p as [|c p IH]; intros k s; [reflexivity|].
  destruct k as [|k], s as [|d s]; simpl; try discriminate.
  intros H. apply andb_true_iff in H as [-> H]. simpl. now apply (IH k).
Qed.

Lemma Contains_of_take (k : nat) (s p : string) :
  GoStrings.Contains (GoStrings.take k s) p = true -> GoStrings.Contains s p = true.
Proof.
  revert k. induction s as [|c s IH]; intros k.
  - destruct k; simpl; auto.
  - destruct k as [|k].
    + simpl GoStrings.take. rewrite Contains_unfold, orb_false_r.
      intros H. rewrite Contains_unfold. destruct p; [reflexivity|discriminate].
    + simpl GoStrings.take. rewrite !(Contains_unfold (String c _)).
      intros H. apply orb_true_iff in H as [H|H]; apply orb_true_iff.
      * left. apply (HasPrefix_of_take (S k) (String c s)). exact H.
      * right. now apply (IH k).
Qed.

Lemma Contains_of_drop (k : nat) (s p : string) :
  GoStrings.Contains (GoStrings.drop k s) p = true -> GoStrings.Contains s p = true.
Proof.
  revert s. induction k as [|k IH]; intros s; [auto|].
  destruct s as [|c s]; [auto|]. simpl GoStrings.drop. intros H.
  rewrite Contains_unfold. apply orb_true_iff. right. now apply IH.
Qed.

Lemma Contains_of_HasPrefix (s p : string) :
  GoStrings.HasPrefix s p = true -> GoStrings.Contains s p = true.
Proof. intros H. rewrite Contains_unfold, H. reflexivity. Qed.

(** * What the two patterns find *)

(** a match found in [s] starts at some byte of [s] *)
Lemma findAll_In_at {A} (matchAt : string -> option (nat * A)) (m : A) (s : string) :
  forall skip, In m (Regexp.findAll matchAt skip s) ->
  exists j len, matchAt (GoStrings.drop j s) = Some (len, m).
Proof.
  induction s as [|c s IH]; intros skip; [contradiction|].
  assert (Hrest : forall k, In m (Regexp.findAll matchAt k s) ->
                            exists j len, matchAt (GoStrings.drop j (String c s)) = Some (len, m)).
  { intros k H. apply IH in H as (j & len & H). now exists (S j), len. }
  destruct skip as [|k]; cbn [Regexp.findAll]; [|apply Hrest].
  destruct (matchAt (String c s)) as [[len m']|] eqn:E; [|apply Hrest].
  intros [->|H]; [now exists 0, len|now apply Hrest in H].
Qed.

Lemma fontFaceAt_HasPrefix s len m :
  Regexp.fontFaceAt s = Some (len, m) ->
  GoStrings.HasPrefix s "@font-face" = true /\ m = GoStrings.take len s.
Proof.
  unfold Regexp.fontFaceAt.
  destruct (GoStrings.HasPrefix s "@font-face"); [|discriminate].
  destruct (GoStrings.drop _ (GoStrings.drop 10 s)) as [|c s2]; [discriminate|].
  destruct (Ascii.eqb_spec c "{"%char) as [->|Hc].
  - destruct (GoStrings.drop _ s2); [discriminate|]. intros [= <- <-]. now split.
  - intros H. exfalso. revert H.
    destruct c as [[] [] [] [] [] [] [] []]; try discriminate. congruence.
Qed.

(** every font face rule found is a piece of the text *)
Lemma fontFace_in_text (cssString fontFace p : string) :
  In fontFace (Regexp.fontFaceRegex_FindAllString cssString) ->
  GoStrings.Contains cssString "@font-face" = true /\
  (GoStrings.Contains fontFace p = true -> GoStrings.Contains cssString p = true).
Proof.
  intros H. apply findAll_In_at in H as (j & len & H).
  apply fontFaceAt_HasPrefix in H as [Hp ->]. split.
  - apply (Contains_of_drop j), Contains_of_HasPrefix, Hp.
  - intros Hc. apply (Contains_of_drop j), (Contains_of_take len), Hc.
Qed.

Lemma fontUrlAt_next s len url :
  Regexp.fontUrlAt s = Some (len, url) -> GoStrings.Contains s "/_next/" = true.
Proof.
  unfold Regexp.fontUrlAt.
  destruct (GoStrings.HasPrefix s "url("); [|discriminate].
  set (q1 := match GoStrings.drop 4 s with
             | String c _ => if Regexp.isQuote c then 1 else 0
             | EmptyString => 0
             end).
  destruct (GoStrings.HasPrefix (GoStrings.drop q1 (GoStrings.drop 4 s)) "/_next/") eqn:Hp;
    [|discriminate].
  intros _. apply (Contains_of_drop 4), (Contains_of_drop q1), Contains_of_HasPrefix, Hp.
Qed.

(** a text with a font reference to embed has [@font-face] and [/_next/]
    in it *)
Lemma fontUrlMatches_text (cssString : string) (url : list string) :
  In url (fontUrlMatches cssString) ->
  GoStrings.Contains cssString "@font-face" = true /\
  GoStrings.Contains cssString "/_next/" = true /\
  length url = 2 /\ nth 1 url EmptyString <> EmptyString.
Proof.
  unfold fontUrlMatches. intros H.
  apply in_concat in H as (urls & Hurls & Hin).
  apply in_map_iff in Hurls as (fontFace & <- & Hface).
  destruct (fontFace_in_text cssString fontFace "/_next/" Hface) as [H1 H2].
  split; [exact H1|]. split; [|apply (fontUrl_group fontFace url Hin)].
  apply H2. apply findAll_In_at in Hin as (j & len & Hin).
  apply (Contains_of_drop j). apply (fontUrlAt_next _ _ _ Hin).
Qed.

Lemma fontUrlMatches_none (cssString : string) :
  GoStrings.Contains cssString "@font-face" = false \/
  GoStrings.Contains cssString "/_next/" = false ->
  fontUrlMatches cssString = [].
Proof.
  intros H. destruct (fontUrlMatches cssString) as [|url l] eqn:E; [reflexivity|].
  destruct (fontUrlMatches_text cssString url) as (H1 & H2 & _);
    [rewrite E; left; reflexivity|].
  destruct H as [H|H]; congruence.
Qed.

Lemma rewriteFontFaces_matches config cssString w :
  MainGo.rewriteFontFaces config cssString w
  = forEach (MainGo.embedFont config) (fontUrlMatches cssString) cssString w.
Proof. apply rewriteFontFaces_steps. Qed.

(** * The rewriting of a CSS text: reads, warnings, failures *)

Lemma embedFont_step config cssString url w :
  length url = 2 ->
  exists r w',
    MainGo.embedFont config cssString url w = Some (r, w') /\
    files w' = files w /\ mimeTypes w' = mimeTypes w /\
    reads w' = reads w ++ [fontFile config url] /\
    length (warnings w')
    = length (warnings w) + (if fontFails (files w) config url then 1 else 0) /\
    (fontFails (files w) config url = true -> r = cssString).
Proof.
  intros Hl. unfold fontFails, fontFile.
  assert (E : MainGo.embedFont config cssString url w =
              match files w (Filepath.Join (baseDir config) (nth 1 url EmptyString)) with
              | None =>
                  Some (cssString,
                        afterFailedRead w (Filepath.Join (baseDir config) (nth 1 url EmptyString))
                          (CouldNotReadFont
                             (Filepath.Join (baseDir config) (nth 1 url EmptyString))))
              | Some fontContent =>
                  match MainGo.fontMimeTypes
                          !! GoStrings.ToLower (Filepath.Ext (nth 1 url EmptyString)) with
                  | None =>
                      Some (cssString,
                            afterFailedRead w
                              (Filepath.Join (baseDir config) (nth 1 url EmptyString))
                              (UnknownFontType
                                 (GoStrings.ToLower (Filepath.Ext (nth 1 url EmptyString)))))
                  | Some mimeType =>
                      Some (GoStrings.Replace cssString (nth 1 url EmptyString)
                              (Sprintf_dataURL mimeType (Base64.EncodeToString fontContent)),
                            afterRead w (Filepath.Join (baseDir config) (nth 1 url EmptyString)))
                  end
              end).
  { unfold MainGo.embedFont. rewrite Hl. cbn [Nat.leb]. unfold bind, ReadFile.
    destruct (files w _); [destruct (MainGo.fontMimeTypes !! _)|]; reflexivity. }
  rewrite E. clear E.
  destruct (files w _) as [font|].
  - destruct (MainGo.fontMimeTypes !! _) as [mime|]; eexists _, _;
      (split; [reflexivity|]); simpl; rewrite ?length_app; simpl;
      repeat split; try lia; discriminate.
  - eexists _, _. split; [reflexivity|]. simpl. rewrite length_app. simpl.
    repeat split; lia.
Qed.

Lemma forEach_embedFont config (l : list (list string)) :
  Forall (fun url => length url = 2) l ->
  forall cssString w, exists r w',
    forEach (MainGo.embedFont config) l cssString w = Some (r, w') /\
    files w' = files w /\ mimeTypes w' = mimeTypes w /\
    reads w' = reads w ++ map (fontFile config) l /\
    length (warnings w')
    = length (warnings w) + length (List.filter (fontFails (files w) config) l) /\
    (forallb (fontFails (files w) config) l = true -> r = cssString).
Proof.
  induction 1 as [|url l Hu _ IH]; intros s w; simpl.
  - exists s, w. rewrite app_nil_r. repeat split. lia.
  - destruct (embedFont_step config s url w Hu) as (s1 & w1 & E & Hf & Hm & Hr & Hw & Hs).
    destruct (IH s1 w1) as (s2 & w2 & E2 & Hf2 & Hm2 & Hr2 & Hw2 & Hs2).
    exists s2, w2. unfold bind. rewrite E. split; [exact E2|].
    split; [congruence|]. split; [congruence|].
    split; [rewrite Hr2, Hr, <- app_assoc; reflexivity|].
    rewrite Hf in Hw2, Hs2. split.
    + rewrite Hw2, Hw. destruct (fontFails (files w) config url); simpl; lia.
    + intros H. apply andb_true_iff in H as [H1 H2]. rewrite (Hs2 H2). now apply Hs.
Qed.

Lemma fontUrlMatches_pairs cssString :
  Forall (fun url => length url = 2) (fontUrlMatches cssString).
Proof. apply List.Forall_forall. intros url H. apply (fontUrlMatches_text cssString url H). Qed.

Lemma rewriteFontFaces_without_matches
      (config : Config) (cssString : string) (w : World) :
  GoStrings.Contains cssString "@font-face" = false \/
  GoStrings.Contains cssString "/_next/" = false ->
  MainGo.rewriteFontFaces config cssString w = Some (cssString, w).
Proof.
  intros H. rewrite rewriteFontFaces_matches, (fontUrlMatches_none cssString H).
  reflexivity.
Qed.

(** X8: a CSS text without [@font-face], or without [/_next/], comes out
    of the rewriting byte for byte; no file is read and nothing is
    logged. *)
Theorem rewriteFontFaces_nothing_to_embed
        (config : Config) (cssString : string) (w : World) :
  GoStrings.Contains cssString "@font-face" = false \/
  GoStrings.Contains cssString "/_next/" = false ->
  MainGo.rewriteFontFaces config cssString w = Some (cssString, w).
Proof.
  apply rewriteFontFaces_without_matches.
Qed.

Lemma rewriteFontFaces_nothing_to_embed_witness :
  MainGo.rewriteFontFaces Scenario.config "body{background:url(/img/bg.png)}" Scenario.world
  = Some ("body{background:url(/img/bg.png)}", Scenario.world).
Proof.
  apply (rewriteFontFaces_nothing_to_embed Scenario.config
           "body{background:url(/img/bg.png)}" Scenario.world).
  left. reflexivity.
Defined.

(** X9: on a stylesheet link whose CSS file has no [@font-face] or no
    [/_next/] in it (also when the file cannot be read, or the link has no
    href), [embedCSS] of [main.go] and [embedCSS] of the variant with image
    embedding do the same: same child list of the parent, same reads, same
    log, same panic on a nil parent. *)
Theorem embedCSS_variants_agree
        (n : Node) (config : Config) (parent : option Family) (w : World) :
  (forall cssContent,
      files w (MainGo.cssPath n config) = Some cssContent ->
      GoStrings.Contains cssContent "@font-face" = false \/
      GoStrings.Contains cssContent "/_next/" = false) ->
  MainGo.embedCSS n config parent w = Part001.embedCSS n config parent w.
Proof.
  intros H.
  destruct (String.eqb_spec (firstVal "href" (Attr n)) EmptyString) as [Eh|Eh].
  { unfold MainGo.embedCSS, Part001.embedCSS. rewrite Eh. reflexivity. }
  destruct (files w (MainGo.cssPath n config)) as [css|] eqn:E.
  - rewrite (variant_embedCSS_read n config parent w css Eh E).
    rewrite embedCSS_unfold by assumption.
    unfold bind at 1. unfold ReadFile. rewrite E.
    unfold bind at 1.
    rewrite (rewriteFontFaces_without_matches config css _ (H css eq_refl)).
    destruct parent; reflexivity.
  - rewrite (embedCSS_missing_file n config parent w Eh E).
    unfold Part001.embedCSS.
    destruct (String.eqb_spec (firstVal "href" (Attr n)) EmptyString); [contradiction|].
    unfold MainGo.cssPath in E. cbv zeta in E.
    unfold bind, ReadFile. cbv beta. rewrite E. reflexivity.
Qed.

Lemma embedCSS_variants_agree_witness :
  let w := {| files := fun path => if String.eqb path "plain.css"
                                   then Some "body{margin:0}" else None;
              mimeTypes := fun _ => EmptyString; reads := []; warnings := [] |} in
  let n := Scenario.element "link"
             [ Scenario.attr "rel" "stylesheet"; Scenario.attr "href" "plain.css" ] [] in
  files w (MainGo.cssPath n Scenario.config) = Some "body{margin:0}" /\
  MainGo.embedCSS n Scenario.config (Some Scenario.family) w
  = Part001.embedCSS n Scenario.config (Some Scenario.family) w.
Proof.
  split; [reflexivity|].
  apply (embedCSS_variants_agree
           (Scenario.element "link"
              [ Scenario.attr "rel" "stylesheet"; Scenario.attr "href" "plain.css" ] [])
           Scenario.config (Some Scenario.family)
           {| files := fun path => if String.eqb path "plain.css"
                                   then Some "body{margin:0}" else None;
              mimeTypes := fun _ => EmptyString; reads := []; warnings := [] |}).
  intros cssContent H. vm_compute in H. injection H as <-. left. reflexivity.
Defined.

(** X10: the rewriting of a CSS text never panics, leaves the files as they
    are and reads one font file for every match of the url pattern in the
    font face rules of the text as read, in their order: the base
    directory joined with the matched path, once for each match, whether
    or not the same path was read before. *)
Theorem rewriteFontFaces_reads (config : Config) (cssString : string) (w : World) :
  exists r w',
    MainGo.rewriteFontFaces config cssString w = Some (r, w') /\
    files w' = files w /\
    reads w'
    = reads w ++ map (fun url => Filepath.Join (baseDir config) (nth 1 url EmptyString))
                     (fontUrlMatches cssString).
Proof.
  destruct (forEach_embedFont config (fontUrlMatches cssString)
              (fontUrlMatches_pairs cssString) cssString w)
    as (r & w' & E & Hf & _ & Hr & _).
  exists r, w'. rewrite rewriteFontFaces_matches. repeat split; assumption.
Qed.

(** X11: when no matched font can be embedded (each file unreadable, or its
    lower-cased extension not in the font table), the rewriting returns
    the CSS text as read, and logs one warning for every match. *)
Theorem rewriteFontFaces_all_fail (config : Config) (cssString : string) (w : World) :
  forallb (fontFails (files w) config) (fontUrlMatches cssString) = true ->
  exists w',
    MainGo.rewriteFontFaces config cssString w = Some (cssString, w') /\
    length (warnings w') = length (warnings w) + length (fontUrlMatches cssString).
Proof.
  intros H.
  destruct (forEach_embedFont config (fontUrlMatches cssString)
              (fontUrlMatches_pairs cssString) cssString w)
    as (r & w' & E & _ & _ & _ & Hw & Hs).
  exists w'. rewrite rewriteFontFaces_matches, E, (Hs H). split; [reflexivity|].
  rewrite Hw. f_equal. f_equal. clear -H.
  induction (fontUrlMatches cssString) as [|u l IH]; simpl in *; [reflexivity|].
  apply andb_true_iff in H as [-> H]. simpl. now rewrite IH.
Qed.

Lemma rewriteFontFaces_all_fail_witness :
  exists w',
    MainGo.rewriteFontFaces Scenario.config
      "@font-face{src:url(/_next/gone.woff2)} @font-face{src:url(/_next/logo.png)}"
      Scenario.world
    = Some ("@font-face{src:url(/_next/gone.woff2)} @font-face{src:url(/_next/logo.png)}", w')
    /\ length (warnings w') = length (warnings Scenario.world) + 2.
Proof.
  apply (rewriteFontFaces_all_fail Scenario.config
           "@font-face{src:url(/_next/gone.woff2)} @font-face{src:url(/_next/logo.png)}"
           Scenario.world).
  vm_compute. reflexivity.
Defined.

(** * The reads of one stylesheet *)

(** X12: embedding a stylesheet whose file is read hands to [os.ReadFile]
    the CSS path first and then one font path for every match of the url
    pattern in the font face rules of the file as read, in their order;
    the files stay as they are and the link gives its place to one style
    element. *)
Theorem embedCSS_reads
        (n : Node) (config : Config) (f : Family) (w : World) (cssContent : string) :
  firstVal "href" (Attr n) <> EmptyString ->
  files w (MainGo.cssPath n config) = Some cssContent ->
  exists cssString w',
    MainGo.embedCSS n config (Some f) w
    = Some (Some (RemoveChild (InsertBefore (MainGo.styleNode cssString) f)), w') /\
    files w' = files w /\
    reads w'
    = reads w ++ MainGo.cssPath n config
              :: map (fontFile config) (fontUrlMatches cssContent).
Proof.
  intros Hh Hf. rewrite embedCSS_unfold by assumption.
  unfold bind at 1. unfold ReadFile. rewrite Hf.
  destruct (forEach_embedFont config (fontUrlMatches cssContent)
              (fontUrlMatches_pairs cssContent) cssContent
              (afterRead w (MainGo.cssPath n config)))
    as (r & w' & E & Hfs & _ & Hr & _).
  exists r, w'. unfold bind at 1. fold (afterRead w (MainGo.cssPath n config)).
  rewrite rewriteFontFaces_matches, E. split; [reflexivity|].
  split; [exact Hfs|]. rewrite Hr. simpl. rewrite <- app_assoc. reflexivity.
Qed.

Lemma embedCSS_reads_witness :
  exists cssString w',
    MainGo.embedCSS Scenario.stylesheetLink Scenario.config (Some Scenario.family)
      Scenario.world
    = Some (Some (RemoveChild (InsertBefore (MainGo.styleNode cssString) Scenario.family)),
            w') /\
    files w' = files Scenario.world /\
    reads w' = [ "style.css"; "site/_next/static/font.woff2" ].
Proof.
  apply (embedCSS_reads Scenario.stylesheetLink Scenario.config Scenario.family
           Scenario.world Scenario.styleCSS).
  - discriminate.
  - reflexivity.
Defined.

(** * Bytes of a string *)

Lemma allBytes_append (p : ascii -> bool) (s t : string) :
  allBytes p (s +:+ t) = allBytes p s && allBytes p t.
Proof.
  induction s as [|c s IH]; [reflexivity|].
  rewrite append_cons. simpl. rewrite IH. apply andb_assoc.
Qed.

Lemma allBytes_impl (p q : ascii -> bool) (s : string) :
  (forall c, p c = true -> q c = true) -> allBytes p s = true -> allBytes q s = true.
Proof.
  intros H. induction s as [|c s IH]; simpl; [reflexivity|].
  intros E. apply andb_true_iff in E as [E1 E2]. now rewrite (H c E1), IH.
Qed.

Lemma allBytes_HasPrefix (p : ascii -> bool) (s t : string) :
  GoStrings.HasPrefix s t = true -> allBytes p s = true -> allBytes p t = true.
Proof.
  revert s. induction t as [|c t IH]; intros s; [reflexivity|].
  destruct s as [|d s]; simpl; [discriminate|].
  intros H E. apply andb_true_iff in H as [Hc H]. apply andb_true_iff in E as [E1 E2].
  apply Ascii.eqb_eq in Hc. subst d. rewrite E1. simpl. now apply (IH s).
Qed.

(** a piece of a text has only bytes of the text *)
Lemma allBytes_Contains (p : ascii -> bool) (s t : string) :
  GoStrings.Contains s t = true -> allBytes p s = true -> allBytes p t = true.
Proof.
  induction s as [|c s IH]; rewrite Contains_unfold.
  - rewrite orb_false_r. intros H _. destruct t; [reflexivity|discriminate].
  - intros H E. apply orb_true_iff in H as [H|H].
    + now apply (allBytes_HasPrefix p (String c s)).
    + simpl in E. apply andb_true_iff in E as [_ E]. now apply IH.
Qed.

(** * The font type of a path *)

Lemma lowerByte_twice (c : ascii) :
  GoStrings.lowerByte (GoStrings.lowerByte c) = GoStrings.lowerByte c.
Proof. destruct c as [[] [] [] [] [] [] [] []]; reflexivity. Qed.

Lemma lowerByte_dot_slash (c : ascii) :
  Filepath.isDot (GoStrings.lowerByte c) = Filepath.isDot c /\
  Filepath.isSlash (GoStrings.lowerByte c) = Filepath.isSlash c.
Proof. destruct c as [[] [] [] [] [] [] [] []]; split; reflexivity. Qed.

Lemma ToLower_twice (s : string) :
  GoStrings.ToLower (GoStrings.ToLower s) = GoStrings.ToLower s.
Proof. induction s as [|c s IH]; simpl; [reflexivity|]. now rewrite lowerByte_twice, IH. Qed.

Lemma hasDotOrSlash_ToLower (s : string) :
  Filepath.hasDotOrSlash (GoStrings.ToLower s) = Filepath.hasDotOrSlash s.
Proof.
  induction s as [|c s IH]; simpl; [reflexivity|].
  destruct (lowerByte_dot_slash c) as [-> ->]. now rewrite IH.
Qed.

Lemma Ext_ToLower (path : string) :
  Filepath.Ext (GoStrings.ToLower path) = GoStrings.ToLower (Filepath.Ext path).
Proof.
  induction path as [|c s IH]; [reflexivity|].
  cbn [GoStrings.ToLower Filepath.Ext]. rewrite hasDotOrSlash_ToLower.
  destruct (Filepath.hasDotOrSlash s); [exact IH|].
  destruct (lowerByte_dot_slash c) as [-> _].
  destruct (Filepath.isDot c); reflexivity.
Qed.

(** X15: the font type [embedCSS] finds for a font path does not depend on
    the case of its ASCII letters: two paths that are equal in lower case
    are looked up in the font table under the same key, the lower-cased
    extension of the last element. *)
Theorem font_type_ignores_case (fontPath fontPath' : string) :
  GoStrings.ToLower fontPath = GoStrings.ToLower fontPath' ->
  GoStrings.ToLower (Filepath.Ext fontPath) = GoStrings.ToLower (Filepath.Ext fontPath') /\
  MainGo.fontMimeTypes !! GoStrings.ToLower (Filepath.Ext fontPath)
  = MainGo.fontMimeTypes !! GoStrings.ToLower (Filepath.Ext fontPath').
Proof.
  intros H.
  assert (E : forall p, GoStrings.ToLower (Filepath.Ext p)
                        = GoStrings.ToLower (Filepath.Ext (GoStrings.ToLower p)))
    by (intros p; now rewrite Ext_ToLower, ToLower_twice).
  assert (E' : GoStrings.ToLower (Filepath.Ext fontPath)
               = GoStrings.ToLower (Filepath.Ext fontPath'))
    by (now rewrite (E fontPath), (E fontPath'), H).
  split; [exact E'|now rewrite E'].
Qed.

Lemma font_type_ignores_case_witness :
  MainGo.fontMimeTypes !! GoStrings.ToLower (Filepath.Ext "/_next/Fonts/Inter.WOFF2")
  = MainGo.fontMimeTypes !! GoStrings.ToLower (Filepath.Ext "/_next/fonts/inter.woff2") /\
  MainGo.fontMimeTypes !! GoStrings.ToLower (Filepath.Ext "/_next/fonts/inter.woff2")
  = Some "font/woff2".
Proof.
  split; [|vm_compute; reflexivity].
  apply (font_type_ignores_case "/_next/Fonts/Inter.WOFF2" "/_next/fonts/inter.woff2").
  reflexivity.
Defined.

(** * A data URI holds no font path *)

Lemma base64_byte_not_underscore (c : ascii) :
  isBase64Byte c = true -> negb (Ascii.eqb c "_") = true.
Proof.
  intros H. destruct (Ascii.eqb_spec c "_"%char) as [->|]; [|reflexivity].
  vm_compute in H. discriminate.
Qed.

Lemma font_type_values (ext mimeType : string) :
  MainGo.fontMimeTypes !! ext = Some mimeType ->
  In mimeType [ "font/woff2"; "font/woff"; "font/ttf";
                "application/vnd.ms-fontobject"; "font/otf" ].
Proof.
  unfold MainGo.fontMimeTypes. intros H.
  apply elem_of_list_to_map_2 in H.
  repeat (apply elem_of_cons in H as [H|H]; [injection H as _ ->; simpl; tauto|]).
  now apply elem_of_nil in H.
Qed.

(** X16: the data URI written for a font of the font table has no
    underscore in it, so no font path (each starts with [/_next/]) occurs
    inside it, whatever the bytes of the font file. *)
Theorem data_uri_holds_no_font_path (ext mimeType fontContent fontPath : string) :
  MainGo.fontMimeTypes !! ext = Some mimeType ->
  GoStrings.HasPrefix fontPath "/_next/" = true ->
  allBytes (fun c => negb (Ascii.eqb c "_"))
           (Sprintf_dataURL mimeType (Base64.EncodeToString fontContent)) = true /\
  GoStrings.Contains (Sprintf_dataURL mimeType (Base64.EncodeToString fontContent))
    fontPath = false.
Proof.
  intros Hm Hp.
  set (p := fun c => negb (Ascii.eqb c "_")).
  assert (Hu : allBytes p (Sprintf_dataURL mimeType (Base64.EncodeToString fontContent)) = true).
  { unfold Sprintf_dataURL. rewrite !allBytes_append.
    assert (Hb : allBytes p (Base64.EncodeToString fontContent) = true)
      by (apply (allBytes_impl isBase64Byte); [apply base64_byte_not_underscore
                                              |apply EncodeToString_std]).
    rewrite Hb. apply font_type_values in Hm. simpl in Hm.
    repeat (destruct Hm as [<-|Hm]; [reflexivity|]). contradiction. }
  split; [exact Hu|].
  destruct (GoStrings.Contains _ fontPath) eqn:E; [|reflexivity].
  pose proof (allBytes_Contains p _ _ E Hu) as Ht.
  pose proof (allBytes_HasPrefix p fontPath "/_next/" Hp Ht) as Hn.
  vm_compute in Hn. discriminate.
Qed.

Lemma data_uri_holds_no_font_path_witness :
  allBytes (fun c => negb (Ascii.eqb c "_"))
           (Sprintf_dataURL "font/woff2" (Base64.EncodeToString "foobar")) = true /\
  GoStrings.Contains (Sprintf_dataURL "font/woff2" (Base64.EncodeToString "foobar"))
    "/_next/static/font.woff2" = false.
Proof.
  apply (data_uri_holds_no_font_path ".woff2" "font/woff2" "foobar" "/_next/static/font.woff2").
  - vm_compute. reflexivity.
  - reflexivity.
Defined.

(** * Images *)

Lemma setFirstVal_split (key val : string) (attrs : list Attribute) :
  firstVal key attrs <> EmptyString ->
  exists before a after,
    attrs = before ++ a :: after /\
    Forall (fun b => Key b <> key) before /\
    Key a = key /\ Val a = firstVal key attrs /\
    Part001.setFirstVal key val attrs
    = before ++ {| Namespace := Namespace a; Key := Key a; Val := val |} :: after.
Proof.
  induction attrs as [|b attrs IH]; simpl; [congruence|].
  destruct (String.eqb_spec (Key b) key) as [E|E]; intros H.
  - exists [], b, attrs. repeat split; [constructor|exact E].
  - destruct (IH H) as (before & a & after & -> & Hb & Hk & Hv & Hs).
    exists (b :: before), a, after. rewrite Hs.
    repeat split; try assumption. constructor; assumption.
Qed.

(** X17: an image that is embedded keeps its attributes in their order;
    the one thing rewritten is the value of the first [src] attribute,
    which becomes the data URI: [data:], the type that
    [mime.TypeByExtension] gives for the extension of the path read
    ([image/png] when it gives none), [;base64,] and the base64 encoding
    of the file.  Attributes before and after it, a second [src] among
    them, the node's type, name and children stay. *)
Theorem embedImage_rewrites_first_src
        (n : Node) (config : Config) (w : World) (imgContent : string) :
  firstVal "src" (Attr n) <> EmptyString ->
  Part001.processed config (firstVal "src" (Attr n)) = false ->
  files w (Part001.imagePath n config) = Some imgContent ->
  let path := Part001.imagePath n config in
  let mimeType := if String.eqb (mimeTypes w (Filepath.Ext path)) EmptyString
                  then "image/png" else mimeTypes w (Filepath.Ext path) in
  let dataURL := "data:" +:+ mimeType +:+ ";base64," +:+ Base64.EncodeToString imgContent in
  exists before a after,
    Attr n = before ++ a :: after /\
    Forall (fun b => Key b <> "src") before /\
    Key a = "src" /\ Val a = firstVal "src" (Attr n) /\
    Part001.embedImage n config w
    = Some ((mkNode (Type' n) (Data n)
                    (before ++ {| Namespace := Namespace a; Key := "src"; Val := dataURL |}
                            :: after)
                    (Children n),
             Part001.markProcessed config path),
            afterRead w path).
Proof.
  intros Hs Hp Hf path mimeType dataURL.
  pose proof (embedImage_read n config w imgContent Hs Hp Hf) as E. cbv zeta in E.
  destruct (setFirstVal_split "src" dataURL (Attr n) Hs)
    as (before & a & after & Ea & Hb & Hk & Hv & Hset).
  exists before, a, after.
  split; [exact Ea|]. split; [exact Hb|]. split; [exact Hk|]. split; [exact Hv|].
  rewrite E. unfold setAttr. fold path. fold mimeType.
  change (Sprintf_dataURL mimeType (Base64.EncodeToString imgContent)) with dataURL.
  rewrite Hset, Hk. reflexivity.
Qed.

Lemma embedImage_rewrites_first_src_witness :
  exists before a after,
    Attr Scenario.image = before ++ a :: after /\
    Forall (fun b => Key b <> "src") before /\
    Key a = "src" /\ Val a = "/_next/logo.png" /\
    Part001.embedImage Scenario.image Scenario.config Scenario.world
    = Some ((mkNode (Type' Scenario.image) (Data Scenario.image)
                    (before ++ {| Namespace := Namespace a; Key := "src";
                                  Val := "data:image/png;base64,UE5H" |}
                            :: after)
                    (Children Scenario.image),
             Part001.markProcessed Scenario.config "site/_next/logo.png"),
            afterRead Scenario.world "site/_next/logo.png").
Proof.
  apply (embedImage_rewrites_first_src Scenario.image Scenario.config Scenario.world "PNG").
  - discriminate.
  - reflexivity.
  - reflexivity.
Defined.

Lemma setFirstVal_keys (key val : string) (attrs : list Attribute) :
  map Key (Part001.setFirstVal key val attrs) = map Key attrs.
Proof.
  induction attrs as [|a attrs IH]; simpl; [reflexivity|].
  destruct (String.eqb (Key a) key); simpl; [reflexivity|now rewrite IH].
Qed.

Lemma processed_markProcessed_other config path s :
  Part001.processed (Part001.markProcessed config path) s = true ->
  Part001.processed config s = true \/ s = path.
Proof.
  unfold Part001.processed, Part001.markProcessed. simpl.
  destruct (decide (path = s)) as [->|Hne]; [now right|].
  rewrite lookup_insert_ne by assumption. now left.
Qed.

Lemma processed_markProcessed_kept config path s :
  Part001.processed config s = true ->
  Part001.processed (Part001.markProcessed config path) s = true.
Proof.
  unfold Part001.processed, Part001.markProcessed. simpl.
  destruct (decide (path = s)) as [->|Hne]; [now rewrite lookup_insert_eq|].
  now rewrite lookup_insert_ne.
Qed.

(** X18: [embedImage] always returns (it follows no parent pointer).  It
    leaves the files, the node's type, name and children and the keys of
    its attributes as they are; a source in the set of processed URLs
    stays in it, at most the path handed to [os.ReadFile] is added; the
    other fields of the configuration stay. *)
Theorem embedImage_keeps (n : Node) (config : Config) (w : World) :
  exists n' config' w',
    Part001.embedImage n config w = Some ((n', config'), w') /\
    files w' = files w /\
    Type' n' = Type' n /\ Data n' = Data n /\ Children n' = Children n /\
    map Key (Attr n') = map Key (Attr n) /\
    (forall s, Part001.processed config s = true -> Part001.processed config' s = true) /\
    (forall s, Part001.processed config' s = true ->
               Part001.processed config s = true \/ s = Part001.imagePath n config) /\
    inputFile config' = inputFile config /\ outputFile config' = outputFile config /\
    removeJS config' = removeJS config /\ baseDir config' = baseDir config.
Proof.
  unfold Part001.embedImage.
  destruct (String.eqb (firstVal "src" (Attr n)) EmptyString
            || Part001.processed config (firstVal "src" (Attr n))).
  { exists n, config, w. repeat split; auto. }
  fold (Part001.imagePath n config).
  unfold bind, ReadFile, Printf, TypeByExtension, ret. cbv beta.
  destruct (files w (Part001.imagePath n config)) as [img|].
  - eexists _, _, _. split; [reflexivity|]. simpl.
    rewrite setFirstVal_keys. repeat split.
    + apply processed_markProcessed_kept.
    + apply processed_markProcessed_other.
  - exists n, config. eexists. split; [reflexivity|]. simpl. repeat split; auto.
Qed.

Lemma embedImage_keeps_witness :
  exists n' config' w',
    Part001.embedImage Scenario.image Scenario.config Scenario.world
    = Some ((n', config'), w') /\
    map Key (Attr n') = [ "alt"; "src" ] /\
    (Part001.processed config' "site/_next/logo.png" = true ->
     Part001.processed Scenario.config "site/_next/logo.png" = true \/
     "site/_next/logo.png" = Part001.imagePath Scenario.image Scenario.config) /\
    baseDir config' = "site".
Proof.
  destruct (embedImage_keeps Scenario.image Scenario.config Scenario.world)
    as (n' & config' & w' & E & _ & _ & _ & _ & Hk & _ & Hp & _ & _ & _ & Hb).
  exists n', config', w'. split; [exact E|]. split; [exact Hk|].
  split; [apply Hp|exact Hb].
Defined.

(** X19: a failed read is not remembered: for an image whose file cannot
    be read, [embedImage] leaves node and configuration as they are, and
    every further call hands the same path to [os.ReadFile] again and logs
    the warning again. *)
Theorem embedImage_retries
        (n : Node) (config : Config) (w : World) :
  firstVal "src" (Attr n) <> EmptyString ->
  Part001.processed config (firstVal "src" (Attr n)) = false ->
  files w (Part001.imagePath n config) = None ->
  let path := Part001.imagePath n config in
  let w1 := afterFailedRead w path (CouldNotReadImage path) in
  let w2 := afterFailedRead w1 path (CouldNotReadImage path) in
  Part001.embedImage n config w = Some ((n, config), w1) /\
  Part001.embedImage n config w1 = Some ((n, config), w2) /\
  reads w2 = reads w ++ [ path; path ] /\
  warnings w2 = warnings w ++ [ CouldNotReadImage path; CouldNotReadImage path ].
Proof.
  intros Hs Hp Hf path w1 w2.
  assert (E : forall w0, files w0 (Part001.imagePath n config) = None ->
                         Part001.embedImage n config w0
                         = Some ((n, config),
                                 afterFailedRead w0 path (CouldNotReadImage path))).
  { intros w0 H0. unfold Part001.embedImage.
    destruct (String.eqb_spec (firstVal "src" (Attr n)) EmptyString); [contradiction|].
    rewrite Hp. cbn [orb]. fold (Part001.imagePath n config).
    unfold bind, ReadFile. cbv beta. rewrite H0. reflexivity. }
  split; [apply E, Hf|]. split; [apply E, Hf|].
  subst w2 w1. simpl. rewrite <- !app_assoc. split; reflexivity.
Qed.

Lemma embedImage_retries_witness :
  let n := Scenario.element "img" [ Scenario.attr "src" "gone.png" ] [] in
  let w1 := afterFailedRead Scenario.world "gone.png" (CouldNotReadImage "gone.png") in
  let w2 := afterFailedRead w1 "gone.png" (CouldNotReadImage "gone.png") in
  Part001.embedImage n Scenario.config Scenario.world = Some ((n, Scenario.config), w1) /\
  Part001.embedImage n Scenario.config w1 = Some ((n, Scenario.config), w2) /\
  reads w2 = reads Scenario.world ++ [ "gone.png"; "gone.png" ] /\
  warnings w2
  = warnings Scenario.world ++ [ CouldNotReadImage "gone.png"; CouldNotReadImage "gone.png" ].
Proof.
  apply (embedImage_retries (Scenario.element "img" [ Scenario.attr "src" "gone.png" ] [])
           Scenario.config Scenario.world).
  - discriminate.
  - reflexivity.
  - reflexivity.
Defined.

(** * How a link is classified *)

Lemma fold_left_snoc {A S} (f : S -> A -> S) (l : list A) (a : A) (s : S) :
  fold_left f (l ++ [a]) s = f (fold_left f l s) a.
Proof. now rewrite fold_left_app. Qed.

Lemma existsb_In_attr (p : Attribute -> bool) (l : list Attribute) :
  existsb p l = true <-> exists a, In a l /\ p a = true.
Proof. apply existsb_exists. Qed.

(** X20: of several [rel] (or [as]) attributes, the last one decides
    whether a link is a script preload; for a stylesheet link any [rel]
    attribute with the value [stylesheet] is enough.  A missing attribute
    counts as the empty value. *)
Theorem link_classification (n : Node) :
  isPreloadJS n
  = String.eqb (firstVal "rel" (rev (Attr n))) "preload"
    && String.eqb (firstVal "as" (rev (Attr n))) "script" /\
  (isStylesheet n = true <->
   exists a, In a (Attr n) /\ Key a = "rel" /\ Val a = "stylesheet").
Proof.
  split.
  - unfold isPreloadJS.
    assert (E : fold_left
                  (fun '(rel, as') a =>
                     if String.eqb (Key a) "rel" then (Val a, as')
                     else if String.eqb (Key a) "as" then (rel, Val a) else (rel, as'))
                  (Attr n) (EmptyString, EmptyString)
                = (firstVal "rel" (rev (Attr n)), firstVal "as" (rev (Attr n)))).
    { induction (Attr n) as [|a l IH] using rev_ind; [reflexivity|].
      rewrite fold_left_snoc, IH, rev_app_distr. simpl.
      destruct (String.eqb_spec (Key a) "rel") as [Er|Er].
      - rewrite Er. reflexivity.
      - destruct (String.eqb (Key a) "as"); reflexivity. }
    rewrite E. reflexivity.
  - unfold isStylesheet. rewrite existsb_exists. split.
    + intros (a & Ha & H). apply andb_true_iff in H as [H1 H2].
      apply String.eqb_eq in H1, H2. now exists a.
    + intros (a & Ha & H1 & H2). exists a. split; [exact Ha|].
      now rewrite H1, H2.
Qed.

Lemma link_classification_witness :
  isPreloadJS (Scenario.element "link"
                 [ Scenario.attr "rel" "preload"; Scenario.attr "as" "script";
                   Scenario.attr "rel" "stylesheet" ] []) = false /\
  isStylesheet (Scenario.element "link"
                  [ Scenario.attr "rel" "preload"; Scenario.attr "as" "script";
                    Scenario.attr "rel" "stylesheet" ] []) = true.
Proof.
  destruct (link_classification
              (Scenario.element "link"
                 [ Scenario.attr "rel" "preload"; Scenario.attr "as" "script";
                   Scenario.attr "rel" "stylesheet" ] [])) as [H1 H2].
  split; [rewrite H1; reflexivity|].
  apply H2. exists (Scenario.attr "rel" "stylesheet"). simpl. tauto.
Defined.

(** * A stylesheet link without href *)

(** X21: a stylesheet link without [href] attribute, or with an empty
    one, is passed over in silence: [embedCSS] (of either file) reads no
    file, logs nothing and does not follow the parent pointer; so
    [processNode] walks such a link even without parent, and leaves it at
    its place with its children walked. *)
Theorem link_without_href
        (n : Node) (config : Config) (parent : option Family) (w : World) :
  firstVal "href" (Attr n) = EmptyString ->
  MainGo.embedCSS n config parent w = Some (parent, w) /\
  Part001.embedCSS n config parent w = Some (parent, w) /\
  (isLink n = true -> isStylesheet n = true ->
   isPreloadJS n && removeJS config = false ->
   exists cs w',
     MainGo.processChildren config [] (Children n) w = Some (cs, w') /\
     MainGo.processNode n config parent w
     = Some ((setChildren (strip config n) cs, parent), w')).
Proof.
  intros Eh.
  assert (E1 : MainGo.embedCSS n config parent w = Some (parent, w))
    by (unfold MainGo.embedCSS; rewrite Eh; reflexivity).
  split; [exact E1|].
  split; [unfold Part001.embedCSS; rewrite Eh; reflexivity|].
  intros Hl Hs Hp.
  assert (Hw : Forall walks (Children n))
    by (apply List.Forall_forall; intros; apply processNode_some).
  destruct (processChildren_some config (Children n) Hw [] w) as (cs & w' & E & _).
  exists cs, w'. split; [exact E|].
  rewrite processNode_unfold. unfold bind at 1. rewrite nodeRules_cases, Hl, Hs.
  assert (Hn : (isScript n || true && isPreloadJS n) && removeJS config = false).
  { unfold isScript, isLink in *. apply andb_true_iff in Hl as [_ Hl].
    apply String.eqb_eq in Hl. rewrite Hl. simpl. rewrite andb_false_r. exact Hp. }
  rewrite Hn. simpl andb. cbv iota. unfold bind at 1. rewrite E1.
  unfold bind, ret. rewrite E. reflexivity.
Qed.

Lemma link_without_href_witness :
  exists cs w',
    MainGo.processChildren Scenario.config []
      (Children (Scenario.element "link" [ Scenario.attr "rel" "stylesheet" ] []))
      Scenario.world = Some (cs, w') /\
    MainGo.processNode (Scenario.element "link" [ Scenario.attr "rel" "stylesheet" ] [])
      Scenario.config None Scenario.world
    = Some ((setChildren
               (strip Scenario.config
                      (Scenario.element "link" [ Scenario.attr "rel" "stylesheet" ] []))
               cs, None), w').
Proof.
  destruct (link_without_href
              (Scenario.element "link" [ Scenario.attr "rel" "stylesheet" ] [])
              Scenario.config None Scenario.world) as (_ & _ & H).
  - reflexivity.
  - apply H; reflexivity.
Defined.
